(** * Heart Sync front end: auth gate, patient hooks and report submission

    A shallow embedding of the TypeScript sources of the Heart Sync
    dashboard (Next.js middleware, the axios API client, the React hooks
    [usePatients], [useVitalSigns], [useRiskAssessment], the new-patient
    page and the patient-details page), followed by the properties that the
    specification states about them.

    Conventions of the embedding:
    - a JavaScript string is a Rocq [string] holding its UTF-8 encoding; the
      "binary string" that [atob] returns is the same type read byte by byte;
    - a JavaScript number is an exact decimal [m * 10^e] or [NaN]; rounding
      to binary64 and overflow to Infinity are outside the model;
    - the only functions are the methods of the built-in prototypes, which
      a value inherits and which are known by their names;
    - an abrupt completion ([throw]) is the [Throw] constructor of
      [Completion]; [try]/[catch] is a [match] on it;
    - React state is an explicit record threaded through each hook function;
      [console.error] output is not recorded. *)

From Stdlib Require Import ZArith Ascii String Bool Lia.
From Stdlib Require Import Decimal DecimalString DecimalN.
From stdpp Require Import gmap strings list.

(* ================================================================== *)
(** * The JavaScript values and built-ins the sources rely on *)
(* ================================================================== *)

Module Js.

Set Warnings "-register-all".

Inductive JsNumber : Type :=
| NaN
| Dec (m e : Z).

Inductive JsValue : Type :=
| JUndefined
| JNull
| JBool (b : bool)
| JNum (n : JsNumber)
| JStr (s : string)
| JArr (xs : list JsValue)
| JObj (props : list (string * JsValue))
| JDate (t : option Z)
| JFun (name : string).

Inductive JsError : Type :=
| TypeError
| SyntaxError
| URIError
| RangeError
| InvalidCharacterError
| AxiosError (response : option (Z * JsValue)).

Inductive Completion (A : Type) : Type :=
| Normal (a : A)
| Throw (e : JsError).
Arguments Normal {A} a.
Arguments Throw {A} e.

#[global] Instance Completion_ret : MRet Completion := fun A a => Normal a.
#[global] Instance Completion_bind : MBind Completion := fun A B f c =>
  match c with
  | Normal a => f a
  | Throw e => Throw e
  end.

Definition threw {A} (c : Completion A) : bool :=
  match c with
  | Normal _ => false
  | Throw _ => true
  end.

(** The parts of the built-ins that depend on the host: for [Date], its
    clock zone and the date formats it accepts (a time value is a number of
    milliseconds since the epoch; [None] is the time value NaN of an Invalid
    Date); for a built-in function, the text that
    [Function.prototype.toString] gives for it, of which ECMAScript fixes the
    form only. *)
Class Host : Type := {
  Date_parse : string -> option Z;
  Date_getFullYear : Z -> Z;
  Date_toString : Z -> string;
  Date_toISOString : Z -> string;
  Function_toString : string -> string
}.

(** ** Strings *)

Definition dquote : ascii := "034"%char.
Definition backslash : ascii := "092"%char.

(** [s.split(sep)] for a one-character separator. *)
Fixpoint split (sep : ascii) (s : string) : list string :=
  match s with
  | EmptyString => [EmptyString]
  | String c r =>
      if Ascii.eqb c sep then EmptyString :: split sep r
      else match split sep r with
           | h :: t => String c h :: t
           | [] => [String c EmptyString]
           end
  end.

(** [parts.join(sep)] on strings. *)
Fixpoint join (sep : string) (parts : list string) : string :=
  match parts with
  | [] => EmptyString
  | [x] => x
  | x :: r => x +:+ sep +:+ join sep r
  end.

(** [s.replace(/a/g, b)] for single characters. *)
Fixpoint replace_all (a b : ascii) (s : string) : string :=
  match s with
  | EmptyString => EmptyString
  | String c r => String (if Ascii.eqb c a then b else c) (replace_all a b r)
  end.

Definition startsWith (s p : string) : bool := String.prefix p s.

(** [s.slice(-2)]. *)
Definition slice_last2 (s : string) : string :=
  String.substring (String.length s - 2) 2 s.

Definition is_empty (s : string) : bool :=
  match s with
  | EmptyString => true
  | String _ _ => false
  end.

(** [a || b] on strings, where [a] may be undefined. *)
Definition or_else (a : option string) (b : string) : string :=
  match a with
  | Some s => if is_empty s then b else s
  | None => b
  end.

(** Every character of [s] satisfies [f]. *)
Fixpoint all_chars (f : ascii -> bool) (s : string) : bool :=
  match s with
  | EmptyString => true
  | String c r => f c && all_chars f r
  end.

(** Removal of the leading and trailing characters that [ws] selects. *)
Fixpoint strip_left (ws : ascii -> bool) (s : string) : string :=
  match s with
  | String c r => if ws c then strip_left ws r else s
  | EmptyString => s
  end.

Fixpoint strip_right (ws : ascii -> bool) (s : string) : string :=
  match s with
  | EmptyString => EmptyString
  | String c r =>
      let r' := strip_right ws r in
      if ws c && is_empty r' then EmptyString else String c r'
  end.

Definition strip (ws : ascii -> bool) (s : string) : string :=
  strip_right ws (strip_left ws s).

Definition code (c : ascii) : N := N_of_ascii c.
Definition chr (n : N) : ascii := ascii_of_N (n mod 256).

Definition between (lo hi n : N) : bool := ((lo <=? n) && (n <=? hi))%N.

Definition is_digit (c : ascii) : bool := between 48 57 (code c).

(** The visible characters of ASCII. *)
Definition visible (c : ascii) : bool := between 33 126 (code c).

Definition hex_value (c : ascii) : option N :=
  let n := code c in
  if between 48 57 n then Some (n - 48)%N
  else if between 97 102 n then Some (n - 87)%N
  else if between 65 70 n then Some (n - 55)%N
  else None.

Definition hex_digit (n : N) : ascii :=
  if (n <? 10)%N then chr (48 + n) else chr (87 + n).

(** [n.toString(16)] for a character code below 256. *)
Definition toString16 (n : N) : string :=
  if (n <? 16)%N then String (hex_digit n) EmptyString
  else String (hex_digit (n / 16)) (String (hex_digit (n mod 16)) EmptyString).

(** ** Numbers *)

(** The decimal digits of [|z|]. *)
Definition digits_of (z : Z) : string :=
  NilEmpty.string_of_uint (N.to_uint (Z.to_N (Z.abs z))).

Fixpoint drop_zeros (s : string) : string :=
  match s with
  | String c r => if Ascii.eqb c "0" then drop_zeros r else s
  | EmptyString => s
  end.

Fixpoint zeros (n : nat) : string :=
  match n with
  | O => EmptyString
  | S k => String "0" (zeros k)
  end.

(** Significant digits of [m] without trailing zeros, and how many were
    removed. *)
Definition strip_trailing (m : Z) : string * nat :=
  let d := digits_of m in
  let r := drop_zeros (String.rev d) in
  (String.rev r, (String.length d - String.length r)%nat).

(** [Number.prototype.toString()] in radix 10.  An integer below [10^21]
    is written with all its digits; the other numbers with a decimal point
    or an exponent.  The digits are those of the exact decimal: they are
    the digits JavaScript writes for every number that binary64 holds
    exactly, such as the integers of magnitude up to 2^53, and may differ
    from them beyond. *)
Definition Number_toString (x : JsNumber) : string :=
  match x with
  | NaN => "NaN"
  | Dec m e =>
      let sign := if (m <? 0)%Z then "-" else "" in
      if ((0 <=? e) && (Z.abs m * 10 ^ e <? 10 ^ 21))%Z
      then sign +:+ digits_of (m * 10 ^ e)
      else
        let '(s, z) := strip_trailing m in
        let k := Z.of_nat (String.length s) in
        let n := (k + e + Z.of_nat z)%Z in
        let body :=
          if ((k <=? n) && (n <=? 21))%Z then s +:+ zeros (Z.to_nat (n - k))
          else if ((0 <? n) && (n <=? 21))%Z then
            String.substring 0 (Z.to_nat n) s +:+ "." +:+
            String.substring (Z.to_nat n) (String.length s) s
          else if ((-6 <? n) && (n <=? 0))%Z then
            "0." +:+ zeros (Z.to_nat (- n)) +:+ s
          else
            let ex := (if (n - 1 <? 0)%Z then "-" else "+") +:+ digits_of (n - 1) in
            if (k =? 1)%Z then s +:+ "e" +:+ ex
            else String.substring 0 1 s +:+ "." +:+
                 String.substring 1 (String.length s) s +:+ "e" +:+ ex
        in sign +:+ body
  end.

(** Removes factors of ten from a mantissa while the exponent is
    negative. *)
Fixpoint reduce (fuel : nat) (m e : Z) : JsNumber :=
  match fuel with
  | O => Dec m e
  | S f =>
      if ((e <? 0) && (m mod 10 =? 0))%Z then reduce f (m / 10) (e + 1)
      else Dec m e
  end.

(** The canonical representation of [m * 10^e]: an integer has exponent
    0, another number has a mantissa that is not a multiple of ten. *)
Definition normal_dec (m e : Z) : JsNumber :=
  if (e =? 0)%Z then Dec m 0
  else if (m =? 0)%Z then Dec 0 0
  else if (0 <? e)%Z then Dec (m * 10 ^ e) 0
  else reduce (Z.to_nat (- e)) m e.

Definition JInt (z : Z) : JsValue := JNum (Dec z 0).

(** [a < b] on numbers; false when either is [NaN]. *)
Definition num_ltb (a b : JsNumber) : bool :=
  match a, b with
  | Dec m1 e1, Dec m2 e2 =>
      let e := Z.min e1 e2 in
      (m1 * 10 ^ (e1 - e) <? m2 * 10 ^ (e2 - e))%Z
  | _, _ => false
  end.

(** ** Objects *)

(** Own data property [k] of a property list. *)
Fixpoint own (k : string) (props : list (string * JsValue)) : option JsValue :=
  match props with
  | [] => None
  | (k', v) :: r => if String.eqb k' k then Some v else own k r
  end.

(** [o[k] = v]: replaces the value in place, or appends a new property. *)
Fixpoint obj_set (k : string) (v : JsValue) (props : list (string * JsValue))
  : list (string * JsValue) :=
  match props with
  | [] => [(k, v)]
  | (k', v') :: r =>
      if String.eqb k' k then (k, v) :: r else (k', v') :: obj_set k v r
  end.

(** The methods of the built-in prototypes (ECMAScript 2023 with its
    annex B), by the names under which a value inherits them.  Every value
    but [undefined] and [null] inherits those of [Object.prototype]. *)
Definition Object_prototype : list string :=
  ["constructor"; "hasOwnProperty"; "isPrototypeOf"; "propertyIsEnumerable";
   "toLocaleString"; "toString"; "valueOf"; "__defineGetter__";
   "__defineSetter__"; "__lookupGetter__"; "__lookupSetter__"].

Definition String_prototype : list string :=
  ["anchor"; "at"; "big"; "blink"; "bold"; "charAt"; "charCodeAt";
   "codePointAt"; "concat"; "endsWith"; "fixed"; "fontcolor"; "fontsize";
   "includes"; "indexOf"; "italics"; "lastIndexOf"; "link"; "localeCompare";
   "match"; "matchAll"; "normalize"; "padEnd"; "padStart"; "repeat";
   "replace"; "replaceAll"; "search"; "slice"; "small"; "split"; "startsWith";
   "strike"; "sub"; "substr"; "substring"; "sup"; "toLocaleLowerCase";
   "toLocaleUpperCase"; "toLowerCase"; "toUpperCase"; "trim"; "trimEnd";
   "trimLeft"; "trimRight"; "trimStart"].

Definition Number_prototype : list string :=
  ["toExponential"; "toFixed"; "toPrecision"].

Definition Array_prototype : list string :=
  ["at"; "concat"; "copyWithin"; "entries"; "every"; "fill"; "filter"; "find";
   "findIndex"; "findLast"; "findLastIndex"; "flat"; "flatMap"; "forEach";
   "includes"; "indexOf"; "join"; "keys"; "lastIndexOf"; "map"; "pop"; "push";
   "reduce"; "reduceRight"; "reverse"; "shift"; "slice"; "some"; "sort";
   "splice"; "toReversed"; "toSorted"; "toSpliced"; "unshift"; "values";
   "with"].

Definition Date_prototype : list string :=
  ["getDate"; "getDay"; "getFullYear"; "getHours"; "getMilliseconds";
   "getMinutes"; "getMonth"; "getSeconds"; "getTime"; "getTimezoneOffset";
   "getUTCDate"; "getUTCDay"; "getUTCFullYear"; "getUTCHours";
   "getUTCMilliseconds"; "getUTCMinutes"; "getUTCMonth"; "getUTCSeconds";
   "getYear"; "setDate"; "setFullYear"; "setHours"; "setMilliseconds";
   "setMinutes"; "setMonth"; "setSeconds"; "setTime"; "setUTCDate";
   "setUTCFullYear"; "setUTCHours"; "setUTCMilliseconds"; "setUTCMinutes";
   "setUTCMonth"; "setUTCSeconds"; "setYear"; "toDateString"; "toGMTString";
   "toISOString"; "toJSON"; "toLocaleDateString"; "toLocaleTimeString";
   "toTimeString"; "toUTCString"].

Definition Function_prototype : list string := ["apply"; "bind"; "call"].

(** The methods of the prototype of [v] itself. *)
Definition methods_of (v : JsValue) : list string :=
  match v with
  | JStr _ => String_prototype
  | JNum _ => Number_prototype
  | JArr _ => Array_prototype
  | JDate _ => Date_prototype
  | JFun _ => Function_prototype
  | _ => []
  end.

(** The name of the function that [v] inherits under the name [k]: the
    name [k] itself, but for [constructor] and for the second names that
    annex B gives to three methods. *)
Definition function_name (v : JsValue) (k : string) : string :=
  if String.eqb k "constructor" then
    match v with
    | JBool _ => "Boolean"
    | JNum _ => "Number"
    | JStr _ => "String"
    | JArr _ => "Array"
    | JDate _ => "Date"
    | JFun _ => "Function"
    | _ => "Object"
    end
  else if String.eqb k "trimLeft" then "trimStart"
  else if String.eqb k "trimRight" then "trimEnd"
  else if String.eqb k "toGMTString" then "toUTCString"
  else k.

(** What [v[k]] finds on the prototype chain of [v]. *)
Definition inherited (v : JsValue) (k : string) : JsValue :=
  if existsb (String.eqb k) (methods_of v ++ Object_prototype)
  then JFun (function_name v k) else JUndefined.

(** [v[k]] for the name of a data property or of a method.  An object has
    the own properties it was built with; every value inherits the methods
    of its prototypes, so that ["abc".sub] is a function and [(5).sub] is
    [undefined].  Reading a property of [undefined] or [null] throws.  (The
    sources read neither [length], nor an index, nor [name], nor the
    accessor [__proto__]; these are not modelled.) *)
Definition Get (v : JsValue) (k : string) : Completion JsValue :=
  match v with
  | JUndefined | JNull => Throw TypeError
  | JObj props => Normal (default (inherited v k) (own k props))
  | _ => Normal (inherited v k)
  end.

Definition isArray (v : JsValue) : bool :=
  match v with
  | JArr _ => true
  | _ => false
  end.

(** The elements of an array as [join] converts them: [undefined] and
    [null] give the empty string. *)
Definition join_parts (toString : JsValue -> Completion string)
  : list JsValue -> Completion (list string) :=
  fix parts (l : list JsValue) : Completion (list string) :=
    match l with
    | [] => Normal []
    | x :: r =>
        s ← match x with
            | JUndefined | JNull => Normal EmptyString
            | _ => toString x
            end;
        t ← parts r;
        Normal (s :: t)
    end.

(** The abstract operation ToString.  An object parsed from JSON has no
    callable own property, so an own [toString] makes the conversion throw;
    otherwise [Object.prototype.toString] answers. *)
Fixpoint ToString `{Host} (v : JsValue) : Completion string :=
  match v with
  | JUndefined => Normal "undefined"
  | JNull => Normal "null"
  | JBool b => Normal (if b then "true" else "false")
  | JNum n => Normal (Number_toString n)
  | JStr s => Normal s
  | JArr xs => parts ← join_parts ToString xs; Normal (join "," parts)
  | JObj props =>
      match own "toString" props with
      | Some _ => Throw TypeError
      | None => Normal "[object Object]"
      end
  | JDate None => Normal "Invalid Date"
  | JDate (Some t) => Normal (Date_toString t)
  | JFun name => Normal (Function_toString name)
  end.

(** [v?.toString()]: [None] stands for the [undefined] of the short
    circuit. *)
Definition opt_toString `{Host} (v : JsValue) : Completion (option string) :=
  match v with
  | JUndefined | JNull => Normal None
  | _ => s ← ToString v; Normal (Some s)
  end.

(** [s.split(",")] as a method call on an arbitrary value: only strings
    have a [split] method. *)
Definition call_split (v : JsValue) : Completion JsValue :=
  match v with
  | JStr s => Normal (JArr (JStr <$> split "," s))
  | _ => Throw TypeError
  end.

(** The time values a date can hold. *)
Definition time_clip (t : Z) : option Z :=
  if (Z.abs t <=? 8640000000000000)%Z then Some t else None.

(** [new Date(v)]: a string is parsed, a date is copied, another primitive
    is taken as a number of milliseconds, and an object is first converted
    to a string. *)
Definition new_Date `{Host} (v : JsValue) : Completion JsValue :=
  match v with
  | JUndefined => Normal (JDate None)
  | JNull => Normal (JDate (Some 0%Z))
  | JBool b => Normal (JDate (Some (if b then 1 else 0)%Z))
  | JNum NaN => Normal (JDate None)
  | JNum (Dec m e) =>
      Normal (JDate (time_clip (if (0 <=? e)%Z then m * 10 ^ e
                                else Z.quot m (10 ^ (- e)))%Z))
  | JStr text => Normal (JDate (Date_parse text))
  | JDate t => Normal (JDate t)
  | JArr _ | JObj _ | JFun _ =>
      text ← ToString v; Normal (JDate (Date_parse text))
  end.

(** ** [atob]: the forgiving-base64 decoding of the HTML standard *)

Definition is_b64_space (c : ascii) : bool :=
  let n := code c in
  (n =? 9)%N || (n =? 10)%N || (n =? 12)%N || (n =? 13)%N || (n =? 32)%N.

Fixpoint remove_spaces (s : string) : string :=
  match s with
  | EmptyString => EmptyString
  | String c r => if is_b64_space c then remove_spaces r else String c (remove_spaces r)
  end.

Definition b64_value (c : ascii) : option N :=
  let n := code c in
  if between 65 90 n then Some (n - 65)%N
  else if between 97 122 n then Some (n - 71)%N
  else if between 48 57 n then Some (n + 4)%N
  else if (n =? 43)%N then Some 62%N
  else if (n =? 47)%N then Some 63%N
  else None.

Fixpoint b64_values (s : string) : option (list N) :=
  match s with
  | EmptyString => Some []
  | String c r => v ← b64_value c; vs ← b64_values r; Some (v :: vs)
  end.

Fixpoint b64_bytes (l : list N) : string :=
  match l with
  | a :: b :: c :: d :: r =>
      let n := (a * 262144 + b * 4096 + c * 64 + d)%N in
      String (chr (n / 65536)) (String (chr (n / 256)) (String (chr n) (b64_bytes r)))
  | [a; b; c] =>
      let n := ((a * 4096 + b * 64 + c) / 4)%N in
      String (chr (n / 256)) (String (chr n) EmptyString)
  | [a; b] =>
      String (chr ((a * 64 + b) / 16)) EmptyString
  | _ => EmptyString
  end.

(** One or two trailing [=] are removed when the length is a multiple of
    four. *)
Definition strip_padding (s : string) : string :=
  if (String.length s mod 4 =? 0)%nat then
    match String.rev s with
    | String c1 (String c2 r) =>
        if Ascii.eqb c1 "=" then
          if Ascii.eqb c2 "=" then String.rev r else String.rev (String c2 r)
        else s
    | _ => s
    end
  else s.

Definition atob (data : string) : Completion string :=
  let d := strip_padding (remove_spaces data) in
  if (String.length d mod 4 =? 1)%nat then Throw InvalidCharacterError
  else match b64_values d with
       | Some vs => Normal (b64_bytes vs)
       | None => Throw InvalidCharacterError
       end.

(** ** [decodeURIComponent] *)

(** Well-formed UTF-8 (Unicode, table 3-7), on character codes. *)
Fixpoint utf8_ok (l : list N) : bool :=
  match l with
  | [] => true
  | a :: r =>
      if (a <? 128)%N then utf8_ok r
      else match r with
      | b :: r1 =>
          if between 194 223 a then between 128 191 b && utf8_ok r1
          else match r1 with
          | c :: r2 =>
              let tail := between 128 191 c in
              if (a =? 224)%N then between 160 191 b && tail && utf8_ok r2
              else if between 225 236 a || between 238 239 a
                   then between 128 191 b && tail && utf8_ok r2
              else if (a =? 237)%N then between 128 159 b && tail && utf8_ok r2
              else match r2 with
              | d :: r3 =>
                  let tail2 := tail && between 128 191 d in
                  if (a =? 240)%N then between 144 191 b && tail2 && utf8_ok r3
                  else if between 241 243 a then between 128 191 b && tail2 && utf8_ok r3
                  else if (a =? 244)%N then between 128 143 b && tail2 && utf8_ok r3
                  else false
              | [] => false
              end
          | [] => false
          end
      | [] => false
      end
  end.

(** Replaces each [%XX] by the character of code [XX]; a [%] that is not
    followed by two hexadecimal digits is an error. *)
Fixpoint unescape (s : string) : option string :=
  match s with
  | EmptyString => Some EmptyString
  | String c r =>
      if Ascii.eqb c "%" then
        match r with
        | String h1 (String h2 r') =>
            a ← hex_value h1; b ← hex_value h2; t ← unescape r';
            Some (String (chr (a * 16 + b)) t)
        | _ => None
        end
      else t ← unescape r; Some (String c t)
  end.

Definition codes (s : string) : list N := code <$> list_ascii_of_string s.

(** The escapes must spell well-formed UTF-8.  (The check is made on the
    whole result, which is exact when every character above 127 comes from
    an escape, as in [decodeJwt].) *)
Definition decodeURIComponent (s : string) : Completion string :=
  match unescape s with
  | Some t => if utf8_ok (codes t) then Normal t else Throw URIError
  | None => Throw URIError
  end.

(** ** [JSON.parse] *)

Definition is_json_ws (c : ascii) : bool :=
  let n := code c in
  (n =? 32)%N || (n =? 9)%N || (n =? 10)%N || (n =? 13)%N.

Fixpoint skip_ws (s : string) : string :=
  match s with
  | String c r => if is_json_ws c then skip_ws r else s
  | EmptyString => s
  end.

(** [Some r] when [s] is [p] followed by [r]. *)
Fixpoint strip_prefix (p s : string) : option string :=
  match p, s with
  | EmptyString, _ => Some s
  | String a p', String b s' => if Ascii.eqb a b then strip_prefix p' s' else None
  | String _ _, EmptyString => None
  end.

(** UTF-8 encoding of a code point (a lone surrogate is encoded like any
    other three-byte code point). *)
Definition utf8_encode (cp : N) : string :=
  (if cp <? 128 then String (chr cp) EmptyString
   else if cp <? 2048 then
     String (chr (192 + cp / 64)) (String (chr (128 + cp mod 64)) EmptyString)
   else if cp <? 65536 then
     String (chr (224 + cp / 4096))
       (String (chr (128 + (cp / 64) mod 64))
          (String (chr (128 + cp mod 64)) EmptyString))
   else
     String (chr (240 + cp / 262144))
       (String (chr (128 + (cp / 4096) mod 64))
          (String (chr (128 + (cp / 64) mod 64))
             (String (chr (128 + cp mod 64)) EmptyString))))%N.

(** The characters of a string literal after its opening quote: raw
    characters, and the UTF-16 code units written as [\uXXXX]. *)
Fixpoint scan_string (s : string) : option (list (ascii + N) * string) :=
  match s with
  | EmptyString => None
  | String c r =>
      if Ascii.eqb c dquote then Some ([], r)
      else if Ascii.eqb c backslash then
        match r with
        | String x r1 =>
            let simple (a : N) :=
              '(l, t) ← scan_string r1; Some (inl (chr a) :: l, t) in
            if Ascii.eqb x dquote then simple 34%N
            else if Ascii.eqb x backslash then simple 92%N
            else if Ascii.eqb x "/" then simple 47%N
            else if Ascii.eqb x "b" then simple 8%N
            else if Ascii.eqb x "f" then simple 12%N
            else if Ascii.eqb x "n" then simple 10%N
            else if Ascii.eqb x "r" then simple 13%N
            else if Ascii.eqb x "t" then simple 9%N
            else if Ascii.eqb x "u" then
              match r1 with
              | String h1 (String h2 (String h3 (String h4 r2))) =>
                  a ← hex_value h1; b ← hex_value h2;
                  c' ← hex_value h3; d ← hex_value h4;
                  '(l, t) ← scan_string r2;
                  Some (inr (a * 4096 + b * 256 + c' * 16 + d)%N :: l, t)
              | _ => None
              end
            else None
        | EmptyString => None
        end
      else if (code c <? 32)%N then None
      else '(l, t) ← scan_string r; Some (inl c :: l, t)
  end.

(** A high surrogate followed by a low one is a single code point. *)
Fixpoint encode_units (l : list (ascii + N)) : string :=
  match l with
  | [] => EmptyString
  | inl c :: r => String c (encode_units r)
  | inr hi :: r =>
      match r with
      | inr lo :: r' =>
          if between 55296 56319 hi && between 56320 57343 lo
          then utf8_encode (65536 + (hi - 55296) * 1024 + (lo - 56320))%N
                 +:+ encode_units r'
          else utf8_encode hi +:+ encode_units r
      | _ => utf8_encode hi +:+ encode_units r
      end
  end.

Definition parse_string (s : string) : option (string * string) :=
  '(l, t) ← scan_string s; Some (encode_units l, t).

(** The longest prefix of digits, and the rest. *)
Fixpoint span_digits (s : string) : string * string :=
  match s with
  | String c r =>
      if is_digit c then let '(d, t) := span_digits r in (String c d, t)
      else (EmptyString, s)
  | EmptyString => (EmptyString, EmptyString)
  end.

Fixpoint digits_value (acc : Z) (s : string) : Z :=
  match s with
  | EmptyString => acc
  | String c r => digits_value (acc * 10 + Z.of_N (code c - 48)) r
  end.

(** [-? int frac? exp?] of the JSON grammar. *)
Definition parse_number (s : string) : option (JsNumber * string) :=
  let '(neg, s1) :=
    match s with
    | String c r => if Ascii.eqb c "-" then (true, r) else (false, s)
    | EmptyString => (false, s)
    end in
  let '(int, s2) := span_digits s1 in
  if is_empty int then None
  else if (1 <? String.length int)%nat && startsWith int "0" then None
  else
    fr ← match s2 with
         | String c r =>
             if Ascii.eqb c "." then
               let '(f, t) := span_digits r in
               if is_empty f then None else Some (f, t)
             else Some (EmptyString, s2)
         | EmptyString => Some (EmptyString, s2)
         end;
    let '(frac, s3) := fr in
    ex ← match s3 with
         | String c r =>
             if Ascii.eqb c "e" || Ascii.eqb c "E" then
               let '(eneg, r1) :=
                 match r with
                 | String c' r' =>
                     if Ascii.eqb c' "-" then (true, r')
                     else if Ascii.eqb c' "+" then (false, r')
                     else (false, r)
                 | EmptyString => (false, r)
                 end in
               let '(d, t) := span_digits r1 in
               if is_empty d then None
               else Some ((if eneg then - digits_value 0 d else digits_value 0 d)%Z, t)
             else Some (0%Z, s3)
         | EmptyString => Some (0%Z, s3)
         end;
    let '(e, s4) := ex in
    let m := digits_value 0 (int +:+ frac) in
    Some (normal_dec (if neg then - m else m) (e - Z.of_nat (String.length frac)), s4).

(** Recursive descent; [fuel] bounds the number of nested calls. *)
Fixpoint parse_value (fuel : nat) (s : string) : option (JsValue * string) :=
  match fuel with
  | O => None
  | S f =>
      match skip_ws s with
      | EmptyString => None
      | String c r =>
          if Ascii.eqb c "[" then
            match skip_ws r with
            | String c' r' =>
                if Ascii.eqb c' "]" then Some (JArr [], r')
                else '(xs, t) ← parse_elements f r; Some (JArr xs, t)
            | EmptyString => None
            end
          else if Ascii.eqb c "{" then
            match skip_ws r with
            | String c' r' =>
                if Ascii.eqb c' "}" then Some (JObj [], r')
                else '(ms, t) ← parse_members f r;
                     Some (JObj (foldl (fun o kv => obj_set kv.1 kv.2 o) [] ms), t)
            | EmptyString => None
            end
          else if Ascii.eqb c dquote then
            '(str, t) ← parse_string r; Some (JStr str, t)
          else if Ascii.eqb c "t" then t ← strip_prefix "rue" r; Some (JBool true, t)
          else if Ascii.eqb c "f" then t ← strip_prefix "alse" r; Some (JBool false, t)
          else if Ascii.eqb c "n" then t ← strip_prefix "ull" r; Some (JNull, t)
          else '(n, t) ← parse_number (String c r); Some (JNum n, t)
      end
  end
with parse_elements (fuel : nat) (s : string) : option (list JsValue * string) :=
  match fuel with
  | O => None
  | S f =>
      '(v, r) ← parse_value f s;
      match skip_ws r with
      | String c r' =>
          if Ascii.eqb c "," then '(vs, t) ← parse_elements f r'; Some (v :: vs, t)
          else if Ascii.eqb c "]" then Some ([v], r')
          else None
      | EmptyString => None
      end
  end
with parse_members (fuel : nat) (s : string)
  : option (list (string * JsValue) * string) :=
  match fuel with
  | O => None
  | S f =>
      match skip_ws s with
      | String q r0 =>
          if Ascii.eqb q dquote then
            '(k, r1) ← parse_string r0;
            match skip_ws r1 with
            | String colon r2 =>
                if Ascii.eqb colon ":" then
                  '(v, r) ← parse_value f r2;
                  match skip_ws r with
                  | String c r' =>
                      if Ascii.eqb c "," then
                        '(ms, t) ← parse_members f r'; Some ((k, v) :: ms, t)
                      else if Ascii.eqb c "}" then Some ([(k, v)], r')
                      else None
                  | EmptyString => None
                  end
                else None
            | EmptyString => None
            end
          else None
      | EmptyString => None
      end
  end.

(** [JSON.parse(text)] for a string.  Every nested call consumes a
    character at least every second step, so the fuel is never the reason
    for a failure. *)
Definition JSON_parse (text : string) : Completion JsValue :=
  match parse_value (2 * String.length text + 2) text with
  | Some (v, r) => if is_empty (skip_ws r) then Normal v else Throw SyntaxError
  | None => Throw SyntaxError
  end.

(** ** [JSON.stringify] *)

Definition hex4 (n : N) : string :=
  String (hex_digit ((n / 4096) mod 16))
    (String (hex_digit ((n / 256) mod 16))
       (String (hex_digit ((n / 16) mod 16))
          (String (hex_digit (n mod 16)) EmptyString))).

Definition quote_char (c : ascii) : string :=
  let n := code c in
  if Ascii.eqb c dquote then String backslash (String dquote EmptyString)
  else if Ascii.eqb c backslash then String backslash (String backslash EmptyString)
  else if (n =? 8)%N then String backslash "b"
  else if (n =? 9)%N then String backslash "t"
  else if (n =? 10)%N then String backslash "n"
  else if (n =? 12)%N then String backslash "f"
  else if (n =? 13)%N then String backslash "r"
  else if (n <? 32)%N then String backslash ("u" +:+ hex4 n)
  else String c EmptyString.

Fixpoint quote_chars (s : string) : string :=
  match s with
  | EmptyString => EmptyString
  | String c r => quote_char c +:+ quote_chars r
  end.

Definition quote (s : string) : string :=
  String dquote (quote_chars s +:+ String dquote EmptyString).

(** The text of a value, or [None] where [JSON.stringify] gives
    [undefined], as it does for [undefined] and for a function.  Such an
    element of an array is written [null]; a property with such a value is
    left out. *)
Fixpoint stringify `{Host} (v : JsValue) : option string :=
  match v with
  | JUndefined => None
  | JNull => Some "null"
  | JBool b => Some (if b then "true" else "false")
  | JNum NaN => Some "null"
  | JNum n => Some (Number_toString n)
  | JStr s => Some (quote s)
  | JArr xs =>
      Some ("[" +:+ join "," ((fun x => default "null" (stringify x)) <$> xs) +:+ "]")
  | JObj props =>
      Some ("{" +:+
            join "," (omap (fun kv => t ← stringify kv.2;
                                      Some (quote kv.1 +:+ ":" +:+ t)) props)
            +:+ "}")
  | JDate None => Some "null"
  | JDate (Some t) => Some (quote (Date_toISOString t))
  | JFun _ => None
  end.

Definition JSON_stringify `{Host} (v : JsValue) : JsValue :=
  match stringify v with
  | Some text => JStr text
  | None => JUndefined
  end.

(** [JSON.parse(v)] for an arbitrary argument, which is first converted to
    a string. *)
Definition JSON_parse_value `{Host} (v : JsValue) : Completion JsValue :=
  text ← ToString v; JSON_parse text.

(** ** Comparison and dates *)

(** [a === b] on numbers; false when either is [NaN]. *)
Definition num_eqb (a b : JsNumber) : bool :=
  match a, b with
  | Dec m1 e1, Dec m2 e2 =>
      let e := Z.min e1 e2 in
      (m1 * 10 ^ (e1 - e) =? m2 * 10 ^ (e2 - e))%Z
  | _, _ => false
  end.

(** [v === n] for a number [n]: a value of another type is never equal. *)
Definition strict_equals_number (v : JsValue) (n : JsNumber) : bool :=
  match v with
  | JNum m => num_eqb m n
  | _ => false
  end.

(** [v?.k]: [undefined] for [undefined] and [null], and [v[k]] for every
    other value. *)
Definition opt_Get (v : JsValue) (k : string) : JsValue :=
  match v with
  | JUndefined | JNull => JUndefined
  | JObj props => default (inherited v k) (own k props)
  | _ => inherited v k
  end.

(** [d.toISOString()]: an Invalid Date has no ISO form. *)
Definition Date_prototype_toISOString `{Host} (d : JsValue) : Completion string :=
  match d with
  | JDate (Some t) => Normal (Date_toISOString t)
  | JDate None => Throw RangeError
  | _ => Throw TypeError
  end.

(** [l.filter((_, i) => keep(i))], the index of the first element being
    [i]. *)
Fixpoint filter_index {A : Type} (keep : nat -> bool) (i : nat) (l : list A)
  : list A :=
  match l with
  | [] => []
  | x :: r =>
      if keep i then x :: filter_index keep (S i) r
      else filter_index keep (S i) r
  end.

End Js.

(* ================================================================== *)
(** * The auth gate: [frontend/middleware.ts] *)
(* ================================================================== *)

Module Middleware.
Import Js.

(** Paths that don't require authentication. *)
Definition PUBLIC_PATHS : list string :=
  ["/api/v1/auth/login"; "/api/v1/auth/register"; "/health";
   "/login"; "/_next"; "/favicon.ico"].

Record URL : Type := {
  origin : string;
  pathname : string
}.

(** [new URL(path, base)] for an absolute path. *)
Definition new_URL (path : string) (base : URL) : URL :=
  {| origin := origin base; pathname := path |}.

Record NextRequest : Type := {
  nextUrl : URL;
  cookies : gmap string string;
  headers : gmap string string
}.

(** [request.url] and [request.nextUrl] name the same address. *)
Definition url (request : NextRequest) : URL := nextUrl request.

Inductive NextResponse : Type :=
| Next (request_headers : option (gmap string string))
| Redirect (to : URL).

(** ['%' + ('00' + c.charCodeAt(0).toString(16)).slice(-2)] *)
Definition percent (c : ascii) : string :=
  "%" +:+ slice_last2 ("00" +:+ toString16 (code c)).

Fixpoint percent_all (s : string) : string :=
  match s with
  | EmptyString => EmptyString
  | String c r => percent c +:+ percent_all r
  end.

Definition decodeJwt (token : string) : Completion JsValue :=
  match split "." token !! 1%nat with
  | None => Throw TypeError
  | Some base64Url =>
      let base64 := replace_all "_" "/" (replace_all "-" "+" base64Url) in
      binary ← atob base64;
      jsonPayload ← decodeURIComponent (percent_all binary);
      JSON_parse jsonPayload
  end.

(** [payload.claim?.toString() || ''] *)
Definition claim_text `{Host} (payload : JsValue) (claim : string)
  : Completion string :=
  v ← Get payload claim;
  s ← opt_toString v;
  Normal (or_else s "").

Definition is_public (pathname : string) : bool :=
  existsb (fun path => startsWith pathname path) PUBLIC_PATHS.

Definition login_redirect (request : NextRequest) : NextResponse :=
  Redirect (new_URL "/login" (url request)).

Definition is_http_ws (c : ascii) : bool :=
  let n := code c in
  (n =? 9)%N || (n =? 10)%N || (n =? 13)%N || (n =? 32)%N.

(** A header value may hold neither NUL, LF nor CR, nor a character above
    U+00FF (whose UTF-8 encoding starts with a byte of 196 or more). *)
Definition header_char (c : ascii) : bool :=
  let n := code c in
  negb (n =? 0)%N && negb (n =? 10)%N && negb (n =? 13)%N && (n <? 196)%N.

(** [headers.set(name, value)] for a lower-case [name]: the value loses
    its leading and trailing whitespace and is then checked; a value that
    fails the check makes the call throw. *)
Definition Headers_set (name value : string) (h : gmap string string)
  : Completion (gmap string string) :=
  let v := strip is_http_ws value in
  if all_chars header_char v then Normal (<[name := v]> h) else Throw TypeError.

(** The body of the [try] block. *)
Definition forward `{Host} (request : NextRequest) (token : string)
  : Completion NextResponse :=
  payload ← decodeJwt token;
  let requestHeaders := headers request in
  id ← claim_text payload "sub";
  requestHeaders ← Headers_set "x-user-id" id requestHeaders;
  email ← claim_text payload "email";
  requestHeaders ← Headers_set "x-user-email" email requestHeaders;
  role ← claim_text payload "role";
  requestHeaders ← Headers_set "x-user-role" role requestHeaders;
  Normal (Next (Some requestHeaders)).

Definition middleware `{Host} (request : NextRequest) : NextResponse :=
  if is_public (pathname (nextUrl request)) then Next None
  else
    match cookies request !! "access_token" with
    | None => login_redirect request
    | Some accessToken =>
        match forward request accessToken with
        | Normal response => response
        | Throw _ => login_redirect request
        end
    end.

(** The same request with another [access_token] cookie. *)
Definition with_token (token : string) (request : NextRequest) : NextRequest :=
  {| nextUrl := nextUrl request;
     cookies := <["access_token" := token]> (cookies request);
     headers := headers request |}.

(** The same request with other request headers. *)
Definition with_headers (h : gmap string string) (request : NextRequest)
  : NextRequest :=
  {| nextUrl := nextUrl request; cookies := cookies request; headers := h |}.

(** The alphabet of base64url, in which the parts of a JWT are written. *)
Definition base64url_char (c : ascii) : bool :=
  let n := code c in
  between 65 90 n || between 97 122 n || between 48 57 n
  || (n =? 45)%N || (n =? 95)%N.

(** A claim as the [TokenPayload] interface declares it: a string, which
    the code also allows to be missing; the string is made of visible ASCII
    characters, which a header carries unchanged. *)
Definition claim_typed (payload : list (string * JsValue)) (claim : string) : bool :=
  match own claim payload with
  | None => true
  | Some (JStr s) => all_chars visible s
  | Some _ => false
  end.

Definition payload_typed (payload : list (string * JsValue)) : bool :=
  claim_typed payload "sub" && claim_typed payload "email"
  && claim_typed payload "role".

Definition claim_value (payload : list (string * JsValue)) (claim : string) : string :=
  match own claim payload with
  | Some (JStr s) => s
  | _ => EmptyString
  end.

(** The request headers with the three user headers of [payload]. *)
Definition user_headers (payload : list (string * JsValue))
    (h : gmap string string) : gmap string string :=
  <["x-user-role" := claim_value payload "role"]>
    (<["x-user-email" := claim_value payload "email"]>
       (<["x-user-id" := claim_value payload "sub"]> h)).

(** What [requestHeaders.set(name, v?.toString() || '')] stores for a
    claim [v]: the text of the claim without the whitespace around it; or
    nothing, when the claim has no text or its text is no header value, in
    which case the statement throws. *)
Definition header_text `{Host} (v : JsValue) : option string :=
  match opt_toString v with
  | Normal s =>
      let text := strip is_http_ws (or_else s "") in
      if all_chars header_char text then Some text else None
  | Throw _ => None
  end.

(** The numbers in a claim are integers of magnitude up to 2^53: those
    a JavaScript number holds exactly, whose text is their digits. *)
Fixpoint exact_numbers (v : JsValue) : bool :=
  match v with
  | JNum (Dec m e) => ((e =? 0) && (Z.abs m <=? 9007199254740992))%Z
  | JArr xs => forallb exact_numbers xs
  | _ => true
  end.

(** The [exp] claim lies before [now] (both in seconds since the epoch). *)
Definition expired (now : Z) (payload : JsValue) : bool :=
  match payload with
  | JObj props =>
      match own "exp" props with
      | Some (JNum n) => num_ltb n (Dec now 0)
      | _ => false
      end
  | _ => false
  end.

End Middleware.

(* ================================================================== *)
(** * The browser, the network and the API client: [lib/api-client.ts] *)
(* ================================================================== *)

Module Api.
Import Js.

Record Browser : Type := {
  cookie_jar : gmap string string;
  localStorage : gmap string string;
  location : option string
}.

Record HttpRequest : Type := {
  method : string;
  url : string;
  req_headers : gmap string string;
  body : JsValue
}.

(** What comes back from the network: an HTTP answer, or nothing (the host
    is unreachable or the request timed out). *)
Inductive HttpOutcome : Type :=
| Answer (status : Z) (data : JsValue)
| NoAnswer.

Record AxiosResponse : Type := {
  status : Z;
  data : JsValue
}.

(** A form that the browser itself submits, outside the API client. *)
Record HtmlForm : Type := {
  action : string;
  form_method : string;
  inputs : list (string * JsValue)
}.

(** The state outside the React components: the browser's stores, the
    backend, the requests the API client has sent, and the forms the browser
    has submitted to other hosts. *)
Record World (Server : Type) : Type := {
  browser : Browser;
  server : Server;
  sent : list HttpRequest;
  submitted : list HtmlForm
}.
Arguments browser {Server} w.
Arguments server {Server} w.
Arguments sent {Server} w.
Arguments submitted {Server} w.

Definition with_browser {Server} (b : Browser) (w : World Server) : World Server :=
  {| browser := b; server := server w; sent := sent w; submitted := submitted w |}.

(** ** Cookies *)

Definition is_wsp (c : ascii) : bool := Ascii.eqb c " " || Ascii.eqb c "009".

Definition trim (s : string) : string := strip is_wsp s.

(** The text before the first [sep], and the text after it when there is
    one. *)
Fixpoint cut (sep : ascii) (s : string) : string * option string :=
  match s with
  | EmptyString => (EmptyString, None)
  | String c r =>
      if Ascii.eqb c sep then (EmptyString, Some r)
      else let '(a, b) := cut sep r in (String c a, b)
  end.

(** [document.cookie = text]: the name-value pair ends at the first [;],
    the name at the first [=]; both are trimmed.  A pair without [=] or
    with an empty name is ignored.  The sources write no attribute after the
    pair, so the cookie is a session cookie for the whole site; what a
    browser makes of attributes (which a value with a [;] in it would be
    read as) is not modelled, and the statements about cookies are made for
    values without [;] ([token_text] below). *)
Definition set_document_cookie (text : string) (b : Browser) : Browser :=
  match cut "=" (cut ";" text).1 with
  | (name, Some value) =>
      if is_empty (trim name) then b
      else {| cookie_jar := <[trim name := trim value]> (cookie_jar b);
              localStorage := localStorage b;
              location := location b |}
  | (_, None) => b
  end.

(** The characters of a JWT in its compact form: letters, digits, [-],
    [_] and the dots between its parts.  A cookie keeps such a value as it
    is, and so does the cookie parser of the server. *)
Definition token_char (c : ascii) : bool :=
  let n := code c in
  between 65 90 n || between 97 122 n || between 48 57 n
  || (n =? 45)%N || (n =? 95)%N || (n =? 46)%N.

Definition token_text (s : string) : bool := all_chars token_char s.

Definition localStorage_setItem (k v : string) (b : Browser) : Browser :=
  {| cookie_jar := cookie_jar b;
     localStorage := <[k := v]> (localStorage b);
     location := location b |}.

Definition localStorage_removeItem (k : string) (b : Browser) : Browser :=
  {| cookie_jar := cookie_jar b;
     localStorage := delete k (localStorage b);
     location := location b |}.

Definition navigate (href : string) (b : Browser) : Browser :=
  {| cookie_jar := cookie_jar b;
     localStorage := localStorage b;
     location := Some href |}.

(** The request the browser makes for a page of the site: it carries the
    cookie jar. *)
Definition page_request (b : Browser) (u : Middleware.URL)
  : Middleware.NextRequest :=
  {| Middleware.nextUrl := u;
     Middleware.cookies := cookie_jar b;
     Middleware.headers := ∅ |}.

(** The single shared client of the application. *)
Module apiClient.

Section Client.

Context {Server : Type}.
Variable serve : Server -> HttpRequest -> Server * HttpOutcome.

(** The request interceptor: adds the bearer token of local storage. *)
Definition with_auth (b : Browser) (h : gmap string string) : gmap string string :=
  match localStorage b !! "access_token" with
  | Some token =>
      if is_empty token then h else <["Authorization" := "Bearer " +:+ token]> h
  | None => h
  end.

(** The headers every request of the client starts from: the [Accept]
    header that axios gives to all requests, and the [Content-Type] handed
    to [axios.create]. *)
Definition default_headers : gmap string string :=
  {["Accept" := "application/json, text/plain, */*";
    "Content-Type" := "application/json"]}.

(** The headers of a request as axios sends it: the headers of the call
    over the defaults, then the request interceptor; a request without data
    ([undefined]) loses its [Content-Type].  (Header names are taken as the
    sources spell them.  The headers that the browser adds on its own, and
    the XSRF header that axios copies from a cookie of that name, are not
    part of the record.) *)
Definition headers_of (b : Browser) (extra : gmap string string)
    (payload : JsValue) : gmap string string :=
  let h := with_auth b (extra ∪ default_headers) in
  match payload with
  | JUndefined => base.delete "Content-Type" h
  | _ => h
  end.

(** [this.client.request]: the request interceptor, the exchange with the
    backend, axios's status check, and the response interceptor, which on a
    401 clears the token and sends the browser to the login page. *)
Definition request (m u : string) (extra : gmap string string) (payload : JsValue)
    (w : World Server) : World Server * Completion AxiosResponse :=
  let req := {| method := m; url := u;
                req_headers := headers_of (browser w) extra payload;
                body := payload |} in
  let '(srv, out) := serve (server w) req in
  let w1 := {| browser := browser w; server := srv;
               sent := sent w ++ [req]; submitted := submitted w |} in
  match out with
  | Answer st d =>
      if ((200 <=? st) && (st <? 300))%Z
      then (w1, Normal {| status := st; data := d |})
      else
        let w2 :=
          if (st =? 401)%Z
          then with_browser
                 (navigate "/login"
                    (localStorage_removeItem "access_token" (browser w1))) w1
          else w1 in
        (w2, Throw (AxiosError (Some (st, d))))
  | NoAnswer => (w1, Throw (AxiosError None))
  end.

Definition get (u : string) := request "GET" u ∅ JUndefined.
Definition post (u : string) (d : JsValue) := request "POST" u ∅ d.
Definition put (u : string) (d : JsValue) := request "PUT" u ∅ d.
Definition delete (u : string) := request "DELETE" u ∅ JUndefined.

(** [login(email, password)].  The body stands for the URL-encoded form
    with the two parameters. *)
Definition login `{Host} (email password : string) (w : World Server)
  : World Server * Completion JsValue :=
  let formData := JObj [("username", JStr email); ("password", JStr password)] in
  match request "POST" "/api/v1/auth/login"
          {["Content-Type" := "application/x-www-form-urlencoded"]} formData w with
  | (w1, Throw e) => (w1, Throw e)
  | (w1, Normal response) =>
      match Get (data response) "access_token" with
      | Throw e => (w1, Throw e)
      | Normal access_token =>
          match ToString access_token with
          | Throw e => (w1, Throw e)
          | Normal text =>
              let b1 := set_document_cookie ("access_token=" +:+ text) (browser w1) in
              let b2 := localStorage_setItem "access_token" text b1 in
              (with_browser b2 w1, Normal (data response))
          end
      end
  end.

Definition register (userData : JsValue) := post "/api/v1/auth/register" userData.

Definition getCurrentUser := get "/api/v1/auth/me".

End Client.

End apiClient.

End Api.

(* ================================================================== *)
(** * The React hooks *)
(* ================================================================== *)

(** [response.data] read as an array of rows. *)
Definition rows_of (v : Js.JsValue) : list Js.JsValue :=
  match v with
  | Js.JArr xs => xs
  | _ => []
  end.

(** ** [usePatients] *)

Module UsePatients.
Import Js Api.

Record State : Type := {
  patients : list JsValue;
  patient : JsValue;
  loading : bool;
  error : option JsError
}.

Definition initial : State :=
  {| patients := []; patient := JNull; loading := false; error := None |}.

Definition setPatients (f : list JsValue -> list JsValue) (st : State) : State :=
  {| patients := f (patients st); patient := patient st;
     loading := loading st; error := error st |}.

Definition setPatient (p : JsValue) (st : State) : State :=
  {| patients := patients st; patient := p;
     loading := loading st; error := error st |}.

Definition setLoading (b : bool) (st : State) : State :=
  {| patients := patients st; patient := patient st;
     loading := b; error := error st |}.

Definition setError (e : option JsError) (st : State) : State :=
  {| patients := patients st; patient := patient st;
     loading := loading st; error := e |}.

Section Hook.

Context `{Host} {Server : Type}.
Variable serve : Server -> HttpRequest -> Server * HttpOutcome.

Definition fetchPatient (id : JsNumber) (st : State) (w : World Server)
  : State * World Server :=
  let st := setError None (setLoading true st) in
  match apiClient.get serve ("/api/v1/patients/" +:+ Number_toString id) w with
  | (w1, Normal response) => (setLoading false (setPatient (data response) st), w1)
  | (w1, Throw err) => (setLoading false (setError (Some err) st), w1)
  end.

(** [data.date_of_birth = new Date(data["DOB"])], then the POST.  (The
    assignment also changes the caller's object; nothing reads that object
    afterwards, so it is not handed back.) *)
Definition createPatient (data : list (string * JsValue)) (st : State)
    (w : World Server) : State * World Server * Completion JsValue :=
  let st := setError None (setLoading true st) in
  match new_Date (default JUndefined (own "DOB" data)) with
  | Throw err => (setLoading false (setError (Some err) st), w, Throw err)
  | Normal date =>
      let data := obj_set "date_of_birth" date data in
      match apiClient.post serve "/api/v1/patients" (JObj data) w with
      | (w1, Normal response) =>
          (setLoading false
             (setPatients (fun prev => prev ++ [Api.data response]) st),
           w1, Normal (Api.data response))
      | (w1, Throw err) =>
          (setLoading false (setError (Some err) st), w1, Throw err)
      end
  end.

(** The [for] loop of [createReports]: one POST per report, in order,
    stopping at the first one that throws. *)
Fixpoint post_reports (patientId : JsValue) (reports : list JsValue)
    (w : World Server) : World Server * Completion unit :=
  match reports with
  | [] => (w, Normal tt)
  | report :: rest =>
      match ToString patientId with
      | Throw err => (w, Throw err)
      | Normal id =>
          match apiClient.post serve ("/api/v1/patients/" +:+ id +:+ "/reports") report w with
          | (w1, Normal _) => post_reports patientId rest w1
          | (w1, Throw err) => (w1, Throw err)
          end
      end
  end.

Definition createReports (patientId : JsValue) (reports : list JsValue)
    (st : State) (w : World Server)
  : State * World Server * Completion (list JsValue) :=
  let st := setError None (setLoading true st) in
  match post_reports patientId reports w with
  | (w1, Normal _) => (setLoading false st, w1, Normal reports)
  | (w1, Throw err) => (setLoading false (setError (Some err) st), w1, Throw err)
  end.

(** [prev.map(p => (p.id === patientId ? data : p))] *)
Fixpoint replace_patient (patientId : JsNumber) (data : JsValue)
    (prev : list JsValue) : Completion (list JsValue) :=
  match prev with
  | [] => Normal []
  | p :: rest =>
      id ← Get p "id";
      rest' ← replace_patient patientId data rest;
      Normal ((if strict_equals_number id patientId then data else p) :: rest')
  end.

(** [updatePatient(patientId, data)].  The function handed to
    [setPatients] runs when React computes the next state, outside the
    [try] block; when it throws, the component cannot render, which is the
    [Throw] in the first component of the result. *)
Definition updatePatient (patientId : JsNumber) (data : JsValue) (st : State)
    (w : World Server)
  : Completion State * World Server * Completion JsValue :=
  let st0 := st in
  let st := setError None (setLoading true st) in
  match apiClient.put serve ("/api/v1/patients/" +:+ Number_toString patientId) data w with
  | (w1, Normal response) =>
      (prev ← replace_patient patientId (Api.data response) (patients st);
       let st1 := setPatients (fun _ => prev) st in
       let st2 :=
         if strict_equals_number (opt_Get (patient st0) "id") patientId
         then setPatient (Api.data response) st1 else st1 in
       Normal (setLoading false st2),
       w1, Normal (Api.data response))
  | (w1, Throw err) =>
      (Normal (setLoading false (setError (Some err) st)), w1, Throw err)
  end.

(** [deleteReports(reportId, patientId)]: the template literal converts
    both identifiers to strings. *)
Definition deleteReports (reportId : JsValue) (patientId : JsNumber) (st : State)
    (w : World Server) : State * World Server * Completion JsValue :=
  let st := setError None (setLoading true st) in
  match ToString reportId with
  | Throw err => (setLoading false (setError (Some err) st), w, Throw err)
  | Normal rid =>
      match apiClient.delete serve ("/api/v1/patients/" +:+ Number_toString patientId
                                    +:+ "/reports/" +:+ rid) w with
      | (w1, Normal response) => (setLoading false st, w1, Normal (data response))
      | (w1, Throw err) =>
          (setLoading false (setError (Some err) st), w1, Throw err)
      end
  end.

End Hook.

End UsePatients.

(** ** [useVitalSigns] *)

Module UseVitalSigns.
Import Js Api.

Record State : Type := {
  vitalSigns : list JsValue;
  latestVitalSigns : JsValue;
  loading : bool;
  error : option JsError
}.

Definition initial : State :=
  {| vitalSigns := []; latestVitalSigns := JNull; loading := false; error := None |}.

Definition setVitalSigns (f : list JsValue -> list JsValue) (st : State) : State :=
  {| vitalSigns := f (vitalSigns st); latestVitalSigns := latestVitalSigns st;
     loading := loading st; error := error st |}.

Definition setLatestVitalSigns (v : JsValue) (st : State) : State :=
  {| vitalSigns := vitalSigns st; latestVitalSigns := v;
     loading := loading st; error := error st |}.

Definition setLoading (b : bool) (st : State) : State :=
  {| vitalSigns := vitalSigns st; latestVitalSigns := latestVitalSigns st;
     loading := b; error := error st |}.

Definition setError (e : option JsError) (st : State) : State :=
  {| vitalSigns := vitalSigns st; latestVitalSigns := latestVitalSigns st;
     loading := loading st; error := e |}.

Section Hook.

Context {Server : Type}.
Variable serve : Server -> HttpRequest -> Server * HttpOutcome.
Variable patientId : JsNumber.

Definition vitals_url : string :=
  "/api/v1/patients/" +:+ Number_toString patientId +:+ "/vitals".

Definition fetchVitalSigns (st : State) (w : World Server) : State * World Server :=
  let st := setError None (setLoading true st) in
  match apiClient.get serve vitals_url w with
  | (w1, Normal response) =>
      (setLoading false (setVitalSigns (fun _ => rows_of (data response)) st), w1)
  | (w1, Throw err) => (setLoading false (setError (Some err) st), w1)
  end.

Definition fetchLatestVitalSigns (st : State) (w : World Server)
  : State * World Server :=
  let st := setError None (setLoading true st) in
  match apiClient.get serve (vitals_url +:+ "/latest") w with
  | (w1, Normal response) =>
      (setLoading false (setLatestVitalSigns (data response) st), w1)
  | (w1, Throw err) => (setLoading false (setError (Some err) st), w1)
  end.

Definition createVitalSigns (input : JsValue) (st : State) (w : World Server)
  : State * World Server * Completion JsValue :=
  let st := setError None (setLoading true st) in
  match apiClient.post serve vitals_url input w with
  | (w1, Normal response) =>
      (setLoading false
         (setLatestVitalSigns (data response)
            (setVitalSigns (fun prev => prev ++ [data response]) st)),
       w1, Normal (data response))
  | (w1, Throw err) =>
      (setLoading false (setError (Some err) st), w1, Throw err)
  end.

End Hook.

End UseVitalSigns.

(** ** [useRiskAssessment] *)

Module UseRiskAssessment.
Import Js Api.

Record State : Type := {
  latestAssessment : JsValue;
  loading : bool;
  error : option JsError
}.

Definition initial : State :=
  {| latestAssessment := JNull; loading := false; error := None |}.

Definition setLatestAssessment (v : JsValue) (st : State) : State :=
  {| latestAssessment := v; loading := loading st; error := error st |}.

Definition setLoading (b : bool) (st : State) : State :=
  {| latestAssessment := latestAssessment st; loading := b; error := error st |}.

Definition setError (e : option JsError) (st : State) : State :=
  {| latestAssessment := latestAssessment st; loading := loading st; error := e |}.

Section Hook.

Context {Server : Type}.
Variable serve : Server -> HttpRequest -> Server * HttpOutcome.
Variable patientId : JsNumber.


Definition updateRecommendations (assessmentId : JsNumber)
    (recommendations : list string) (st : State) (w : World Server)
  : State * World Server * Completion JsValue :=
  let st := setError None (setLoading true st) in
  match apiClient.put serve ("/api/v1/patients/" +:+ Number_toString patientId
                   +:+ "/risk-assessments/" +:+ Number_toString assessmentId)
          (JObj [("recommendations", JArr (JStr <$> recommendations))]) w with
  | (w1, Normal response) =>
      (setLoading false (setLatestAssessment (data response) st),
       w1, Normal (data response))
  | (w1, Throw err) =>
      (setLoading false (setError (Some err) st), w1, Throw err)
  end.

End Hook.

End UseRiskAssessment.

(** ** [useAuth]: the provider of [hooks/useAuthProvider.tsx] *)

Module UseAuthProvider.
Import Js Api.

Record State : Type := {
  user : JsValue;
  loading : bool;
  error : option string
}.

Definition initial : State :=
  {| user := JNull; loading := true; error := None |}.

Definition setUser (u : JsValue) (st : State) : State :=
  {| user := u; loading := loading st; error := error st |}.

Definition setLoading (b : bool) (st : State) : State :=
  {| user := user st; loading := b; error := error st |}.

Definition setError (e : option string) (st : State) : State :=
  {| user := user st; loading := loading st; error := e |}.

Section Provider.

Context `{Host} {Server : Type}.
Variable serve : Server -> HttpRequest -> Server * HttpOutcome.

(** The effect that runs when the provider is mounted. *)
Definition initAuth (st : State) (w : World Server) : State * World Server :=
  match localStorage (browser w) !! "access_token" with
  | Some token =>
      if is_empty token then (setLoading false st, w)
      else
        match apiClient.getCurrentUser serve w with
        | (w1, Normal response) =>
            (setLoading false (setUser (data response) st), w1)
        | (w1, Throw _) =>
            (setLoading false st,
             with_browser (localStorage_removeItem "access_token" (browser w1)) w1)
        end
  | None => (setLoading false st, w)
  end.

Definition login (email password : string) (st : State) (w : World Server)
  : State * World Server * Completion unit :=
  let st := setError None st in
  match apiClient.login serve email password w with
  | (w1, Throw err) =>
      (setError (Some "Invalid email or password") st, w1, Throw err)
  | (w1, Normal _) =>
      match apiClient.getCurrentUser serve w1 with
      | (w2, Normal response) => (setUser (data response) st, w2, Normal tt)
      | (w2, Throw err) =>
          (setError (Some "Invalid email or password") st, w2, Throw err)
      end
  end.

Definition logout (st : State) (w : World Server) : State * World Server :=
  (setUser JNull st,
   with_browser
     (navigate "/login" (localStorage_removeItem "access_token" (browser w))) w).

(** [register(userData)].  The e-mail address and the password reach
    [URLSearchParams.append] in [apiClient.login], which converts them to
    strings. *)
Definition register (userData : JsValue) (st : State) (w : World Server)
  : State * World Server * Completion unit :=
  let st := setError None st in
  let failed (st : State) (w : World Server) (err : JsError) :=
    (setError (Some "Registration failed") st, w, Throw (A := unit) err) in
  match apiClient.register serve userData w with
  | (w1, Throw err) => failed st w1 err
  | (w1, Normal _) =>
      match (email ← Get userData "email";
             password ← Get userData "password";
             username ← ToString email;
             secret ← ToString password;
             Normal (username, secret)) with
      | Throw err => failed st w1 err
      | Normal (username, secret) =>
          match login username secret st w1 with
          | (st2, w2, Normal _) => (st2, w2, Normal tt)
          | (st2, w2, Throw err) => failed st2 w2 err
          end
      end
  end.

End Provider.

End UseAuthProvider.

(* ================================================================== *)
(** * The pages *)
(* ================================================================== *)

(** ** The new-patient page and its submit handler *)

Module NewPatientPage.
Import Js Api.

Record State : Type := {
  formData : list (string * JsValue);
  reports : list (list (string * JsValue));
  loading : bool;
  showReportForm : bool;
  route : option string
}.

Definition initial : State :=
  {| formData := [("gender", JStr "male")]; reports := []; loading := false;
     showReportForm := false; route := None |}.

Definition setLoading (b : bool) (st : State) : State :=
  {| formData := formData st; reports := reports st; loading := b;
     showReportForm := showReportForm st; route := route st |}.

Definition router_push (href : string) (st : State) : State :=
  {| formData := formData st; reports := reports st; loading := loading st;
     showReportForm := showReportForm st; route := Some href |}.

Definition handleAddReport (report : list (string * JsValue)) (st : State) : State :=
  {| formData := formData st; reports := reports st ++ [report];
     loading := loading st; showReportForm := false; route := route st |}.

Definition handleInputChange (name : string) (value : JsValue) (st : State) : State :=
  {| formData := obj_set name value (formData st); reports := reports st;
     loading := loading st; showReportForm := showReportForm st;
     route := route st |}.

(** [setReports(prev => prev.filter((_, i) => i !== index))] *)
Definition handleDeleteReport (index : nat) (st : State) : State :=
  {| formData := formData st;
     reports := filter_index (fun i => negb (i =? index)%nat) 0 (reports st);
     loading := loading st; showReportForm := showReportForm st;
     route := route st |}.

(** The [onChange] of the date input: the value is handed on under the
    name [DOB], as [new Date(value).toISOString()]. *)
Definition handleDateChange `{Host} (value : string) (st : State) : Completion State :=
  date ← new_Date (JStr value);
  iso ← Date_prototype_toISOString date;
  Normal (handleInputChange "DOB" (JStr iso) st).

(** A report's [procedure_pairs] as an array of two-element arrays of
    integers: the value that [Array.isArray] accepts in [handleSubmit] and
    that the details page hands to [JSON.stringify]. *)
Definition pair_array (ab : Z * Z) : JsValue := JArr [JInt ab.1; JInt ab.2].

Definition pairs_array (pairs : list (Z * Z)) : JsValue :=
  JArr (pair_array <$> pairs).

Section Page.

Context `{Host} {Server : Type}.
Variable serve : Server -> HttpRequest -> Server * HttpOutcome.

Definition field (report : list (string * JsValue)) (k : string) : JsValue :=
  default JUndefined (own k report).

(** [Array.isArray(v) ? v : v.split(",")] *)
Definition codes_of (v : JsValue) : Completion JsValue :=
  if isArray v then Normal v else call_split v.

(** [Array.isArray(v) ? v : JSON.parse(v)] *)
Definition pairs_of (v : JsValue) : Completion JsValue :=
  if isArray v then Normal v else JSON_parse_value v.

(** [Array.isArray(v) ? v : JSON.parse(v.split(","))] *)
Definition events_of (v : JsValue) : Completion JsValue :=
  if isArray v then Normal v else parts ← call_split v; JSON_parse_value parts.

(** The object literal that [handleSubmit] builds for one report: the
    report's own properties, then the four normalized fields. *)
Definition normalize_report (report : list (string * JsValue))
  : Completion (list (string * JsValue)) :=
  cpt_codes ← codes_of (field report "cpt_codes");
  icd9_codes ← codes_of (field report "icd9_codes");
  procedure_pairs ← pairs_of (field report "procedure_pairs");
  lab_events ← events_of (field report "lab_events");
  Normal (obj_set "lab_events" lab_events
            (obj_set "procedure_pairs" procedure_pairs
               (obj_set "icd9_codes" icd9_codes
                  (obj_set "cpt_codes" cpt_codes report)))).

(** [reports.map(report => ({ ... }))] *)
Fixpoint normalize_all (l : list (list (string * JsValue)))
  : Completion (list JsValue) :=
  match l with
  | [] => Normal []
  | report :: rest =>
      r ← normalize_report report;
      rs ← normalize_all rest;
      Normal (JObj r :: rs)
  end.

Definition handleSubmit (page : State) (hook : UsePatients.State)
    (w : World Server) : State * UsePatients.State * World Server :=
  let page := setLoading true page in
  match UsePatients.createPatient serve (formData page) hook w with
  | (hook1, w1, Throw _) => (setLoading false page, hook1, w1)
  | (hook1, w1, Normal patient) =>
      match Get patient "id" with
      | Throw _ => (setLoading false page, hook1, w1)
      | Normal id =>
          match normalize_all (reports page) with
          | Throw _ => (setLoading false page, hook1, w1)
          | Normal normalized =>
              match UsePatients.createReports serve id normalized hook1 w1 with
              | (hook2, w2, Throw _) => (setLoading false page, hook2, w2)
              | (hook2, w2, Normal _) =>
                  (setLoading false (router_push "/patients" page), hook2, w2)
              end
          end
      end
  end.

End Page.

End NewPatientPage.

(** ** The patient-details page and its "Predict Risks" form *)

Module PatientDetailsPage.
Import Js Api.

Definition predict_url : string := "https://hf-readmission.onrender.com/predict".

(** Subtraction of numbers. *)
Definition minus (a b : JsNumber) : JsNumber :=
  match a, b with
  | Dec m1 e1, Dec m2 e2 =>
      let e := Z.min e1 e2 in
      normal_dec (m1 * 10 ^ (e1 - e) - m2 * 10 ^ (e2 - e)) e
  | _, _ => NaN
  end.

(** [d.getFullYear()] of a date object. *)
Definition getFullYear `{Host} (d : JsValue) : JsNumber :=
  match d with
  | JDate (Some t) => Dec (Date_getFullYear t) 0
  | _ => NaN
  end.

Section Page.

Context `{Host}.

(** The hidden inputs of the form shown next to [report], in the order of
    the object literal; [now] is the time value of [new Date()].  Each
    value is the JavaScript value handed to the input. *)
Definition predict_inputs (now : Z) (patient report : JsValue)
  : Completion (list (string * JsValue)) :=
  admission_type ← Get patient "admission_type";
  discharge_location ← Get patient "discharge_location";
  ethnicity ← Get patient "ethnicity";
  cpt_cd ← Get report "cpt_codes";
  all_diagnosis ← Get report "icd9_codes";
  gender ← Get patient "gender";
  date_of_birth ← Get patient "date_of_birth";
  born ← new_Date date_of_birth;
  let age := minus (getFullYear (JDate (Some now))) (getFullYear born) in
  drg_type ← Get patient "drg_type";
  drg_code ← Get report "drg_code";
  description ← Get report "drg_description";
  drg_severity ← Get report "drg_severity";
  drg_mortality ← Get report "drg_mortality";
  procedure_pairs ← Get report "procedure_pairs";
  lab_events ← Get report "lab_events";
  Normal [("admission_type", admission_type);
          ("discharge_location", discharge_location);
          ("ethnicity", ethnicity);
          ("cpt_cd", cpt_cd);
          ("all_diagnosis", all_diagnosis);
          ("gender", gender);
          ("age", JNum age);
          ("drg_type", drg_type);
          ("drg_code", drg_code);
          ("description", description);
          ("drg_severity", drg_severity);
          ("drg_mortality", drg_mortality);
          ("procedure_pairs", JSON_stringify procedure_pairs);
          ("lab_events", lab_events);
          ("submit", JStr "true")].

Definition predict_form (now : Z) (patient report : JsValue)
  : Completion HtmlForm :=
  fields ← predict_inputs now patient report;
  Normal {| action := predict_url; form_method := "POST"; inputs := fields |}.

(** Pressing "Predict Risks": the browser itself posts the form to its
    action and shows the answer; no handler of the page runs. *)
Definition submit_form {Server} (f : HtmlForm) (w : World Server) : World Server :=
  {| browser := navigate (action f) (browser w);
     server := server w;
     sent := sent w;
     submitted := submitted w ++ [f] |}.

(** Pressing the button of the [index]-th report of a rendered patient. *)
Definition predict_risk {Server} (now : Z) (patient : JsValue) (index : nat)
    (w : World Server) : World Server :=
  match Get patient "reports" with
  | Normal reports =>
      match rows_of reports !! index with
      | Some report =>
          match predict_form now patient report with
          | Normal f => submit_form f w
          | Throw _ => w
          end
      | None => w
      end
  | Throw _ => w
  end.

(** Pressing "Delete" next to the [index]-th report of the patient that
    the hook holds: [deleteReports(report.id, patientId)].  The promise is
    dropped, so a rejection goes nowhere. *)
Definition delete_report {Server}
    (serve : Server -> HttpRequest -> Server * HttpOutcome)
    (patientId : JsNumber) (index : nat) (hook : UsePatients.State)
    (w : World Server) : UsePatients.State * World Server :=
  match Get (UsePatients.patient hook) "reports" with
  | Normal reports =>
      match rows_of reports !! index with
      | Some report =>
          match Get report "id" with
          | Normal id => (UsePatients.deleteReports serve id patientId hook w).1
          | Throw _ => (hook, w)
          end
      | None => (hook, w)
      end
  | Throw _ => (hook, w)
  end.

End Page.

End PatientDetailsPage.

(** ** The first version of the new-patient page (no reports) *)

Module BasicNewPatientPage.
Import Js Api.

Record State : Type := {
  formData : list (string * JsValue);
  loading : bool;
  route : option string
}.

Definition initial : State :=
  {| formData := [("gender", JStr "male")]; loading := false; route := None |}.

Definition setLoading (b : bool) (st : State) : State :=
  {| formData := formData st; loading := b; route := route st |}.

Definition router_push (href : string) (st : State) : State :=
  {| formData := formData st; loading := loading st; route := Some href |}.

Definition handleInputChange (name : string) (value : JsValue) (st : State) : State :=
  {| formData := obj_set name value (formData st); loading := loading st;
     route := route st |}.

Section Page.

Context `{Host} {Server : Type}.
Variable serve : Server -> HttpRequest -> Server * HttpOutcome.

Definition handleSubmit (page : State) (hook : UsePatients.State)
    (w : World Server) : State * UsePatients.State * World Server :=
  let page := setLoading true page in
  match UsePatients.createPatient serve (formData page) hook w with
  | (hook1, w1, Normal _) =>
      (setLoading false (router_push "/patients" page), hook1, w1)
  | (hook1, w1, Throw _) => (setLoading false page, hook1, w1)
  end.

End Page.

End BasicNewPatientPage.

(** ** The record-vitals page *)

Module RecordVitalsPage.
Import Js Api.

Record State : Type := {
  formData : list (string * JsValue);
  route : option string
}.

(** The form starts with [measured_at: new Date().toISOString()]; [now] is
    the time value of that date. *)
Definition initial `{Host} (now : Z) : State :=
  {| formData := [("measured_at", JStr (Date_toISOString now))]; route := None |}.

Definition router_push (href : string) (st : State) : State :=
  {| formData := formData st; route := Some href |}.

Section Page.

Context {Server : Type}.
Variable serve : Server -> HttpRequest -> Server * HttpOutcome.
Variable patientId : JsNumber.

Definition handleSubmit (page : State) (hook : UseVitalSigns.State)
    (w : World Server) : State * UseVitalSigns.State * World Server :=
  match UseVitalSigns.createVitalSigns serve patientId (JObj (formData page)) hook w with
  | (hook1, w1, Normal _) =>
      (router_push ("/patients/" +:+ Number_toString patientId) page, hook1, w1)
  | (hook1, w1, Throw _) => (page, hook1, w1)
  end.

End Page.

End RecordVitalsPage.

(* ================================================================== *)
(** * A backend after the specification *)
(* ================================================================== *)

(** The FastAPI backend is not among the sources.  The hooks above are
    stated for any backend ([serve] is a parameter); the concrete scenarios
    below run them against this one. *)

Module EntityStore.
Import Js Api.

(** Modelled from the spec: the Entity Store of section 2 with the rows the
    operations of section 4 insert (the backend sources are missing).  The
    external prediction collaborator is the field [prediction]: its
    well-formed answer, or [None] when it is unreachable, times out or
    answers something malformed.  [clock] is the submission time. *)
Record Store : Type := {
  accounts : list (string * string * string);
  patient_rows : list JsValue;
  report_rows : list JsValue;
  vitals_rows : list JsValue;
  assessment_rows : list JsValue;
  next_id : Z;
  clock : string;
  prediction : option JsValue
}.

(** Modelled from the spec: the store before anything is created (the
    backend sources are missing). *)
Definition empty : Store :=
  {| accounts := []; patient_rows := []; report_rows := []; vitals_rows := [];
     assessment_rows := []; next_id := 1; clock := "2025-01-01T00:00:00.000Z";
     prediction := None |}.

Definition prop (v : JsValue) (k : string) : JsValue :=
  match v with
  | JObj props => default JUndefined (own k props)
  | _ => JUndefined
  end.

Definition props_of (v : JsValue) : list (string * JsValue) :=
  match v with
  | JObj props => props
  | _ => []
  end.

Definition value_eqb_num (v : JsValue) (n : Z) : bool :=
  match v with
  | JNum (Dec m e) => (m =? n)%Z && (e =? 0)%Z
  | _ => false
  end.

(** Modelled from the spec: a dependent row "belongs to exactly one
    Patient" (section 3; the backend sources are missing), named by its
    [patient_id]. *)
Definition belongs_to (patientId : Z) (row : JsValue) : bool :=
  value_eqb_num (prop row "patient_id") patientId.

(** Modelled from the spec: the referential integrity of section 2 (the
    backend sources are missing): a dependent row is only created for an
    existing patient. *)
Definition has_patient (s : Store) (patientId : Z) : bool :=
  existsb (fun p => value_eqb_num (prop p "id") patientId) (patient_rows s).

(** Modelled from the spec: the range rule of section 3 for an optional
    numeric field (the backend sources are missing): [lo <= x <= hi] for a
    number, and an absent field is accepted. *)
Definition in_range (lo hi : Z) (v : JsValue) : bool :=
  match v with
  | JUndefined | JNull => true
  | JNum (Dec m e) =>
      if (0 <=? e)%Z then ((lo <=? m * 10 ^ e) && (m * 10 ^ e <=? hi))%Z
      else ((lo * 10 ^ (- e) <=? m) && (m <=? hi * 10 ^ (- e)))%Z
  | _ => false
  end.

Definition is_string (v : JsValue) : bool :=
  match v with
  | JStr _ => true
  | _ => false
  end.

Definition is_pair (v : JsValue) : bool :=
  match v with
  | JArr [_; _] => true
  | _ => false
  end.

(** Modelled from the spec: the errors of section 7 as HTTP answers (the
    backend sources are missing). *)
Definition validation_error (fields : list string) : HttpOutcome :=
  Answer 422 (JObj [("kind", JStr "ValidationError");
                    ("fields", JArr (JStr <$> fields))]).

Definition not_found : HttpOutcome :=
  Answer 404 (JObj [("kind", JStr "NotFound")]).

Definition prediction_unavailable : HttpOutcome :=
  Answer 503 (JObj [("kind", JStr "PredictionUnavailable")]).


Definition bump (s : Store) : Z := (next_id s + 1)%Z.

(** Modelled from the spec: [createPatient(input)] of section 4.1 (the
    backend sources are missing): the mandatory fields are checked, every
    violated field is listed, and a valid patient gets a fresh id. *)
Definition create_patient (input : JsValue) (s : Store) : Store * HttpOutcome :=
  let bad :=
    (if is_string (prop input "full_name") then [] else ["full_name"]) ++
    (match prop input "date_of_birth" with
     | JDate (Some _) | JStr _ => []
     | _ => ["date_of_birth"]
     end) ++
    (match prop input "gender" with
     | JStr g => if bool_decide (g ∈ ["male"; "female"; "other"]) then [] else ["gender"]
     | _ => ["gender"]
     end) ++
    (if in_range 0 300 (prop input "height") then [] else ["height"]) ++
    (if in_range 0 1000 (prop input "weight") then [] else ["weight"]) in
  match bad with
  | [] =>
      let row := JObj (obj_set "id" (JInt (next_id s)) (props_of input)) in
      ({| accounts := accounts s; patient_rows := patient_rows s ++ [row];
          report_rows := report_rows s; vitals_rows := vitals_rows s;
          assessment_rows := assessment_rows s; next_id := bump s;
          clock := clock s; prediction := prediction s |},
       Answer 201 row)
  | _ => (s, validation_error bad)
  end.

(** Modelled from the spec: the field contract of section 6 for
    [cpt_codes] and [icd9_codes] (the backend sources are missing): a
    collection of strings, or one comma-separated string, which is stored as
    the collection of its codes without the blanks around them. *)
Definition codes_field (v : JsValue) : option JsValue :=
  match v with
  | JArr xs => if forallb is_string xs then Some v else None
  | JStr text => Some (JArr (JStr <$> (trim <$> split "," text)))
  | _ => None
  end.

(** Modelled from the spec: the field contract of section 6 for
    [procedure_pairs] (the backend sources are missing): a collection of
    two-element arrays, or a JSON-encoded string of the same shape. *)
Definition pairs_field (v : JsValue) : option JsValue :=
  match v with
  | JArr xs => if forallb is_pair xs then Some v else None
  | JStr text =>
      match JSON_parse text with
      | Normal (JArr xs) => if forallb is_pair xs then Some (JArr xs) else None
      | _ => None
      end
  | _ => None
  end.

(** Modelled from the spec: the field contract of section 6 for
    [lab_events] (the backend sources are missing): a collection, or a
    comma-separated string, which is split at its commas. *)
Definition events_field (v : JsValue) : option JsValue :=
  match v with
  | JArr _ => Some v
  | JStr text => Some (JArr (JStr <$> (trim <$> split "," text)))
  | _ => None
  end.

(** Modelled from the spec: the insert of one report by [addReports]
    (section 4.1, with the field contract of section 6; the backend sources
    are missing): the four collections are normalized before storage, and a
    report with a malformed one is refused with a ValidationError that lists
    the fields, nothing being stored. *)
Definition add_report (patientId : Z) (input : JsValue) (s : Store)
  : Store * HttpOutcome :=
  if negb (has_patient s patientId) then (s, not_found)
  else
    match codes_field (prop input "cpt_codes"),
          codes_field (prop input "icd9_codes"),
          pairs_field (prop input "procedure_pairs"),
          events_field (prop input "lab_events") with
    | Some cpt_codes, Some icd9_codes, Some procedure_pairs, Some lab_events =>
        let fields :=
          obj_set "lab_events" lab_events
            (obj_set "procedure_pairs" procedure_pairs
               (obj_set "icd9_codes" icd9_codes
                  (obj_set "cpt_codes" cpt_codes (props_of input)))) in
        let row := JObj (obj_set "patient_id" (JInt patientId)
                           (obj_set "id" (JInt (next_id s)) fields)) in
        ({| accounts := accounts s; patient_rows := patient_rows s;
            report_rows := report_rows s ++ [row]; vitals_rows := vitals_rows s;
            assessment_rows := assessment_rows s; next_id := bump s;
            clock := clock s; prediction := prediction s |},
         Answer 201 row)
    | cpt_codes, icd9_codes, procedure_pairs, lab_events =>
        (s, validation_error
              ((if bool_decide (is_Some cpt_codes) then [] else ["cpt_codes"]) ++
               (if bool_decide (is_Some icd9_codes) then [] else ["icd9_codes"]) ++
               (if bool_decide (is_Some procedure_pairs) then [] else ["procedure_pairs"]) ++
               (if bool_decide (is_Some lab_events) then [] else ["lab_events"])))
    end.

(** Modelled from the spec: [recordVitals(patientId, input)] of section 4.2
    (the backend sources are missing): measured-at defaults to the
    submission time, the numeric fields are checked against their ranges,
    and the created row is returned. *)
Definition record_vitals (patientId : Z) (input : JsValue) (s : Store)
  : Store * HttpOutcome :=
  if negb (has_patient s patientId) then (s, not_found)
  else
    let bad :=
      (if in_range 0 300 (prop input "heart_rate") then [] else ["heart_rate"]) ++
      (if in_range 30 45 (prop input "temperature") then [] else ["temperature"]) ++
      (if in_range 0 100 (prop input "oxygen_saturation") then []
       else ["oxygen_saturation"]) in
    match bad with
    | [] =>
        let measured_at :=
          match prop input "measured_at" with
          | JStr t => JStr t
          | _ => JStr (clock s)
          end in
        let row := JObj (obj_set "measured_at" measured_at
                           (obj_set "patient_id" (JInt patientId)
                              (obj_set "id" (JInt (next_id s)) (props_of input)))) in
        ({| accounts := accounts s; patient_rows := patient_rows s;
            report_rows := report_rows s; vitals_rows := vitals_rows s ++ [row];
            assessment_rows := assessment_rows s; next_id := bump s;
            clock := clock s; prediction := prediction s |},
         Answer 201 row)
    | _ => (s, validation_error bad)
    end.

Definition measured_at (row : JsValue) : string :=
  match prop row "measured_at" with
  | JStr t => t
  | _ => EmptyString
  end.

(** Modelled from the spec: "latest vitals" of section 3 (the backend
    sources are missing): the row with the maximum measured-at, the first
    such row when several share it.  Timestamps are ISO-8601 strings in UTC,
    as [toISOString] writes them, so their order is the order of the
    strings. *)
Fixpoint latest_of (rows : list JsValue) : option JsValue :=
  match rows with
  | [] => None
  | row :: rest =>
      match latest_of rest with
      | Some best =>
          if String.ltb (measured_at row) (measured_at best)
          then Some best else Some row
      | None => Some row
      end
  end.

(** Modelled from the spec: [listVitals] and [latestVitals] of section 4.2
    (the backend sources are missing); the latter fails with NotFound when
    the patient has no vitals yet. *)
Definition vitals_of (patientId : Z) (s : Store) : list JsValue :=
  filter (fun row => belongs_to patientId row = true) (vitals_rows s).

Definition latest_vitals (patientId : Z) (s : Store) : HttpOutcome :=
  match latest_of (vitals_of patientId s) with
  | Some row => Answer 200 row
  | None => not_found
  end.


(** Modelled from the spec: [createRiskAssessment(patientId)] of section
    4.3 (the backend sources are missing): a well-formed answer of the
    collaborator is persisted as a new row; otherwise the operation fails
    with PredictionUnavailable and writes nothing. *)
Definition create_risk_assessment (patientId : Z) (s : Store)
  : Store * HttpOutcome :=
  if negb (has_patient s patientId) then (s, not_found)
  else
    match prediction s with
    | Some result =>
        let row := JObj (obj_set "patient_id" (JInt patientId)
                           (obj_set "id" (JInt (next_id s)) (props_of result))) in
        ({| accounts := accounts s; patient_rows := patient_rows s;
            report_rows := report_rows s; vitals_rows := vitals_rows s;
            assessment_rows := assessment_rows s ++ [row]; next_id := bump s;
            clock := clock s; prediction := prediction s |},
         Answer 201 row)
    | None => (s, prediction_unavailable)
    end.

(** Modelled from the spec: [POST /api/v1/auth/login] of section 6 (the
    backend sources are missing): known credentials are exchanged for the
    account's bearer token. *)
Definition log_in (input : JsValue) (s : Store) : HttpOutcome :=
  match prop input "username", prop input "password" with
  | JStr u, JStr p =>
      match list_find (fun a => a.1.1 = u ∧ a.1.2 = p) (accounts s) with
      | Some (_, (_, _, token)) =>
          Answer 200 (JObj [("access_token", JStr token);
                            ("token_type", JStr "bearer")])
      | None => Answer 401 (JObj [("kind", JStr "Unauthenticated")])
      end
  | _, _ => validation_error ["username"; "password"]
  end.

(** A path segment made of decimal digits. *)
Definition parse_id (s : string) : option Z :=
  if is_empty s then None
  else d ← NilEmpty.uint_of_string s; Some (Z.of_N (N.of_uint d)).

(** Modelled from the spec: the HTTP surface of section 6 for the
    operations above (the backend sources are missing).  Requests arrive
    here after the backend's own credential check, which is not modelled. *)
Definition serve (s : Store) (r : HttpRequest) : Store * HttpOutcome :=
  match split "/" (url r) with
  | [_; api; v1; auth; login] =>
      if bool_decide ((method r, api, v1, auth, login)
                      = ("POST", "api", "v1", "auth", "login"))
      then (s, log_in (body r) s)
      else (s, not_found)
  | [_; api; v1; patients] =>
      if bool_decide ((method r, api, v1, patients) = ("POST", "api", "v1", "patients"))
      then create_patient (body r) s
      else (s, not_found)
  | [_; api; v1; patients; id; what] =>
      if bool_decide ((api, v1, patients) = ("api", "v1", "patients")) then
        match parse_id id with
        | Some n =>
            if bool_decide ((method r, what) = ("POST", "reports"))
            then add_report n (body r) s
            else if bool_decide ((method r, what) = ("POST", "vitals"))
            then record_vitals n (body r) s
            else if bool_decide ((method r, what) = ("GET", "vitals"))
            then (s, Answer 200 (JArr (vitals_of n s)))
            else if bool_decide ((method r, what) = ("POST", "risk-assessment"))
            then create_risk_assessment n s
            else (s, not_found)
        | None => (s, not_found)
        end
      else (s, not_found)
  | [_; api; v1; patients; id; vitals; latest] =>
      if bool_decide ((method r, api, v1, patients, vitals, latest)
                      = ("GET", "api", "v1", "patients", "vitals", "latest")) then
        match parse_id id with
        | Some n => (s, latest_vitals n s)
        | None => (s, not_found)
        end
      else (s, not_found)
  | _ => (s, not_found)
  end.

End EntityStore.

(* ================================================================== *)
(** * A host for the concrete scenarios *)
(* ================================================================== *)

(** A host whose time zone is UTC and whose [Date.parse] accepts the
    ECMAScript date-time string format in the two forms the application
    produces: [YYYY-MM-DD] (the value of a date input) and
    [YYYY-MM-DDTHH:mm:ss.sssZ] (the result of [toISOString]), read as V8
    reads them: a day up to 31 in every month, and the hour 24 at midnight.
    Every other text is no date for this host.  Its built-in functions have
    the text that V8 gives them. *)

Module UtcHost.
Import Js.

Definition days_from_civil (y m d : Z) : Z :=
  let y' := if (m <=? 2)%Z then (y - 1)%Z else y in
  let era := (y' / 400)%Z in
  let yoe := (y' - era * 400)%Z in
  let doy := ((153 * (m + (if (2 <? m)%Z then -3 else 9)) + 2) / 5 + d - 1)%Z in
  let doe := (yoe * 365 + yoe / 4 - yoe / 100 + doy)%Z in
  (era * 146097 + doe - 719468)%Z.

Definition civil_from_days (z : Z) : Z * Z * Z :=
  let z := (z + 719468)%Z in
  let era := (z / 146097)%Z in
  let doe := (z - era * 146097)%Z in
  let yoe := ((doe - doe / 1460 + doe / 36524 - doe / 146096) / 365)%Z in
  let doy := (doe - (365 * yoe + yoe / 4 - yoe / 100))%Z in
  let mp := ((5 * doy + 2) / 153)%Z in
  let d := (doy - (153 * mp + 2) / 5 + 1)%Z in
  let m := if (mp <? 10)%Z then (mp + 3)%Z else (mp - 9)%Z in
  let y := (yoe + era * 400)%Z in
  ((if (m <=? 2)%Z then y + 1 else y)%Z, m, d).

Definition ms_per_day : Z := 86400000.

Definition year_of (t : Z) : Z := (civil_from_days (t / ms_per_day)).1.1.

(** [n] decimal digits at the head of [s]. *)
Fixpoint take_digits (n : nat) (s : string) : option (Z * string) :=
  match n with
  | O => Some (0%Z, s)
  | S k =>
      match s with
      | String c r =>
          if is_digit c then
            '(v, t) ← take_digits k r;
            Some ((Z.of_N (code c - 48) * 10 ^ Z.of_nat k + v)%Z, t)
          else None
      | EmptyString => None
      end
  end.

Definition expect (c : ascii) (s : string) : option string :=
  match s with
  | String c' r => if Ascii.eqb c c' then Some r else None
  | EmptyString => None
  end.

(** A day of the month up to 31 is accepted in every month, and a day
    that the month does not have falls into the next month (as in V8:
    [1990-02-30] is 2 March 1990). *)
Definition valid_day (y m d : Z) : bool :=
  ((1 <=? m) && (m <=? 12) && (1 <=? d) && (d <=? 31))%Z.

Definition parse (s : string) : option Z :=
  '(y, s) ← take_digits 4 s; s ← expect "-" s;
  '(m, s) ← take_digits 2 s; s ← expect "-" s;
  '(d, s) ← take_digits 2 s;
  if valid_day y m d then
    let day := (days_from_civil y m d * ms_per_day)%Z in
    if is_empty s then Some day
    else
      s ← expect "T" s;
      '(hh, s) ← take_digits 2 s; s ← expect ":" s;
      '(mm, s) ← take_digits 2 s; s ← expect ":" s;
      '(ss, s) ← take_digits 2 s; s ← expect "." s;
      '(ms, s) ← take_digits 3 s; s ← expect "Z" s;
      if is_empty s && (mm <? 60)%Z && (ss <? 60)%Z
         && ((hh <? 24) || ((hh =? 24) && (mm =? 0) && (ss =? 0) && (ms =? 0)))%Z
      then Some (day + ((hh * 60 + mm) * 60 + ss) * 1000 + ms)%Z
      else None
  else None.

Definition pad (width : nat) (z : Z) : string :=
  let d := digits_of z in
  zeros (width - String.length d) +:+ d.

Definition iso_year (y : Z) : string :=
  if ((0 <=? y) && (y <=? 9999))%Z then pad 4 y
  else (if (y <? 0)%Z then "-" else "+") +:+ pad 6 y.

Definition toISOString (t : Z) : string :=
  let '(y, m, d) := civil_from_days (t / ms_per_day) in
  let r := (t mod ms_per_day)%Z in
  iso_year y +:+ "-" +:+ pad 2 m +:+ "-" +:+ pad 2 d +:+ "T" +:+
  pad 2 (r / 3600000) +:+ ":" +:+ pad 2 (r / 60000 mod 60) +:+ ":" +:+
  pad 2 (r / 1000 mod 60) +:+ "." +:+ pad 3 (r mod 1000) +:+ "Z".

Definition toString (t : Z) : string :=
  let days := (t / ms_per_day)%Z in
  let '(y, m, d) := civil_from_days days in
  let r := (t mod ms_per_day)%Z in
  default EmptyString
    (["Sun"; "Mon"; "Tue"; "Wed"; "Thu"; "Fri"; "Sat"] !! Z.to_nat ((days + 4) mod 7))
  +:+ " " +:+
  default EmptyString
    (["Jan"; "Feb"; "Mar"; "Apr"; "May"; "Jun";
      "Jul"; "Aug"; "Sep"; "Oct"; "Nov"; "Dec"] !! Z.to_nat (m - 1))
  +:+ " " +:+ pad 2 d +:+ " " +:+
  (if (y <? 0)%Z then "-" +:+ pad 6 y else pad 4 y) +:+ " " +:+
  pad 2 (r / 3600000) +:+ ":" +:+ pad 2 (r / 60000 mod 60) +:+ ":" +:+
  pad 2 (r / 1000 mod 60) +:+ " GMT+0000 (Coordinated Universal Time)".

(** The text of a built-in function as V8 writes it. *)
Definition native_code (name : string) : string :=
  "function " +:+ name +:+ "() { [native code] }".

Definition host : Host :=
  {| Date_parse := parse;
     Date_getFullYear := year_of;
     Date_toString := toString;
     Date_toISOString := toISOString;
     Function_toString := native_code |}.

End UtcHost.

(* ================================================================== *)
(** * Concrete scenarios *)
(* ================================================================== *)

Module Scenario.
Import Js Api.

#[local] Existing Instance UtcHost.host.

Definition site (path : string) : Middleware.URL :=
  {| Middleware.origin := "https://heartsync.example"; Middleware.pathname := path |}.

Definition request_for (path : string) (jar : gmap string string)
  : Middleware.NextRequest :=
  {| Middleware.nextUrl := site path;
     Middleware.cookies := jar;
     Middleware.headers := {["accept" := "text/html"]} |}.

(** Payload [{"sub":"42","email":"doc@heart.org","role":"doctor","exp":4102444800}]. *)
Definition token_doctor : string :=
  "eyJhbGciOiJIUzI1NiIsInR5cCI6IkpXVCJ9.eyJzdWIiOiI0MiIsImVtYWlsIjoiZG9jQGhlYXJ0Lm9yZyIsInJvbGUiOiJkb2N0b3IiLCJleHAiOjQxMDI0NDQ4MDB9.c2ln".

Definition payload_doctor : list (string * JsValue) :=
  [("sub", JStr "42"); ("email", JStr "doc@heart.org");
   ("role", JStr "doctor"); ("exp", JInt 4102444800)].

(** The same payload with [exp] 1, one second after the epoch. *)
Definition token_expired : string :=
  "eyJhbGciOiJIUzI1NiIsInR5cCI6IkpXVCJ9.eyJzdWIiOiI0MiIsImVtYWlsIjoiZG9jQGhlYXJ0Lm9yZyIsInJvbGUiOiJkb2N0b3IiLCJleHAiOjF9.c2ln".

Definition payload_expired : list (string * JsValue) :=
  [("sub", JStr "42"); ("email", JStr "doc@heart.org");
   ("role", JStr "doctor"); ("exp", JInt 1)].

(** Tokens whose payload part decodes, to the JSON text [null], to the
    JSON string ["abc"], and to an object whose [sub] claim holds a line
    break: [{"sub":"a\nb","email":"doc@heart.org","role":"doctor"}]. *)
Definition token_null : string :=
  "eyJhbGciOiJIUzI1NiIsInR5cCI6IkpXVCJ9.bnVsbA.c2ln".

Definition token_string : string :=
  "eyJhbGciOiJIUzI1NiIsInR5cCI6IkpXVCJ9.ImFiYyI.c2ln".

Definition token_line_break : string :=
  "eyJhbGciOiJIUzI1NiIsInR5cCI6IkpXVCJ9.eyJzdWIiOiJhXG5iIiwiZW1haWwiOiJkb2NAaGVhcnQub3JnIiwicm9sZSI6ImRvY3RvciJ9.c2ln".

(** Payload [{"sub":"Dr Who","email":"doc@heart.org","role":"doctor"}]. *)
Definition token_spaced : string :=
  "eyJhbGciOiJIUzI1NiIsInR5cCI6IkpXVCJ9.eyJzdWIiOiJEciBXaG8iLCJlbWFpbCI6ImRvY0BoZWFydC5vcmciLCJyb2xlIjoiZG9jdG9yIn0.c2ln".

Definition payload_spaced : list (string * JsValue) :=
  [("sub", JStr "Dr Who"); ("email", JStr "doc@heart.org");
   ("role", JStr "doctor")].

Definition payload_line_break : list (string * JsValue) :=
  [("sub", JStr (String "a" (String "010" (String "b" EmptyString))));
   ("email", JStr "doc@heart.org"); ("role", JStr "doctor")].

(** A token whose payload part is the truncated JSON text [{"sub":]. *)
Definition token_garbled : string :=
  "eyJhbGciOiJIUzI1NiIsInR5cCI6IkpXVCJ9.eyJzdWIiOg.c2ln".

Definition req_anonymous : Middleware.NextRequest := request_for "/patients" ∅.
Definition req_garbled : Middleware.NextRequest :=
  request_for "/patients" {["access_token" := token_garbled]}.
Definition req_doctor : Middleware.NextRequest :=
  request_for "/patients" {["access_token" := token_doctor]}.
Definition req_expired : Middleware.NextRequest :=
  request_for "/patients" {["access_token" := token_expired]}.
Definition req_null : Middleware.NextRequest :=
  request_for "/patients" {["access_token" := token_null]}.
Definition req_string : Middleware.NextRequest :=
  request_for "/patients" {["access_token" := token_string]}.
Definition req_line_break : Middleware.NextRequest :=
  request_for "/patients" {["access_token" := token_line_break]}.
Definition req_spaced : Middleware.NextRequest :=
  request_for "/patients" {["access_token" := token_spaced]}.

(** 2023-11-14T22:13:20Z, in seconds. *)
Definition now_seconds : Z := 1700000000.

(** A store with one account and one patient. *)
Definition store0 : EntityStore.Store :=
  {| EntityStore.accounts := [("doc@heart.org", "s3cret", token_doctor)];
     EntityStore.patient_rows :=
       [JObj [("id", JInt 7); ("full_name", JStr "Ada Moore");
              ("date_of_birth", JStr "1980-03-01"); ("gender", JStr "female")]];
     EntityStore.report_rows := [];
     EntityStore.vitals_rows := [];
     EntityStore.assessment_rows := [];
     EntityStore.next_id := 100;
     EntityStore.clock := "2025-01-01T00:00:00.000Z";
     EntityStore.prediction := None |}.

Definition browser0 : Browser :=
  {| cookie_jar := ∅; localStorage := ∅; location := None |}.

Definition world_of (s : EntityStore.Store) : World EntityStore.Store :=
  {| browser := browser0; server := s; sent := []; submitted := [] |}.

Definition world0 : World EntityStore.Store := world_of store0.

(** The new-patient form as a user may leave it: a [date_of_birth] typed
    by hand and no [DOB], because the date picker was never used. *)
Definition form_without_DOB : list (string * JsValue) :=
  [("gender", JStr "male"); ("full_name", JStr "Ben Ode");
   ("date_of_birth", JStr "1990-05-17")].

(** The same form with a [DOB] that is no date. *)
Definition form_bad_DOB : list (string * JsValue) :=
  obj_set "DOB" (JStr "next tuesday") form_without_DOB.

(** A report with structured fields, and one whose CPT codes are neither
    a collection nor a string, which the store refuses. *)
Definition report_structured : JsValue :=
  JObj [("drg_code", JStr "291"); ("drg_description", JStr "Heart failure");
        ("drg_severity", JStr "2"); ("drg_mortality", JStr "1");
        ("cpt_codes", JArr [JStr "99291"; JStr "99233"]);
        ("icd9_codes", JArr [JStr "4280"]);
        ("procedure_pairs", JArr [JArr [JInt 1; JInt 311]]);
        ("lab_events", JArr [])].

Definition report_unstructured : JsValue :=
  JObj [("drg_code", JStr "292"); ("drg_description", JStr "Shock");
        ("drg_severity", JStr "9"); ("drg_mortality", JStr "1");
        ("cpt_codes", JInt 99291);
        ("icd9_codes", JArr [JStr "4280"]);
        ("procedure_pairs", JArr []);
        ("lab_events", JArr [])].

(** Vitals of patient 7 measured on 2 March 2025, already recorded. *)
Definition vitals_march_2 : JsValue :=
  JObj [("id", JInt 50); ("patient_id", JInt 7); ("heart_rate", JInt 64);
        ("measured_at", JStr "2025-03-02T08:00:00.000Z")].

Definition store_with_vitals : EntityStore.Store :=
  {| EntityStore.accounts := EntityStore.accounts store0;
     EntityStore.patient_rows := EntityStore.patient_rows store0;
     EntityStore.report_rows := [];
     EntityStore.vitals_rows := [vitals_march_2];
     EntityStore.assessment_rows := [];
     EntityStore.next_id := 100;
     EntityStore.clock := "2025-03-03T09:30:00.000Z";
     EntityStore.prediction := None |}.

(** Vitals measured the day before, entered afterwards. *)
Definition input_march_1 : JsValue :=
  JObj [("heart_rate", JInt 71);
        ("measured_at", JStr "2025-03-01T08:00:00.000Z")].

Definition vitals_march_1 : JsValue :=
  JObj [("heart_rate", JInt 71);
        ("measured_at", JStr "2025-03-01T08:00:00.000Z");
        ("id", JInt 100); ("patient_id", JInt 7)].

(** The page of patient 7 after it has loaded the latest vitals. *)
Definition loaded : UseVitalSigns.State * World EntityStore.Store :=
  UseVitalSigns.fetchLatestVitalSigns EntityStore.serve (Dec 7 0)
    UseVitalSigns.initial (world_of store_with_vitals).

(** ... and after the vitals of 1 March have been entered. *)
Definition entered
  : UseVitalSigns.State * World EntityStore.Store * Completion JsValue :=
  UseVitalSigns.createVitalSigns EntityStore.serve (Dec 7 0) input_march_1
    loaded.1 loaded.2.

(** A report as the report form hands it over: every field is the text the
    user typed. *)
Definition report_typed : list (string * JsValue) :=
  [("drg_code", JStr "291"); ("drg_description", JStr "Heart failure");
   ("drg_severity", JStr "2"); ("drg_mortality", JStr "1");
   ("cpt_codes", JStr "99291, 99233");
   ("icd9_codes", JStr "99749, 0389");
   ("procedure_pairs", JStr "[[1,311],[2,3323]]");
   ("lab_events", JStr "[]")].

(** The same report with truncated procedure pairs. *)
Definition report_truncated : list (string * JsValue) :=
  obj_set "procedure_pairs" (JStr "[[1,") report_typed.

(** The report with lab events typed as the report form suggests them
    ("comma separated format"), and with procedure pairs that are JSON but
    no collection of pairs. *)
Definition report_as_suggested : list (string * JsValue) :=
  obj_set "lab_events"
    (JStr "51279, 4.72, normal, 6.43, 51275, 334, normal, 5.45") report_typed.

Definition report_number_pairs : list (string * JsValue) :=
  obj_set "procedure_pairs" (JStr "5") report_typed.

(** The answer of a backend that has created the patient of the form. *)
Definition patient_nine : JsValue :=
  JObj [("id", JInt 9); ("gender", JStr "male"); ("full_name", JStr "Ben Ode");
        ("date_of_birth", JStr "1990-05-17")].

(** A filled-in new-patient form with [report_truncated] attached. *)
Definition page_with_truncated_report : NewPatientPage.State :=
  NewPatientPage.handleAddReport report_truncated
    (NewPatientPage.handleInputChange "DOB" (JStr "1990-05-17T00:00:00.000Z")
       (NewPatientPage.handleInputChange "full_name" (JStr "Ben Ode")
          NewPatientPage.initial)).

(** A patient as [GET /api/v1/patients/7] returns it, with one report. *)
Definition patient_seven : JsValue :=
  JObj [("id", JInt 7); ("full_name", JStr "Ada Moore");
        ("date_of_birth", JStr "1980-03-01"); ("gender", JStr "female");
        ("reports",
         JArr [JObj [("id", JInt 31); ("drg_code", JStr "291");
                     ("drg_description", JStr "Heart failure");
                     ("drg_severity", JInt 2); ("drg_mortality", JInt 1);
                     ("cpt_codes", JArr [JStr "99291"; JStr "99233"]);
                     ("icd9_codes", JArr [JStr "4280"]);
                     ("procedure_pairs", JArr [JArr [JInt 1; JInt 311]]);
                     ("lab_events", JArr [])]])].

(** 2025-03-03T09:30:00Z, in milliseconds. *)
Definition now_ms : Z := 1740994200000.

(** The three parts of [token_doctor], and the bytes that its payload part
    encodes. *)
Definition header_doctor : string := "eyJhbGciOiJIUzI1NiIsInR5cCI6IkpXVCJ9".

Definition segment_doctor : string :=
  "eyJzdWIiOiI0MiIsImVtYWlsIjoiZG9jQGhlYXJ0Lm9yZyIsInJvbGUiOiJkb2N0b3IiLCJleHAiOjQxMDI0NDQ4MDB9".

Definition bytes_doctor : string :=
  match atob segment_doctor with
  | Normal binary => binary
  | Throw _ => EmptyString
  end.

(** A payload part that encodes [{"sub":"?"}] where [?] is the single byte
    255, which is no UTF-8. *)
Definition segment_bad_utf8 : string := "eyJzdWIiOiL_In0".

Definition bytes_bad_utf8 : string :=
  match atob (replace_all "_" "/" segment_bad_utf8) with
  | Normal binary => binary
  | Throw _ => EmptyString
  end.

Definition token_bad_utf8 : string :=
  header_doctor +:+ "." +:+ segment_bad_utf8 +:+ ".c2ln".

(** Payload [{"sub":42,"email":"doc@heart.org","role":"doctor"}], written
    without padding. *)
Definition segment_numeric : string :=
  "eyJzdWIiOjQyLCJlbWFpbCI6ImRvY0BoZWFydC5vcmciLCJyb2xlIjoiZG9jdG9yIn0".

Definition token_numeric : string :=
  header_doctor +:+ "." +:+ segment_numeric +:+ ".c2ln".

Definition payload_numeric : list (string * JsValue) :=
  [("sub", JInt 42); ("email", JStr "doc@heart.org"); ("role", JStr "doctor")].

Definition req_numeric : Middleware.NextRequest :=
  request_for "/patients" {["access_token" := token_numeric]}.

(** A request of the doctor in which the client itself has put user
    headers. *)
Definition req_spoofed : Middleware.NextRequest :=
  Middleware.with_headers
    {["x-user-id" := "1"; "x-user-role" := "admin"]} req_doctor.

(** A backend that answers from a script: the outcomes are handed out in
    order, whatever is asked, and nothing answers once the script is
    over. *)
Definition scripted (script : list HttpOutcome) (r : HttpRequest)
  : list HttpOutcome * HttpOutcome :=
  match script with
  | out :: rest => (rest, out)
  | [] => ([], NoAnswer)
  end.

Definition world_scripted (b : Browser) (script : list HttpOutcome)
  : World (list HttpOutcome) :=
  {| browser := b; server := script; sent := []; submitted := [] |}.

(** The browser after the doctor has logged in. *)
Definition browser_doctor : Browser :=
  {| cookie_jar := {["access_token" := token_doctor]};
     localStorage := {["access_token" := token_doctor]};
     location := None |}.

Definition login_answer : HttpOutcome :=
  Answer 200 (JObj [("access_token", JStr token_doctor);
                    ("token_type", JStr "bearer")]).

Definition user_doctor : JsValue :=
  JObj [("id", JInt 42); ("email", JStr "doc@heart.org");
        ("full_name", JStr "Dana Cole"); ("role", JStr "doctor");
        ("is_active", JBool true)].

Definition unauthorized : HttpOutcome :=
  Answer 401 (JObj [("detail", JStr "Could not validate credentials")]).

(** The hook [usePatients] with two patients in its list and the first of
    them loaded. *)
Definition patient_eight : JsValue :=
  JObj [("id", JInt 8); ("full_name", JStr "Cy Young");
        ("date_of_birth", JStr "1975-10-09"); ("gender", JStr "male")].

Definition hook_two_patients : UsePatients.State :=
  {| UsePatients.patients := [patient_seven; patient_eight];
     UsePatients.patient := patient_seven;
     UsePatients.loading := false;
     UsePatients.error := None |}.

Definition patient_seven_renamed : JsValue :=
  JObj [("id", JInt 7); ("full_name", JStr "Ada Moore-Lee");
        ("date_of_birth", JStr "1980-03-01"); ("gender", JStr "female")].

(** The new-patient page with two reports attached. *)
Definition page_with_two_reports : NewPatientPage.State :=
  NewPatientPage.handleAddReport report_truncated
    (NewPatientPage.handleAddReport report_typed
       (NewPatientPage.handleInputChange "DOB" (JStr "1990-05-17T00:00:00.000Z")
          (NewPatientPage.handleInputChange "full_name" (JStr "Ben Ode")
             NewPatientPage.initial))).

(** The fields of a report whose four collections are arrays already. *)
Definition structured_fields : list (string * JsValue) :=
  [("drg_code", JStr "291"); ("drg_description", JStr "Heart failure");
   ("cpt_codes", JArr [JStr "99291"; JStr "99233"]);
   ("icd9_codes", JArr [JStr "4280"]);
   ("procedure_pairs", JArr [JArr [JInt 1; JInt 311]]);
   ("lab_events", JArr [])].

(** The filled-in new-patient form without any report, in both versions
    of the page, and with [report_typed] attached. *)
Definition page_without_reports : NewPatientPage.State :=
  NewPatientPage.handleInputChange "DOB" (JStr "1990-05-17T00:00:00.000Z")
    (NewPatientPage.handleInputChange "full_name" (JStr "Ben Ode")
       NewPatientPage.initial).

Definition basic_page : BasicNewPatientPage.State :=
  BasicNewPatientPage.handleInputChange "DOB" (JStr "1990-05-17T00:00:00.000Z")
    (BasicNewPatientPage.handleInputChange "full_name" (JStr "Ben Ode")
       BasicNewPatientPage.initial).

Definition page_with_typed_report : NewPatientPage.State :=
  NewPatientPage.handleAddReport report_typed page_without_reports.

Definition page_with_number_pairs : NewPatientPage.State :=
  NewPatientPage.handleAddReport report_number_pairs page_without_reports.

(** 1990-05-17T00:00:00Z, in milliseconds. *)
Definition may_17_1990 : Z := 642902400000.

End Scenario.

(* ================================================================== *)
(** * Properties *)
(* ================================================================== *)

(** ** Facts about the built-ins *)

Module JsFacts.
Import Js.

Lemma own_obj_set_eq (k : string) (v : JsValue) (p : list (string * JsValue)) :
  own k (obj_set k v p) = Some v.
Proof.
  induction p as [|[k' v'] r IH]; cbn.
  - rewrite String.eqb_refl. reflexivity.
  - destruct (String.eqb k' k) eqn:E; cbn.
    + rewrite String.eqb_refl. reflexivity.
    + rewrite E. exact IH.
Qed.

Lemma own_obj_set_ne (k k' : string) (v : JsValue) (p : list (string * JsValue)) :
  k <> k' -> own k' (obj_set k v p) = own k' p.
Proof.
  intros Hne. induction p as [|[k0 v0] r IH]; cbn.
  - destruct (String.eqb_spec k k'); [contradiction|reflexivity].
  - destruct (String.eqb_spec k0 k) as [->|]; cbn.
    + destruct (String.eqb_spec k k'); [contradiction|reflexivity].
    + destruct (String.eqb k0 k'); [reflexivity|exact IH].
Qed.

Lemma obj_set_obj_set (k : string) (v v' : JsValue) (p : list (string * JsValue)) :
  obj_set k v' (obj_set k v p) = obj_set k v' p.
Proof.
  induction p as [|[k0 v0] r IH]; cbn.
  - rewrite String.eqb_refl. reflexivity.
  - destruct (String.eqb k0 k) eqn:E; cbn.
    + rewrite String.eqb_refl. reflexivity.
    + rewrite E, IH. reflexivity.
Qed.

Lemma append_cons (c : ascii) (s r : string) :
  String c s +:+ r = String c (s +:+ r).
Proof. reflexivity. Qed.

Lemma split_cons_ne (sep c : ascii) (s : string) :
  Ascii.eqb c sep = false ->
  split sep (String c s)
  = match split sep s with
    | h :: t => String c h :: t
    | [] => [String c EmptyString]
    end.
Proof. intros E. cbn [split]. rewrite E. reflexivity. Qed.


Lemma digits_of_nonempty (z : Z) : is_empty (digits_of z) = false.
Proof.
  unfold digits_of. generalize (Z.to_N (Z.abs z)). intros n.
  destruct (N.to_uint n) eqn:E; try reflexivity.
  pose proof (f_equal N.of_uint E) as E'.
  rewrite DecimalN.Unsigned.of_to in E'. subst n.
  vm_compute in E. discriminate.
Qed.

(** An integer below [10^21] is written with its decimal digits. *)
Lemma Number_toString_id (n : Z) :
  (0 <= n < 10 ^ 21)%Z -> Number_toString (Dec n 0) = digits_of n.
Proof.
  intros Hn. unfold Number_toString.
  replace (n <? 0)%Z with false by (symmetry; apply Z.ltb_ge; lia).
  change (10 ^ 0)%Z with 1%Z. rewrite !Z.mul_1_r.
  replace (Z.abs n <? 10 ^ 21)%Z with true by (symmetry; apply Z.ltb_lt; lia).
  reflexivity.
Qed.

Lemma all_chars_impl (f g : ascii -> bool) (s : string) :
  (forall c, f c = true -> g c = true) ->
  all_chars f s = true -> all_chars g s = true.
Proof.
  intros Hfg. induction s as [|c r IH]; cbn; [reflexivity|].
  intros Hs. apply andb_prop in Hs as [Hc Hr].
  rewrite (Hfg c Hc), (IH Hr). reflexivity.
Qed.

(** Stripping changes nothing in a text without the characters to strip. *)
Lemma strip_id (ws f : ascii -> bool) (s : string) :
  (forall c, f c = true -> ws c = false) ->
  all_chars f s = true -> strip ws s = s.
Proof.
  intros Hws Hs. unfold strip.
  assert (Hl : strip_left ws s = s).
  { destruct s as [|c r]; cbn in *; [reflexivity|].
    apply andb_prop in Hs as [Hc _]. rewrite (Hws c Hc). reflexivity. }
  rewrite Hl. induction s as [|c r IH]; cbn in *; [reflexivity|].
  apply andb_prop in Hs as [Hc Hr].
  rewrite IH, (Hws c Hc); [reflexivity|exact Hr|].
  destruct r as [|c' r']; cbn in *; [reflexivity|].
  apply andb_prop in Hr as [Hc' _]. rewrite (Hws c' Hc'). reflexivity.
Qed.

(** A character outside a finite set of codes: decided by running through
    the 256 characters. *)
Lemma for_all_ascii (P : ascii -> bool) :
  forallb P (ascii_of_nat <$> seq 0 256) = true -> forall c, P c = true.
Proof.
  intros Hall c. rewrite forallb_forall in Hall. apply Hall.
  rewrite <- (ascii_nat_embedding c). apply in_map, in_seq.
  pose proof (nat_ascii_bounded c). lia.
Qed.

Lemma ascii_implies (f g : ascii -> bool) :
  forallb (fun c => implb (f c) (g c)) (ascii_of_nat <$> seq 0 256) = true ->
  forall c, f c = true -> g c = true.
Proof.
  intros Hall c Hf. pose proof (for_all_ascii _ Hall c) as Hc. cbn in Hc.
  rewrite Hf in Hc. exact Hc.
Qed.

Lemma ascii_excludes (f g : ascii -> bool) :
  forallb (fun c => implb (f c) (negb (g c))) (ascii_of_nat <$> seq 0 256) = true ->
  forall c, f c = true -> g c = false.
Proof.
  intros Hall c Hf. apply negb_true_iff.
  exact (ascii_implies f (fun c => negb (g c)) Hall c Hf).
Qed.

End JsFacts.

(** ** The auth gate *)

Module AuthGate.
Import Js Middleware JsFacts.

Lemma visible_not_http_ws (c : ascii) : visible c = true -> is_http_ws c = false.
Proof. apply ascii_excludes. vm_compute. reflexivity. Qed.

Lemma visible_header_char (c : ascii) : visible c = true -> header_char c = true.
Proof. apply ascii_implies. vm_compute. reflexivity. Qed.

(** A value of visible characters is set as it is. *)
Lemma Headers_set_visible (name value : string) (h : gmap string string) :
  all_chars visible value = true ->
  Headers_set name value h = Normal (<[name := value]> h).
Proof.
  intros Hv. unfold Headers_set.
  rewrite (strip_id is_http_ws visible value visible_not_http_ws Hv).
  rewrite (all_chars_impl visible header_char value visible_header_char Hv).
  reflexivity.
Qed.

Section Gate.

Context `{Host}.

Lemma claim_text_typed (p : list (string * JsValue)) (k : string) :
  inherited (JObj p) k = JUndefined ->
  claim_typed p k = true ->
  claim_text (JObj p) k = Normal (claim_value p k)
  /\ all_chars visible (claim_value p k) = true.
Proof.
  unfold claim_typed, claim_text, claim_value, Get. intros ->.
  destruct (own k p) as [[]|]; cbn; try discriminate; intros Hv.
  - split; [destruct s; reflexivity|exact Hv].
  - split; reflexivity.
Qed.

(** The text of a claim is a function of that own property alone. *)
Lemma claim_text_own (p p' : list (string * JsValue)) (k : string) :
  own k p' = own k p ->
  claim_text (JObj p') k = claim_text (JObj p) k.
Proof. unfold claim_text, Get. intros ->. reflexivity. Qed.

Lemma forward_typed (request : NextRequest) (token : string)
    (p : list (string * JsValue)) :
  decodeJwt token = Normal (JObj p) ->
  payload_typed p = true ->
  forward request token = Normal (Next (Some (user_headers p (headers request)))).
Proof.
  intros Hd Ht. unfold payload_typed in Ht.
  apply andb_prop in Ht as [Ht Hrole]. apply andb_prop in Ht as [Hsub Hemail].
  destruct (claim_text_typed p "sub" eq_refl Hsub) as [Esub Vsub].
  destruct (claim_text_typed p "email" eq_refl Hemail) as [Eemail Vemail].
  destruct (claim_text_typed p "role" eq_refl Hrole) as [Erole Vrole].
  unfold forward. rewrite Hd. cbn [mbind Completion_bind].
  rewrite Esub. cbn [mbind Completion_bind].
  rewrite (Headers_set_visible _ _ _ Vsub). cbn [mbind Completion_bind].
  rewrite Eemail. cbn [mbind Completion_bind].
  rewrite (Headers_set_visible _ _ _ Vemail). cbn [mbind Completion_bind].
  rewrite Erole. cbn [mbind Completion_bind].
  rewrite (Headers_set_visible _ _ _ Vrole). reflexivity.
Qed.

(** Reading a property of a value that is neither [undefined] nor
    [null] does not throw. *)
Lemma Get_opt_Get (v : JsValue) (k : string) :
  v <> JNull -> v <> JUndefined -> Get v k = Normal (opt_Get v k).
Proof. destruct v; intros Hn Hu; try reflexivity; contradiction. Qed.

(** One [requestHeaders.set] of the gate. *)
Lemma set_claim (payload : JsValue) (k name : string) (h : gmap string string) :
  payload <> JNull -> payload <> JUndefined ->
  match header_text (opt_Get payload k) with
  | Some text =>
      (text ← claim_text payload k; Headers_set name text h)
      = Normal (<[name := text]> h)
  | None => threw (text ← claim_text payload k; Headers_set name text h) = true
  end.
Proof.
  intros Hn Hu. unfold claim_text, header_text.
  rewrite (Get_opt_Get _ _ Hn Hu). cbn [mbind Completion_bind].
  destruct (opt_toString (opt_Get payload k)) as [s|e];
    cbn [mbind Completion_bind]; [|reflexivity].
  unfold Headers_set. cbv zeta.
  destruct (all_chars header_char (strip is_http_ws (or_else s "")));
    reflexivity.
Qed.

(** The decision of the gate on a token whose payload decodes to a value
    other than [null]. *)
Lemma middleware_decoded (request : NextRequest) (token : string)
    (payload : JsValue) :
  is_public (pathname (nextUrl request)) = false ->
  cookies request !! "access_token" = Some token ->
  decodeJwt token = Normal payload ->
  payload <> JNull -> payload <> JUndefined ->
  middleware request
  = match header_text (opt_Get payload "sub"),
          header_text (opt_Get payload "email"),
          header_text (opt_Get payload "role") with
    | Some id, Some email, Some role =>
        Next (Some (<["x-user-role" := role]>
                      (<["x-user-email" := email]>
                         (<["x-user-id" := id]> (headers request)))))
    | _, _, _ => Redirect (new_URL "/login" (url request))
    end.
Proof.
  intros Hpub Hc Hd Hn Hu. unfold middleware. rewrite Hpub, Hc.
  unfold forward. rewrite Hd. cbn [mbind Completion_bind].
  pose proof (set_claim payload "sub" "x-user-id" (headers request) Hn Hu)
    as Hsub.
  destruct (header_text (opt_Get payload "sub")) as [id|].
  2: { destruct (claim_text payload "sub") as [text|];
         cbn [mbind Completion_bind] in *; [|reflexivity].
       destruct (Headers_set "x-user-id" text (headers request));
         [discriminate Hsub|reflexivity]. }
  destruct (claim_text payload "sub") as [text|];
    cbn [mbind Completion_bind] in *; [|discriminate Hsub].
  rewrite Hsub. cbn [mbind Completion_bind]. clear Hsub text.
  pose proof (set_claim payload "email" "x-user-email"
                (<["x-user-id" := id]> (headers request)) Hn Hu) as Hemail.
  destruct (header_text (opt_Get payload "email")) as [email|].
  2: { destruct (claim_text payload "email") as [text|];
         cbn [mbind Completion_bind] in *; [|reflexivity].
       destruct (Headers_set "x-user-email" text _);
         [discriminate Hemail|reflexivity]. }
  destruct (claim_text payload "email") as [text|];
    cbn [mbind Completion_bind] in *; [|discriminate Hemail].
  rewrite Hemail. cbn [mbind Completion_bind]. clear Hemail text.
  pose proof (set_claim payload "role" "x-user-role"
                (<["x-user-email" := email]>
                   (<["x-user-id" := id]> (headers request))) Hn Hu) as Hrole.
  destruct (header_text (opt_Get payload "role")) as [role|].
  2: { destruct (claim_text payload "role") as [text|];
         cbn [mbind Completion_bind] in *; [|reflexivity].
       destruct (Headers_set "x-user-role" text _);
         [discriminate Hrole|reflexivity]. }
  destruct (claim_text payload "role") as [text|];
    cbn [mbind Completion_bind] in *; [|discriminate Hrole].
  rewrite Hrole. reflexivity.
Qed.

(** C1 (amended).  On a path that is not public the gate redirects to
    [/login] when the [access_token] cookie is missing, when the token's
    payload cannot be decoded, when it decodes to [null], and when one of
    the claims [sub], [email], [role] of the decoded payload has no text
    that a header can carry; for a decoded payload other than [null] these
    are the only cases in which it redirects.  In every other case it lets
    the request through with [x-user-id], [x-user-email] and [x-user-role]
    set to the texts of the three claims (numbers among them being integers
    of magnitude up to 2^53); for a payload of the type [TokenPayload] these
    are the claims themselves. *)
Theorem gate_decision (request : NextRequest) :
  is_public (pathname (nextUrl request)) = false ->
  (cookies request !! "access_token" = None ->
   middleware request = Redirect (new_URL "/login" (url request)))
  /\ (forall token e,
        cookies request !! "access_token" = Some token ->
        decodeJwt token = Throw e ->
        middleware request = Redirect (new_URL "/login" (url request)))
  /\ (forall token,
        cookies request !! "access_token" = Some token ->
        decodeJwt token = Normal JNull ->
        middleware request = Redirect (new_URL "/login" (url request)))
  /\ (forall token payload,
        cookies request !! "access_token" = Some token ->
        decodeJwt token = Normal payload ->
        payload <> JNull -> payload <> JUndefined ->
        (middleware request = Redirect (new_URL "/login" (url request))
         <-> header_text (opt_Get payload "sub") = None
             \/ header_text (opt_Get payload "email") = None
             \/ header_text (opt_Get payload "role") = None))
  /\ (forall token payload id email role,
        cookies request !! "access_token" = Some token ->
        decodeJwt token = Normal payload ->
        payload <> JNull -> payload <> JUndefined ->
        exact_numbers (opt_Get payload "sub") = true ->
        exact_numbers (opt_Get payload "email") = true ->
        exact_numbers (opt_Get payload "role") = true ->
        header_text (opt_Get payload "sub") = Some id ->
        header_text (opt_Get payload "email") = Some email ->
        header_text (opt_Get payload "role") = Some role ->
        middleware request
        = Next (Some (<["x-user-role" := role]>
                        (<["x-user-email" := email]>
                           (<["x-user-id" := id]> (headers request))))))
  /\ (forall token p,
        cookies request !! "access_token" = Some token ->
        decodeJwt token = Normal (JObj p) ->
        payload_typed p = true ->
        middleware request
        = Next (Some (<["x-user-role" := claim_value p "role"]>
                        (<["x-user-email" := claim_value p "email"]>
                           (<["x-user-id" := claim_value p "sub"]>
                              (headers request)))))).
Proof.
  intros Hpub. split; [|split; [|split; [|split; [|split]]]].
  - unfold middleware. rewrite Hpub. intros ->. reflexivity.
  - unfold middleware. rewrite Hpub. intros token e -> Hd.
    unfold forward. rewrite Hd. reflexivity.
  - unfold middleware. rewrite Hpub. intros token -> Hd.
    unfold forward. rewrite Hd. reflexivity.
  - intros token payload Hc Hd Hn Hu.
    rewrite (middleware_decoded _ _ _ Hpub Hc Hd Hn Hu).
    destruct (header_text (opt_Get payload "sub")) as [id|];
      [|split; [left|]; reflexivity].
    destruct (header_text (opt_Get payload "email")) as [email|];
      [|split; [right; left|]; reflexivity].
    destruct (header_text (opt_Get payload "role")) as [role|];
      [|split; [right; right|]; reflexivity].
    split; [discriminate|]. intros [Hx|[Hx|Hx]]; discriminate Hx.
  - intros token payload id email role Hc Hd Hn Hu _ _ _ Hsub Hemail Hrole.
    rewrite (middleware_decoded _ _ _ Hpub Hc Hd Hn Hu), Hsub, Hemail, Hrole.
    reflexivity.
  - unfold middleware. rewrite Hpub. intros token p -> Hd Ht.
    rewrite (forward_typed _ _ _ Hd Ht). reflexivity.
Qed.

(** C2 (amended).  The gate reads the claims [sub], [email] and [role]
    only: two tokens whose payloads carry the same three claims get the same
    decision, whatever their [exp] claims are.  A token whose [exp] lies in
    the past is therefore treated like the same token with a later [exp]. *)
Theorem decision_ignores_exp (request : NextRequest) (token token' : string)
    (p p' : list (string * JsValue)) :
  is_public (pathname (nextUrl request)) = false ->
  cookies request !! "access_token" = Some token ->
  decodeJwt token = Normal (JObj p) ->
  decodeJwt token' = Normal (JObj p') ->
  own "sub" p' = own "sub" p ->
  own "email" p' = own "email" p ->
  own "role" p' = own "role" p ->
  middleware (with_token token' request) = middleware request.
Proof.
  intros Hpub Hc Hd Hd' Hs He Hr.
  unfold middleware, with_token. cbn [nextUrl cookies headers].
  rewrite Hpub, Hc, lookup_insert_eq.
  unfold forward. rewrite Hd, Hd'. cbn [mbind Completion_bind].
  rewrite (claim_text_own _ _ _ Hs), (claim_text_own _ _ _ He),
    (claim_text_own _ _ _ Hr).
  reflexivity.
Qed.

End Gate.

Import Scenario.

Lemma gate_decision_witness :
  middleware (H := UtcHost.host) req_anonymous
  = Redirect (new_URL "/login" (url req_anonymous))
  /\ middleware (H := UtcHost.host) req_garbled
     = Redirect (new_URL "/login" (url req_garbled))
  /\ middleware (H := UtcHost.host) req_null
     = Redirect (new_URL "/login" (url req_null))
  /\ middleware (H := UtcHost.host) req_line_break
     = Redirect (new_URL "/login" (url req_line_break))
  /\ middleware (H := UtcHost.host) req_numeric
     = Next (Some (<["x-user-role" := "doctor"]>
                     (<["x-user-email" := "doc@heart.org"]>
                        (<["x-user-id" := "42"]> (headers req_numeric)))))
  /\ middleware (H := UtcHost.host) req_spaced
     = Next (Some (<["x-user-role" := "doctor"]>
                     (<["x-user-email" := "doc@heart.org"]>
                        (<["x-user-id" := "Dr Who"]> (headers req_spaced)))))
  /\ middleware (H := UtcHost.host) req_doctor
     = Next (Some (<["x-user-role" := "doctor"]>
                     (<["x-user-email" := "doc@heart.org"]>
                        (<["x-user-id" := "42"]> (headers req_doctor))))).
Proof.
  destruct (gate_decision (H := UtcHost.host) req_anonymous
              ltac:(vm_compute; reflexivity)) as (Hnone & _).
  destruct (gate_decision (H := UtcHost.host) req_garbled
              ltac:(vm_compute; reflexivity)) as (_ & Hthrow & _).
  destruct (gate_decision (H := UtcHost.host) req_null
              ltac:(vm_compute; reflexivity)) as (_ & _ & Hnull & _).
  destruct (gate_decision (H := UtcHost.host) req_line_break
              ltac:(vm_compute; reflexivity)) as (_ & _ & _ & Hbreak & _).
  destruct (gate_decision (H := UtcHost.host) req_numeric
              ltac:(vm_compute; reflexivity)) as (_ & _ & _ & _ & Hnum & _).
  destruct (gate_decision (H := UtcHost.host) req_spaced
              ltac:(vm_compute; reflexivity)) as (_ & _ & _ & _ & Hsp & _).
  destruct (gate_decision (H := UtcHost.host) req_doctor
              ltac:(vm_compute; reflexivity)) as (_ & _ & _ & _ & _ & Htyped).
  split; [|split; [|split; [|split; [|split; [|split]]]]].
  - apply Hnone. vm_compute. reflexivity.
  - apply (Hthrow token_garbled SyntaxError); vm_compute; reflexivity.
  - apply (Hnull token_null); vm_compute; reflexivity.
  - apply (Hbreak token_line_break (JObj payload_line_break)
             ltac:(vm_compute; reflexivity) ltac:(vm_compute; reflexivity)
             ltac:(discriminate) ltac:(discriminate)).
    left. vm_compute. reflexivity.
  - apply (Hnum token_numeric (JObj payload_numeric));
      try discriminate; vm_compute; reflexivity.
  - apply (Hsp token_spaced (JObj payload_spaced));
      try discriminate; vm_compute; reflexivity.
  - apply (Htyped token_doctor payload_doctor); vm_compute; reflexivity.
Defined.

(** C1, as stated, fails: a payload that decodes is not always forwarded
    with the claims.  The payload of [token_null] decodes to [null] and
    that of [token_line_break] to an object whose [sub] holds a line break;
    both requests are redirected to [/login].  The payload of
    [token_string] decodes to the string ["abc"], which has no claims; the
    request is forwarded, and its [x-user-id] is the text of the method
    [sub] of strings. *)
Lemma decoded_payload_is_redirected :
  is_public (pathname (nextUrl req_null)) = false
  /\ cookies req_null !! "access_token" = Some token_null
  /\ decodeJwt token_null = Normal JNull
  /\ middleware (H := UtcHost.host) req_null
     = Redirect (new_URL "/login" (url req_null))
  /\ cookies req_line_break !! "access_token" = Some token_line_break
  /\ decodeJwt token_line_break = Normal (JObj payload_line_break)
  /\ middleware (H := UtcHost.host) req_line_break
     = Redirect (new_URL "/login" (url req_line_break))
  /\ cookies req_string !! "access_token" = Some token_string
  /\ decodeJwt token_string = Normal (JStr "abc")
  /\ middleware (H := UtcHost.host) req_string
     = Next (Some (<["x-user-role" := ""]>
                     (<["x-user-email" := ""]>
                        (<["x-user-id" := "function sub() { [native code] }"]>
                           (headers req_string))))).
Proof. repeat split; vm_compute; reflexivity. Qed.

(** C2, as stated, fails: the token [token_expired] decodes, its [exp] is
    1970-01-01T00:00:01Z, far before [now_seconds], and the gate forwards
    the request with the user headers instead of redirecting. *)
Lemma expired_token_is_forwarded :
  is_public (pathname (nextUrl req_expired)) = false
  /\ cookies req_expired !! "access_token" = Some token_expired
  /\ decodeJwt token_expired = Normal (JObj payload_expired)
  /\ expired now_seconds (JObj payload_expired) = true
  /\ middleware (H := UtcHost.host) req_expired
     = Next (Some (user_headers payload_expired (headers req_expired)))
  /\ middleware (H := UtcHost.host) req_expired
     <> Redirect (new_URL "/login" (url req_expired)).
Proof.
  repeat split; try (vm_compute; reflexivity).
  vm_compute. discriminate.
Qed.

Lemma decision_ignores_exp_witness :
  expired now_seconds (JObj payload_expired) = true
  /\ expired now_seconds (JObj payload_doctor) = false
  /\ middleware (H := UtcHost.host) (with_token token_expired req_doctor)
     = middleware (H := UtcHost.host) req_doctor.
Proof.
  split; [vm_compute; reflexivity|]. split; [vm_compute; reflexivity|].
  apply (decision_ignores_exp (H := UtcHost.host) req_doctor token_doctor
           token_expired payload_doctor payload_expired);
    vm_compute; reflexivity.
Defined.

End AuthGate.

(** ** Where the bearer token is kept *)

Module TokenStorage.
Import Js Api JsFacts.

Lemma cut_absent (sep : ascii) (f : ascii -> bool) (s : string) :
  (forall c, f c = true -> Ascii.eqb c sep = false) ->
  all_chars f s = true ->
  cut sep s = (s, None).
Proof.
  intros Hsep. induction s as [|c r IH]; cbn; [reflexivity|].
  intros Hs. apply andb_prop in Hs as [Hc Hr].
  rewrite (Hsep c Hc), (IH Hr). reflexivity.
Qed.

Lemma cut_cons_ne (sep c : ascii) (s : string) :
  Ascii.eqb c sep = false ->
  cut sep (String c s) = (String c (cut sep s).1, (cut sep s).2).
Proof. intros E. cbn [cut]. rewrite E. destruct (cut sep s). reflexivity. Qed.

Lemma token_char_not_semicolon (c : ascii) :
  token_char c = true -> Ascii.eqb c ";" = false.
Proof.
  apply (ascii_excludes token_char (fun c => Ascii.eqb c ";")).
  vm_compute. reflexivity.
Qed.

Lemma token_char_not_wsp (c : ascii) : token_char c = true -> is_wsp c = false.
Proof. apply ascii_excludes. vm_compute. reflexivity. Qed.

Lemma trim_token (s : string) : token_text s = true -> trim s = s.
Proof. apply strip_id, token_char_not_wsp. Qed.

(** Assigning [access_token=<token>] to [document.cookie] stores the
    token unchanged when it consists of token characters. *)
Lemma set_access_token_cookie (token : string) (b : Browser) :
  token_text token = true ->
  cookie_jar (set_document_cookie ("access_token=" +:+ token) b)
  = <["access_token" := token]> (cookie_jar b).
Proof.
  intros Hs. unfold set_document_cookie.
  assert (Hcut : cut ";" ("access_token=" +:+ token) = ("access_token=" +:+ token, None)).
  { change ("access_token=" +:+ token)
      with (String "a" (String "c" (String "c" (String "e" (String "s"
             (String "s" (String "_" (String "t" (String "o" (String "k"
             (String "e" (String "n" (String "=" token))))))))))))).
    rewrite !cut_cons_ne by reflexivity.
    rewrite (cut_absent ";" token_char token token_char_not_semicolon Hs).
    reflexivity. }
  rewrite Hcut. cbn [fst].
  change (cut "=" ("access_token=" +:+ token)) with ("access_token", Some token).
  cbv iota beta. rewrite (trim_token token Hs). reflexivity.
Qed.

Section Storage.

Context `{Host} {Server : Type}.
Variable serve : Server -> HttpRequest -> Server * HttpOutcome.

(** C9.  After a successful login whose answer carries the bearer token
    [token], the browser holds the token both in the cookie [access_token]
    and in local storage under [access_token]; and for a request to a
    non-public page the gate's decision is made from the token of the
    cookie jar, whatever local storage contains. *)
Theorem login_stores_token (email password token : string)
    (w w' : World Server) (answer : JsValue) :
  apiClient.login serve email password w = (w', Normal answer) ->
  Get answer "access_token" = Normal (JStr token) ->
  token_text token = true ->
  cookie_jar (browser w') !! "access_token" = Some token
  /\ localStorage (browser w') !! "access_token" = Some token
  /\ (forall (b : Browser) (u : Middleware.URL),
        cookie_jar b = cookie_jar (browser w') ->
        Middleware.is_public (Middleware.pathname u) = false ->
        Middleware.middleware (page_request b u)
        = match Middleware.forward (page_request b u) token with
          | Normal response => response
          | Throw _ => Middleware.login_redirect (page_request b u)
          end).
Proof.
  intros Hlogin Hget Hsafe. unfold apiClient.login in Hlogin.
  destruct (apiClient.request serve _ _ _ _ w) as [w1 [response|e]]; [|discriminate].
  destruct (Get (data response) "access_token") as [t|e] eqn:Ht; [|discriminate].
  destruct (ToString t) as [text|e] eqn:Htext; [|discriminate].
  injection Hlogin as <- <-.
  rewrite Ht in Hget. injection Hget as ->. cbn in Htext.
  injection Htext as <-.
  assert (Hjar : cookie_jar (browser (with_browser
            (localStorage_setItem "access_token" token
               (set_document_cookie ("access_token=" +:+ token) (browser w1))) w1))
          !! "access_token" = Some token).
  { cbn. rewrite (set_access_token_cookie token _ Hsafe). apply lookup_insert_eq. }
  split; [exact Hjar|]. split.
  - cbn. apply lookup_insert_eq.
  - intros b u Hb Hpub. unfold Middleware.middleware.
    cbn [page_request Middleware.nextUrl Middleware.cookies].
    rewrite Hpub, Hb, Hjar. reflexivity.
Qed.

End Storage.

Import Scenario.

Lemma login_stores_token_witness :
  let w' := (apiClient.login (H := UtcHost.host) EntityStore.serve
               "doc@heart.org" "s3cret" world0).1 in
  cookie_jar (browser w') !! "access_token" = Some token_doctor
  /\ localStorage (browser w') !! "access_token" = Some token_doctor
  /\ Middleware.middleware (H := UtcHost.host)
       (page_request (localStorage_removeItem "access_token" (browser w'))
          (site "/patients"))
     = Middleware.Next
         (Some (<["x-user-role" := "doctor"]>
                  (<["x-user-email" := "doc@heart.org"]>
                     (<["x-user-id" := "42"]> ∅)))).
Proof.
  pose proof (login_stores_token (H := UtcHost.host) EntityStore.serve
                "doc@heart.org" "s3cret" token_doctor world0
                (apiClient.login (H := UtcHost.host) EntityStore.serve
                   "doc@heart.org" "s3cret" world0).1
                (JObj [("access_token", JStr token_doctor);
                       ("token_type", JStr "bearer")])
                ltac:(vm_compute; reflexivity)
                ltac:(vm_compute; reflexivity)
                ltac:(vm_compute; reflexivity)) as (Hc & Hl & Hg).
  cbv zeta. split; [exact Hc|]. split; [exact Hl|].
  rewrite (Hg (localStorage_removeItem "access_token"
                 (browser (apiClient.login (H := UtcHost.host) EntityStore.serve
                             "doc@heart.org" "s3cret" world0).1))
              (site "/patients") ltac:(reflexivity) ltac:(vm_compute; reflexivity)).
  vm_compute. reflexivity.
Defined.

End TokenStorage.

(** ** [usePatients]: creating a patient and its reports *)

Module PatientHook.
Import Js Api UsePatients JsFacts.

Section WithBackend.

Context `{Host} {Server : Type}.
Variable serve : Server -> HttpRequest -> Server * HttpOutcome.

(** What [request] does to the world, whatever the backend answers. *)
Lemma request_sent (m u : string) (extra : gmap string string) (payload : JsValue)
    (w : World Server) :
  exists req,
    sent (apiClient.request serve m u extra payload w).1 = sent w ++ [req]
    /\ method req = m /\ url req = u /\ body req = payload.
Proof.
  unfold apiClient.request.
  destruct (serve _ _) as [srv out].
  eexists. destruct out as [st d|].
  - destruct ((200 <=? st) && (st <? 300))%Z; [|destruct (st =? 401)%Z];
      cbn; repeat split; reflexivity.
  - cbn. repeat split; reflexivity.
Qed.

(** An error thrown by [request] is an [AxiosError]. *)
Lemma request_throws (m u : string) (extra : gmap string string)
    (payload : JsValue) (w w1 : World Server) (e : JsError) :
  apiClient.request serve m u extra payload w = (w1, Throw e) ->
  exists response, e = AxiosError response.
Proof.
  unfold apiClient.request. destruct (serve _ _) as [srv [st d|]].
  - destruct ((200 <=? st) && (st <? 300))%Z; [discriminate|].
    intros [= _ <-]. eauto.
  - intros [= _ <-]. eauto.
Qed.


(** C10.  [createPatient] always replaces [date_of_birth] by
    [new Date(data.DOB)] in the object it posts to [/api/v1/patients]: the
    outcome does not depend on a [date_of_birth] supplied by the caller;
    when [DOB] is missing or is a string that is no date, the date is an
    Invalid Date and is posted as such; and the hook then raises no error of
    its own: whatever it throws is the rejection of the HTTP request. *)
Theorem createPatient_date_of_birth (data : list (string * JsValue))
    (st : State) (w : World Server) :
  (forall date,
     new_Date (default JUndefined (own "DOB" data)) = Normal date ->
     (exists req,
        sent (createPatient serve data st w).1.2 = sent w ++ [req]
        /\ method req = "POST" /\ url req = "/api/v1/patients"
        /\ body req = JObj (obj_set "date_of_birth" date data))
     /\ own "date_of_birth" (obj_set "date_of_birth" date data) = Some date
     /\ (forall e, (createPatient serve data st w).2 = Throw e ->
           exists response, e = AxiosError response))
  /\ (forall v,
        createPatient serve (obj_set "date_of_birth" v data) st w
        = createPatient serve data st w)
  /\ (own "DOB" data = None ->
      new_Date (default JUndefined (own "DOB" data)) = Normal (JDate None))
  /\ (forall text,
        own "DOB" data = Some (JStr text) -> Date_parse text = None ->
        new_Date (default JUndefined (own "DOB" data)) = Normal (JDate None)).
Proof.
  split; [|split; [|split]].
  - intros date Hdate. split; [|split].
    + destruct (request_sent "POST" "/api/v1/patients" ∅
                  (JObj (obj_set "date_of_birth" date data)) w)
        as (req & Hs & Hm & Hu & Hb).
      exists req. unfold createPatient, apiClient.post. rewrite Hdate.
      destruct (apiClient.request serve _ _ _ _ w) as [w1 [response|e]];
        cbn in *; repeat split; assumption.
    + apply own_obj_set_eq.
    + intros e. unfold createPatient, apiClient.post. rewrite Hdate.
      destruct (apiClient.request serve _ _ _ _ w) as [w1 [response|e']] eqn:E; cbn.
      * discriminate.
      * intros [= <-]. eapply request_throws, E.
  - intros v. unfold createPatient.
    rewrite own_obj_set_ne by discriminate.
    destruct (new_Date _); [|reflexivity].
    rewrite obj_set_obj_set. reflexivity.
  - intros ->. reflexivity.
  - intros text -> Hp. cbn. rewrite Hp. reflexivity.
Qed.

Lemma post_reports_app (patientId : JsValue) (pre rest : list JsValue)
    (w : World Server) :
  post_reports serve patientId (pre ++ rest) w
  = match post_reports serve patientId pre w with
    | (w1, Normal _) => post_reports serve patientId rest w1
    | (w1, Throw e) => (w1, Throw e)
    end.
Proof.
  revert w. induction pre as [|r pre IH]; intros w; cbn; [reflexivity|].
  destruct (ToString patientId); [|reflexivity].
  destruct (apiClient.post serve _ r w) as [w1 [?|?]]; [apply IH|reflexivity].
Qed.

(** C3 (amended).  [createReports] posts the reports one by one.  When
    the reports [pre] are inserted and the insert of the next report [bad]
    is rejected with [e], the hook stops there: it rejects with [e], which
    it also records as its error state; the world is the one right after
    the failed POST, with the inserts of [pre] done and the reports
    [later] never sent.  Nothing in the result tells the reports that
    succeeded from those that did not.  When every insert succeeds the hook
    returns its own argument. *)
Theorem createReports_stops_at_first_failure (patientId : JsValue) (id : string)
    (pre later : list JsValue) (bad : JsValue) (e : JsError)
    (st : State) (w w1 w2 : World Server) :
  ToString patientId = Normal id ->
  post_reports serve patientId pre w = (w1, Normal tt) ->
  apiClient.post serve ("/api/v1/patients/" +:+ id +:+ "/reports") bad w1 = (w2, Throw e) ->
  createReports serve patientId (pre ++ bad :: later) st w
  = (setLoading false (setError (Some e) (setError None (setLoading true st))),
     w2, Throw e)
  /\ createReports serve patientId pre st w
     = (setLoading false (setError None (setLoading true st)), w1, Normal pre).
Proof.
  intros Hid Hpre Hbad. unfold createReports. split.
  - rewrite post_reports_app, Hpre. cbn. rewrite Hid, Hbad. reflexivity.
  - rewrite Hpre. reflexivity.
Qed.

End WithBackend.

Import Scenario.

Lemma createPatient_date_of_birth_witness :
  (createPatient (H := UtcHost.host) EntityStore.serve
     (obj_set "date_of_birth" (JStr "1990-05-17") form_bad_DOB) initial world0).2
  = Throw (AxiosError
             (Some (422%Z, JObj [("kind", JStr "ValidationError");
                               ("fields", JArr [JStr "date_of_birth"])])))
  /\ new_Date (H := UtcHost.host) (default JUndefined (own "DOB" form_without_DOB))
     = Normal (JDate None)
  /\ (exists req,
        sent (createPatient (H := UtcHost.host) EntityStore.serve
                form_bad_DOB initial world0).1.2 = [req]
        /\ body req = JObj (obj_set "date_of_birth" (JDate None) form_bad_DOB)).
Proof.
  pose proof (createPatient_date_of_birth (H := UtcHost.host) EntityStore.serve
                form_bad_DOB initial world0) as (Hpost & Hsame & _ & Hbad).
  pose proof (createPatient_date_of_birth (H := UtcHost.host) EntityStore.serve
                form_without_DOB initial world0) as (_ & _ & Hmissing & _).
  specialize (Hbad "next tuesday" ltac:(vm_compute; reflexivity)
                ltac:(vm_compute; reflexivity)).
  split; [|split].
  - rewrite Hsame. vm_compute. reflexivity.
  - apply Hmissing. vm_compute. reflexivity.
  - destruct (Hpost (JDate None) Hbad) as [(req & Hs & _ & _ & Hb) _].
    exists req. split; [exact Hs|exact Hb].
Defined.

(** C3, as stated, fails.  With patient 7 in the store, posting the
    reports [report_structured; report_unstructured] stores the first and
    is refused for the second; the caller gets the second insert's error and
    nothing else, exactly what it gets when [report_unstructured] is posted
    alone and nothing is stored. *)
Lemma partial_failure_is_not_reported :
  let partial := createReports (H := UtcHost.host) EntityStore.serve (JInt 7)
                   [report_structured; report_unstructured] initial world0 in
  let total := createReports (H := UtcHost.host) EntityStore.serve (JInt 7)
                 [report_unstructured] initial world0 in
  length (EntityStore.report_rows (server partial.1.2)) = 1%nat
  /\ length (EntityStore.report_rows (server total.1.2)) = 0%nat
  /\ partial.2 = total.2
  /\ partial.1.1 = total.1.1
  /\ partial.2
     = Throw (AxiosError
                (Some (422%Z, JObj [("kind", JStr "ValidationError");
                                  ("fields", JArr [JStr "cpt_codes"])]))).
Proof. vm_compute. repeat split; reflexivity. Qed.

Lemma createReports_stops_at_first_failure_witness :
  (createReports (H := UtcHost.host) EntityStore.serve (JInt 7)
     ([report_structured] ++ report_unstructured :: [report_structured])
     initial world0).2
  = Throw (AxiosError
             (Some (422%Z, JObj [("kind", JStr "ValidationError");
                               ("fields", JArr [JStr "cpt_codes"])])))
  /\ length (sent (createReports (H := UtcHost.host) EntityStore.serve (JInt 7)
                     ([report_structured] ++ report_unstructured :: [report_structured])
                     initial world0).1.2) = 2%nat.
Proof.
  pose proof (createReports_stops_at_first_failure (H := UtcHost.host)
                EntityStore.serve (JInt 7) "7" [report_structured]
                [report_structured] report_unstructured
                (AxiosError
                   (Some (422%Z, JObj [("kind", JStr "ValidationError");
                                     ("fields", JArr [JStr "cpt_codes"])])))
                initial world0
                (post_reports (H := UtcHost.host) EntityStore.serve (JInt 7)
                   [report_structured] world0).1
                (apiClient.post EntityStore.serve "/api/v1/patients/7/reports"
                   report_unstructured
                   (post_reports (H := UtcHost.host) EntityStore.serve (JInt 7)
                      [report_structured] world0).1).1
                ltac:(vm_compute; reflexivity)
                ltac:(vm_compute; reflexivity)
                ltac:(vm_compute; reflexivity)) as [Hfail _].
  rewrite Hfail. split; vm_compute; reflexivity.
Defined.

End PatientHook.

(** ** [useVitalSigns]: what "latest" means in the client *)

Module VitalsHook.
Import Js Api UseVitalSigns.

Section WithBackend.

Context {Server : Type}.
Variable serve : Server -> HttpRequest -> Server * HttpOutcome.
Variable patientId : JsNumber.

(** C6 (amended).  The hook keeps the latest vitals incrementally.  After
    a successful [createVitalSigns] the latest vitals are the row that the
    create call returned, the most recently inserted one, and that row is
    appended to the history; measured-at is not looked at.  A failed create
    leaves the latest vitals as they were.  The latest vitals become the
    answer of the server's [/vitals/latest] when [fetchLatestVitalSigns] is
    called. *)
Theorem latest_is_maintained_by_the_hook (input : JsValue) (st : State)
    (w : World Server) :
  (forall w1 response,
     apiClient.post serve (vitals_url patientId) input w = (w1, Normal response) ->
     createVitalSigns serve patientId input st w
     = (setLoading false
          (setLatestVitalSigns (data response)
             (setVitalSigns (fun prev => prev ++ [data response])
                (setError None (setLoading true st)))),
        w1, Normal (data response))
     /\ latestVitalSigns (createVitalSigns serve patientId input st w).1.1
        = data response
     /\ vitalSigns (createVitalSigns serve patientId input st w).1.1
        = vitalSigns st ++ [data response])
  /\ (forall w1 e,
        apiClient.post serve (vitals_url patientId) input w = (w1, Throw e) ->
        latestVitalSigns (createVitalSigns serve patientId input st w).1.1
        = latestVitalSigns st)
  /\ (forall w1 response,
        apiClient.get serve (vitals_url patientId +:+ "/latest") w = (w1, Normal response) ->
        latestVitalSigns (fetchLatestVitalSigns serve patientId st w).1
        = data response).
Proof.
  split; [|split].
  - intros w1 response Hp. unfold createVitalSigns. rewrite Hp.
    repeat split; reflexivity.
  - intros w1 e Hp. unfold createVitalSigns. rewrite Hp. reflexivity.
  - intros w1 response Hg. unfold fetchLatestVitalSigns. rewrite Hg. reflexivity.
Qed.

End WithBackend.

Import Scenario.

(** C6, as stated, fails.  Patient 7 has vitals measured on 2 March; vitals
    measured on 1 March are recorded afterwards.  The row with the maximum
    measured-at is still the one of 2 March, and a new read of
    [/vitals/latest] would return it, but the latest vitals that the hook
    shows are the row just inserted. *)
Lemma latest_is_the_inserted_row :
  latestVitalSigns loaded.1 = vitals_march_2
  /\ entered.2 = Normal vitals_march_1
  /\ EntityStore.latest_of (EntityStore.vitals_of 7 (server entered.1.2))
     = Some vitals_march_2
  /\ String.ltb (EntityStore.measured_at vitals_march_1)
       (EntityStore.measured_at vitals_march_2) = true
  /\ latestVitalSigns entered.1.1 = vitals_march_1
  /\ latestVitalSigns entered.1.1 <> vitals_march_2.
Proof.
  repeat split; try (vm_compute; reflexivity).
  vm_compute. discriminate.
Qed.

Lemma latest_is_maintained_by_the_hook_witness :
  latestVitalSigns entered.1.1 = vitals_march_1
  /\ vitalSigns entered.1.1 = vitalSigns loaded.1 ++ [vitals_march_1]
  /\ latestVitalSigns
       (fetchLatestVitalSigns EntityStore.serve (Dec 7 0) entered.1.1 entered.1.2).1
     = vitals_march_2.
Proof.
  pose proof (latest_is_maintained_by_the_hook EntityStore.serve (Dec 7 0)
                input_march_1 loaded.1 loaded.2) as (Hc & _ & _).
  pose proof (latest_is_maintained_by_the_hook EntityStore.serve (Dec 7 0)
                input_march_1 entered.1.1 entered.1.2) as (_ & _ & Hf).
  specialize (Hc (apiClient.post EntityStore.serve (vitals_url (Dec 7 0)) input_march_1 loaded.2).1
                {| status := 201; data := vitals_march_1 |}
                ltac:(vm_compute; reflexivity)) as (_ & Hl & Hv).
  specialize (Hf (apiClient.get EntityStore.serve (vitals_url (Dec 7 0) +:+ "/latest") entered.1.2).1
                {| status := 200; data := vitals_march_2 |}
                ltac:(vm_compute; reflexivity)).
  split; [exact Hl|]. split; [exact Hv|exact Hf].
Defined.

End VitalsHook.

(** ** [useRiskAssessment]: a prediction that fails *)

Module RiskHook.
Import Js Api UseRiskAssessment JsFacts.

Section WithBackend.

Context {Server : Type}.
Variable serve : Server -> HttpRequest -> Server * HttpOutcome.
Variable patientId : JsNumber.


End WithBackend.





Import Scenario.


End RiskHook.

(** ** The new-patient page: normalizing and submitting reports *)

Module ReportSubmission.
Import Js Api NewPatientPage JsFacts.

Lemma join_cons_char (c : ascii) (h : string) (t : list string) :
  join "," (String c h :: t) = String c (join "," (h :: t)).
Proof. destruct t; reflexivity. Qed.

Lemma split_nonempty (sep : ascii) (s : string) : split sep s <> [].
Proof.
  destruct s as [|c r]; cbn; [discriminate|].
  destruct (Ascii.eqb c sep); [discriminate|].
  destruct (split sep r); discriminate.
Qed.

(** Splitting at commas and joining with commas gives the text back. *)
Lemma join_split (s : string) : join "," (split "," s) = s.
Proof.
  induction s as [|c r IH]; [reflexivity|].
  cbn [split]. pose proof (split_nonempty "," r) as Hne.
  destruct (split "," r) as [|h t]; [contradiction|].
  destruct (Ascii.eqb_spec c ",") as [->|_].
  - change (join "," (EmptyString :: h :: t))
      with (String "," (join "," (h :: t))).
    rewrite IH. reflexivity.
  - rewrite join_cons_char, IH. reflexivity.
Qed.

Section Page.

Context `{Host} {Server : Type}.
Variable serve : Server -> HttpRequest -> Server * HttpOutcome.









End Page.

Import Scenario.

(** C4 on the text that the report form suggests: the CPT codes
    ["99291, 99233"] are cut at the comma and nothing else, so the second
    code keeps its leading space; the procedure pairs are parsed into the
    array [[1,311],[2,3323]]. *)
Lemma cpt_codes_keep_their_space :
  normalize_report (H := UtcHost.host) report_typed
  = Normal
      [("drg_code", JStr "291"); ("drg_description", JStr "Heart failure");
       ("drg_severity", JStr "2"); ("drg_mortality", JStr "1");
       ("cpt_codes", JArr [JStr "99291"; JStr " 99233"]);
       ("icd9_codes", JArr [JStr "99749"; JStr " 0389"]);
       ("procedure_pairs",
        JArr [JArr [JInt 1; JInt 311]; JArr [JInt 2; JInt 3323]]);
       ("lab_events", JArr [])]
  /\ codes_of (JStr "99291, 99233") <> Normal (JArr [JStr "99291"; JStr "99233"])
  /\ codes_of (JArr [JStr "99291"; JStr "99233"])
     = Normal (JArr [JStr "99291"; JStr "99233"]).
Proof.
  split; [vm_compute; reflexivity|]. split; [|reflexivity].
  vm_compute. discriminate.
Qed.


(** C5, as stated, fails for the code.  The new-patient form is submitted
    with a report whose procedure pairs are the text ["[[1,"], to a backend
    that creates the patient: [JSON.parse] throws a SyntaxError, which
    [handleSubmit] catches; the only request sent is the POST of the
    patient, who is now in the hook's list, no error is recorded and the
    page is as it was.  The same error meets a report whose lab events are
    typed in the comma-separated format that the report form asks for.
    Procedure pairs that are JSON but no collection of pairs, such as
    ["5"], are not refused: the report is posted with the number 5 and the
    page goes on to the patient list. *)
Lemma malformed_report_is_lost_silently :
  let result :=
    handleSubmit (H := UtcHost.host) scripted page_with_truncated_report
      UsePatients.initial (world_scripted browser0 [Answer 201 patient_nine]) in
  let posted :=
    handleSubmit (H := UtcHost.host) scripted page_with_number_pairs
      UsePatients.initial
      (world_scripted browser0
         [Answer 201 patient_nine; Answer 201 (JObj [("id", JInt 31)])]) in
  normalize_report (H := UtcHost.host) report_truncated = Throw SyntaxError
  /\ method <$> sent result.2 = ["POST"]
  /\ url <$> sent result.2 = ["/api/v1/patients"]
  /\ UsePatients.patients result.1.2 = [patient_nine]
  /\ UsePatients.error result.1.2 = None
  /\ result.1.1 = page_with_truncated_report
  /\ route result.1.1 = None
  /\ normalize_report (H := UtcHost.host) report_as_suggested
     = Throw SyntaxError
  /\ url <$> sent posted.2 = ["/api/v1/patients"; "/api/v1/patients/9/reports"]
  /\ (fun req => opt_Get (body req) "procedure_pairs") <$> sent posted.2
     = [JUndefined; JInt 5]
  /\ UsePatients.error posted.1.2 = None
  /\ route posted.1.1 = Some "/patients".
Proof. cbv zeta. repeat split; vm_compute; reflexivity. Qed.

End ReportSubmission.

(** ** The patient-details page: "Predict Risks" *)

Module PredictRisk.
Import Js Api PatientDetailsPage.

Section Page.

Context `{Host} {Server : Type}.

Lemma predict_inputs_names (now : Z) (patient report : JsValue)
    (fields : list (string * JsValue)) :
  predict_inputs now patient report = Normal fields ->
  fields.*1
  = ["admission_type"; "discharge_location"; "ethnicity"; "cpt_cd";
     "all_diagnosis"; "gender"; "age"; "drg_type"; "drg_code"; "description";
     "drg_severity"; "drg_mortality"; "procedure_pairs"; "lab_events"; "submit"].
Proof.
  unfold predict_inputs.
  repeat match goal with
         | |- context [Get ?v ?k] =>
             destruct (Get v k); cbn [mbind Completion_bind]; [|discriminate]
         | |- context [new_Date ?v] =>
             destruct (new_Date v); cbn [mbind Completion_bind]; [|discriminate]
         end.
  intros [= <-]. reflexivity.
Qed.

(** C8.  Pressing "Predict Risks" changes neither the backend nor the list
    of requests made through the API client, nor the stored token, whatever
    the patient, the report and the time are: no RiskAssessment row (or any
    other row) is created or updated.  When the form of the report can be
    rendered, the browser posts it to the external predictor and nothing
    else happens: the form has the fifteen inputs of the feature payload, in
    which the age is the difference of the current year and the year of
    birth. *)
Theorem predict_risk_is_a_pass_through (now : Z) (patient : JsValue)
    (index : nat) (w : World Server) :
  server (predict_risk now patient index w) = server w
  /\ sent (predict_risk now patient index w) = sent w
  /\ cookie_jar (browser (predict_risk now patient index w)) = cookie_jar (browser w)
  /\ localStorage (browser (predict_risk now patient index w))
     = localStorage (browser w)
  /\ (forall reports report fields,
        Get patient "reports" = Normal reports ->
        rows_of reports !! index = Some report ->
        predict_inputs now patient report = Normal fields ->
        predict_risk now patient index w
        = {| browser := navigate predict_url (browser w);
             server := server w;
             sent := sent w;
             submitted := submitted w ++
               [{| action := "https://hf-readmission.onrender.com/predict";
                   form_method := "POST";
                   inputs := fields |}] |}
        /\ fields.*1
           = ["admission_type"; "discharge_location"; "ethnicity"; "cpt_cd";
              "all_diagnosis"; "gender"; "age"; "drg_type"; "drg_code";
              "description"; "drg_severity"; "drg_mortality";
              "procedure_pairs"; "lab_events"; "submit"]
        /\ (forall dob born,
              Get patient "date_of_birth" = Normal dob ->
              new_Date dob = Normal born ->
              own "age" fields
              = Some (JNum (minus (Dec (Date_getFullYear now) 0)
                                  (getFullYear born))))).
Proof.
  assert (Hframe : server (predict_risk now patient index w) = server w
                   /\ sent (predict_risk now patient index w) = sent w
                   /\ cookie_jar (browser (predict_risk now patient index w))
                      = cookie_jar (browser w)
                   /\ localStorage (browser (predict_risk now patient index w))
                      = localStorage (browser w)).
  { unfold predict_risk.
    destruct (Get patient "reports") as [reports|]; [|repeat split].
    destruct (rows_of reports !! index) as [report|]; [|repeat split].
    destruct (predict_form now patient report); repeat split. }
  destruct Hframe as (H1 & H2 & H3 & H4).
  do 4 (split; [assumption|]).
  intros reports report fields Hreports Hreport Hfields. split; [|split].
  - unfold predict_risk, predict_form. rewrite Hreports, Hreport, Hfields. reflexivity.
  - eapply predict_inputs_names; eassumption.
  - intros dob born Hdob Hborn. revert Hfields. unfold predict_inputs.
    rewrite Hdob.
    repeat (first [ rewrite Hborn; cbn [mbind Completion_bind]
                  | match goal with
                    | |- context [Get ?v ?k] =>
                        destruct (Get v k); cbn [mbind Completion_bind];
                        [|discriminate]
                    end ]).
    intros [= <-]. reflexivity.
Qed.

End Page.

Import Scenario.

Lemma predict_risk_is_a_pass_through_witness :
  submitted (predict_risk (H := UtcHost.host) now_ms patient_seven 0 world0)
  = [{| action := "https://hf-readmission.onrender.com/predict";
        form_method := "POST";
        inputs :=
          [("admission_type", JUndefined); ("discharge_location", JUndefined);
           ("ethnicity", JUndefined);
           ("cpt_cd", JArr [JStr "99291"; JStr "99233"]);
           ("all_diagnosis", JArr [JStr "4280"]);
           ("gender", JStr "female"); ("age", JInt 45);
           ("drg_type", JUndefined); ("drg_code", JStr "291");
           ("description", JStr "Heart failure");
           ("drg_severity", JInt 2); ("drg_mortality", JInt 1);
           ("procedure_pairs", JStr "[[1,311]]");
           ("lab_events", JArr []); ("submit", JStr "true")] |}]
  /\ server (predict_risk (H := UtcHost.host) now_ms patient_seven 0 world0) = store0.
Proof.
  pose proof (predict_risk_is_a_pass_through (H := UtcHost.host)
                now_ms patient_seven 0 world0) as (Hs & _ & _ & _ & Hf).
  split; [|exact Hs].
  destruct (Hf (JArr (rows_of (EntityStore.prop patient_seven "reports")))
              (default JNull (rows_of (EntityStore.prop patient_seven "reports") !! 0%nat))
              (match predict_inputs (H := UtcHost.host) now_ms patient_seven
                       (default JNull
                          (rows_of (EntityStore.prop patient_seven "reports") !! 0%nat))
               with Normal f => f | Throw _ => [] end)
              ltac:(vm_compute; reflexivity)
              ltac:(vm_compute; reflexivity)
              ltac:(vm_compute; reflexivity)) as (Hw & _ & _).
  rewrite Hw. vm_compute. reflexivity.
Defined.

End PredictRisk.

(** ** The auth gate: how a token is decoded *)

Module TokenDecoding.
Import Js Middleware JsFacts.

(** The escape of a character is read back as that character. *)
Lemma unescape_percent (c : ascii) (r : string) :
  unescape (percent c +:+ r) = t ← unescape r; Some (String c t).
Proof.
  pose proof (for_all_ascii (fun c =>
            match percent c with
            | String p (String h1 (String h2 EmptyString)) =>
                Ascii.eqb p "%"
                && match hex_value h1, hex_value h2 with
                   | Some a, Some b => Ascii.eqb (chr (a * 16 + b)) c
                   | _, _ => false
                   end
            | _ => false
            end) ltac:(vm_compute; reflexivity) c) as Hc.
  cbv beta in Hc.
  destruct (percent c) as [|p [|h1 [|h2 [|]]]]; try discriminate.
  apply andb_prop in Hc as [Hp Hh]. apply Ascii.eqb_eq in Hp as ->.
  destruct (hex_value h1) as [a|] eqn:Ha; [|discriminate].
  destruct (hex_value h2) as [b|] eqn:Hb; [|discriminate].
  apply Ascii.eqb_eq in Hh.
  change (String "%" (String h1 (String h2 "")) +:+ r)
    with (String "%" (String h1 (String h2 r))).
  cbn [unescape]. change (Ascii.eqb "%" "%") with true. cbv iota.
  rewrite Ha, Hb. cbn. rewrite Hh. reflexivity.
Qed.

Lemma unescape_percent_all (s : string) : unescape (percent_all s) = Some s.
Proof.
  induction s as [|c r IH]; [reflexivity|].
  cbn [percent_all]. rewrite unescape_percent, IH. reflexivity.
Qed.

(** A text in front of a separator is the first part of the split. *)
Lemma split_app (sep : ascii) (h r : string) :
  all_chars (fun c => negb (Ascii.eqb c sep)) h = true ->
  split sep (h +:+ String sep r) = h :: split sep r.
Proof.
  induction h as [|c h IH]; cbn [all_chars].
  - intros _. change ("" +:+ String sep r) with (String sep r).
    cbn [split]. rewrite Ascii.eqb_refl. reflexivity.
  - intros Hh. apply andb_prop in Hh as [Hc Hh]. apply negb_true_iff in Hc.
    rewrite append_cons, split_cons_ne, (IH Hh) by exact Hc. reflexivity.
Qed.

Lemma split_whole (sep : ascii) (s : string) :
  all_chars (fun c => negb (Ascii.eqb c sep)) s = true -> split sep s = [s].
Proof.
  induction s as [|c s IH]; cbn [all_chars]; [reflexivity|].
  intros Hs. apply andb_prop in Hs as [Hc Hs]. apply negb_true_iff in Hc.
  rewrite split_cons_ne, (IH Hs) by exact Hc. reflexivity.
Qed.

(** The payload part of a token with three parts. *)
Lemma second_part (h p s : string) :
  all_chars (fun c => negb (Ascii.eqb c ".")) h = true ->
  all_chars (fun c => negb (Ascii.eqb c ".")) p = true ->
  split "." (h +:+ "." +:+ p +:+ "." +:+ s) !! 1%nat = Some p.
Proof.
  intros Hh Hp.
  change (h +:+ "." +:+ p +:+ "." +:+ s)
    with (h +:+ String "." (p +:+ String "." s)).
  rewrite (split_app "." h _ Hh), (split_app "." p _ Hp). reflexivity.
Qed.

Lemma all_chars_rev_app (f : ascii -> bool) (s acc : string) :
  all_chars f (String.rev_app s acc) = all_chars f s && all_chars f acc.
Proof.
  revert acc. induction s as [|c s IH]; intros acc; cbn [String.rev_app all_chars].
  - reflexivity.
  - rewrite IH. cbn [all_chars]. destruct (f c), (all_chars f s); reflexivity.
Qed.

Lemma strip_padding_id (s : string) :
  all_chars (fun c => negb (Ascii.eqb c "=")) s = true -> strip_padding s = s.
Proof.
  intros Hs. unfold strip_padding.
  destruct (String.length s mod 4 =? 0)%nat; [|reflexivity].
  assert (Hr : all_chars (fun c => negb (Ascii.eqb c "=")) (String.rev s) = true).
  { unfold String.rev. rewrite all_chars_rev_app, Hs. reflexivity. }
  destruct (String.rev s) as [|c1 [|c2 r]]; try reflexivity.
  cbn [all_chars] in Hr. apply andb_prop in Hr as [Hc _].
  apply negb_true_iff in Hc. rewrite Hc. reflexivity.
Qed.

Lemma remove_spaces_id (s : string) :
  all_chars (fun c => negb (is_b64_space c)) s = true -> remove_spaces s = s.
Proof.
  induction s as [|c s IH]; cbn [all_chars remove_spaces]; [reflexivity|].
  intros Hs. apply andb_prop in Hs as [Hc Hs]. apply negb_true_iff in Hc.
  rewrite Hc, (IH Hs). reflexivity.
Qed.

Lemma b64_values_total (s : string) :
  all_chars (fun c => match b64_value c with Some _ => true | None => false end) s
  = true ->
  exists vs, b64_values s = Some vs.
Proof.
  induction s as [|c s IH]; cbn [all_chars b64_values]; [eauto|].
  intros Hs. apply andb_prop in Hs as [Hc Hs].
  destruct (b64_value c) as [v|]; [|discriminate]. destruct (IH Hs) as [vs ->].
  cbn. eauto.
Qed.

Lemma replace_all_length (a b : ascii) (s : string) :
  String.length (replace_all a b s) = String.length s.
Proof. induction s as [|c s IH]; cbn; [reflexivity|]. rewrite IH. reflexivity. Qed.

Lemma replace_all_chars (f g : ascii -> bool) (a b : ascii) (s : string) :
  (forall c, f c = true -> g (if Ascii.eqb c a then b else c) = true) ->
  all_chars f s = true -> all_chars g (replace_all a b s) = true.
Proof.
  intros Hfg. induction s as [|c s IH]; cbn [all_chars replace_all]; [reflexivity|].
  intros Hs. apply andb_prop in Hs as [Hc Hs]. rewrite (Hfg c Hc), (IH Hs). reflexivity.
Qed.

(** The two replacements of [decodeJwt] turn base64url into base64. *)
Lemma base64url_to_base64 (p : string) :
  all_chars base64url_char p = true ->
  all_chars (fun c => match b64_value c with Some _ => true | None => false end
                      && negb (is_b64_space c) && negb (Ascii.eqb c "="))
    (replace_all "_" "/" (replace_all "-" "+" p)) = true.
Proof.
  intros Hp.
  apply (replace_all_chars
           (fun c => base64url_char c && negb (Ascii.eqb c "-") || Ascii.eqb c "+")).
  - intros c.
    apply (ascii_implies
             (fun c => base64url_char c && negb (Ascii.eqb c "-") || Ascii.eqb c "+")
             (fun c => let c' := if Ascii.eqb c "_" then "/"%char else c in
                       match b64_value c' with Some _ => true | None => false end
                       && negb (is_b64_space c') && negb (Ascii.eqb c' "="))).
    vm_compute. reflexivity.
  - revert Hp. apply replace_all_chars.
    intros c.
    apply (ascii_implies base64url_char
             (fun c => let c' := if Ascii.eqb c "-" then "+"%char else c in
                       base64url_char c' && negb (Ascii.eqb c' "-")
                       || Ascii.eqb c' "+")).
    vm_compute. reflexivity.
Qed.

(** [atob] on base64 characters fails for one reason only: a length that
    leaves a single character over. *)
Lemma atob_clean (q : string) :
  all_chars (fun c => match b64_value c with Some _ => true | None => false end
                      && negb (is_b64_space c) && negb (Ascii.eqb c "=")) q = true ->
  ((String.length q mod 4 = 1)%nat -> atob q = Throw InvalidCharacterError)
  /\ ((String.length q mod 4 <> 1)%nat -> exists binary, atob q = Normal binary).
Proof.
  intros Hq. unfold atob.
  rewrite remove_spaces_id, strip_padding_id.
  2:{ revert Hq. apply all_chars_impl. intros c Hc.
      apply andb_prop in Hc as [_ Hc]. exact Hc. }
  2:{ revert Hq. apply all_chars_impl. intros c Hc.
      apply andb_prop in Hc as [Hc _]. apply andb_prop in Hc as [_ Hc]. exact Hc. }
  destruct (b64_values_total q) as [vs Hvs].
  { revert Hq. apply all_chars_impl. intros c Hc.
    apply andb_prop in Hc as [Hc _]. apply andb_prop in Hc as [Hc _]. exact Hc. }
  rewrite Hvs. split.
  - intros ->. reflexivity.
  - intros Hne. exists (b64_bytes vs).
    destruct (String.length q mod 4 =? 1)%nat eqn:E; [|reflexivity].
    apply Nat.eqb_eq in E. contradiction.
Qed.

Section Gate.

Context `{Host}.

(** X1.  The percent-encoding of [decodeJwt] followed by
    [decodeURIComponent] changes no byte: it is a check that the decoded
    payload is well-formed UTF-8.  When it is, the bytes themselves are
    handed to [JSON.parse]; when it is not, [decodeJwt] throws a URIError. *)
Theorem payload_is_checked_as_utf8 (token seg binary : string) :
  split "." token !! 1%nat = Some seg ->
  atob (replace_all "_" "/" (replace_all "-" "+" seg)) = Normal binary ->
  decodeURIComponent (percent_all binary)
  = (if utf8_ok (codes binary) then Normal binary else Throw URIError)
  /\ decodeJwt token
     = (if utf8_ok (codes binary) then JSON_parse binary else Throw URIError).
Proof.
  intros Hseg Hbin.
  assert (Hd : decodeURIComponent (percent_all binary)
               = if utf8_ok (codes binary) then Normal binary else Throw URIError).
  { unfold decodeURIComponent. rewrite unescape_percent_all. reflexivity. }
  split; [exact Hd|].
  unfold decodeJwt. rewrite Hseg, Hbin. cbn [mbind Completion_bind].
  rewrite Hd. destruct (utf8_ok (codes binary)); reflexivity.
Qed.

(** X2.  The payload part of a token needs no padding.  When it is written
    in the base64url alphabet, [atob] fails only for a length that leaves
    one character over (a multiple of four plus one); for every other
    length the part is decoded, and [decodeJwt] goes on with the bytes. *)
Theorem unpadded_segments_are_decoded (h p s : string) :
  all_chars (fun c => negb (Ascii.eqb c ".")) h = true ->
  all_chars base64url_char p = true ->
  ((String.length p mod 4 = 1)%nat ->
   decodeJwt (h +:+ "." +:+ p +:+ "." +:+ s) = Throw InvalidCharacterError)
  /\ ((String.length p mod 4 <> 1)%nat ->
      exists binary,
        atob (replace_all "_" "/" (replace_all "-" "+" p)) = Normal binary
        /\ decodeJwt (h +:+ "." +:+ p +:+ "." +:+ s)
           = (if utf8_ok (codes binary) then JSON_parse binary
              else Throw URIError)).
Proof.
  intros Hh Hp.
  assert (Hdot : all_chars (fun c => negb (Ascii.eqb c ".")) p = true).
  { revert Hp. apply all_chars_impl. apply ascii_implies. vm_compute. reflexivity. }
  pose proof (second_part h p s Hh Hdot) as Hseg.
  destruct (atob_clean _ (base64url_to_base64 p Hp)) as [Hbad Hgood].
  rewrite !replace_all_length in Hbad, Hgood.
  unfold decodeJwt. rewrite Hseg. split.
  - intros Hlen. rewrite (Hbad Hlen). reflexivity.
  - intros Hlen. destruct (Hgood Hlen) as [binary Hbin]. exists binary.
    split; [exact Hbin|]. rewrite Hbin. cbn [mbind Completion_bind].
    unfold decodeURIComponent. rewrite unescape_percent_all.
    destruct (utf8_ok (codes binary)); reflexivity.
Qed.

(** X3.  The gate never looks at the header or at the signature of a
    token: two tokens with the same payload part are decoded to the same
    payload and get the same decision, whatever their first and third parts
    are. *)
Theorem decision_ignores_signature (request : NextRequest)
    (h h' p s s' : string) :
  all_chars (fun c => negb (Ascii.eqb c ".")) h = true ->
  all_chars (fun c => negb (Ascii.eqb c ".")) h' = true ->
  all_chars (fun c => negb (Ascii.eqb c ".")) p = true ->
  decodeJwt (h' +:+ "." +:+ p +:+ "." +:+ s')
  = decodeJwt (h +:+ "." +:+ p +:+ "." +:+ s)
  /\ middleware (with_token (h' +:+ "." +:+ p +:+ "." +:+ s') request)
     = middleware (with_token (h +:+ "." +:+ p +:+ "." +:+ s) request).
Proof.
  intros Hh Hh' Hp.
  assert (Hd : decodeJwt (h' +:+ "." +:+ p +:+ "." +:+ s')
               = decodeJwt (h +:+ "." +:+ p +:+ "." +:+ s)).
  { unfold decodeJwt.
    rewrite (second_part h' p s' Hh' Hp), (second_part h p s Hh Hp). reflexivity. }
  split; [exact Hd|].
  unfold middleware, with_token. cbn [nextUrl cookies headers].
  destruct (is_public _); [reflexivity|].
  rewrite !lookup_insert_eq. unfold forward. cbn [headers]. rewrite Hd. reflexivity.
Qed.

(** X4.  A cookie value without a dot has no payload part: [decodeJwt]
    throws a TypeError, and on a path that is not public the request is
    redirected to [/login]. *)
Theorem token_without_dot_is_rejected (request : NextRequest) (token : string) :
  all_chars (fun c => negb (Ascii.eqb c ".")) token = true ->
  decodeJwt token = Throw TypeError
  /\ (is_public (pathname (nextUrl request)) = false ->
      cookies request !! "access_token" = Some token ->
      middleware request = Redirect (new_URL "/login" (url request))).
Proof.
  intros Hdot.
  assert (Hd : decodeJwt token = Throw TypeError).
  { unfold decodeJwt. rewrite (split_whole "." token Hdot). reflexivity. }
  split; [exact Hd|]. intros Hpub Hc.
  unfold middleware, forward. rewrite Hpub, Hc, Hd. reflexivity.
Qed.

End Gate.

Import Scenario.

Lemma payload_is_checked_as_utf8_witness :
  decodeJwt token_doctor = JSON_parse bytes_doctor
  /\ decodeJwt token_doctor = Normal (JObj payload_doctor)
  /\ decodeJwt token_bad_utf8 = Throw URIError.
Proof.
  pose proof (payload_is_checked_as_utf8 token_doctor segment_doctor bytes_doctor
                ltac:(vm_compute; reflexivity) ltac:(vm_compute; reflexivity))
    as [_ Hgood].
  pose proof (payload_is_checked_as_utf8 token_bad_utf8 segment_bad_utf8
                bytes_bad_utf8
                ltac:(vm_compute; reflexivity) ltac:(vm_compute; reflexivity))
    as [_ Hbad].
  split; [|split].
  - rewrite Hgood. vm_compute. reflexivity.
  - rewrite Hgood. vm_compute. reflexivity.
  - rewrite Hbad. vm_compute. reflexivity.
Defined.

Lemma unpadded_segments_are_decoded_witness :
  (String.length segment_numeric mod 4 = 3)%nat
  /\ decodeJwt token_numeric = Normal (JObj payload_numeric)
  /\ decodeJwt (header_doctor +:+ "." +:+ "eyJzd" +:+ "." +:+ "c2ln")
     = Throw InvalidCharacterError.
Proof.
  pose proof (unpadded_segments_are_decoded header_doctor segment_numeric "c2ln"
                ltac:(vm_compute; reflexivity) ltac:(vm_compute; reflexivity))
    as [_ Hgood].
  pose proof (unpadded_segments_are_decoded header_doctor "eyJzd" "c2ln"
                ltac:(vm_compute; reflexivity) ltac:(vm_compute; reflexivity))
    as [Hbad _].
  split; [reflexivity|]. split.
  - destruct (Hgood ltac:(vm_compute; discriminate)) as (binary & Hbin & Hd).
    change (decodeJwt token_numeric)
      with (decodeJwt (header_doctor +:+ "." +:+ segment_numeric +:+ "." +:+ "c2ln")).
    rewrite Hd.
    assert (Hb : Normal binary
                 = atob (replace_all "_" "/" (replace_all "-" "+" segment_numeric)))
      by (symmetry; exact Hbin).
    vm_compute in Hb. injection Hb as ->. vm_compute. reflexivity.
  - apply Hbad. vm_compute. reflexivity.
Defined.

Lemma decision_ignores_signature_witness :
  middleware (H := UtcHost.host)
    (with_token ("e30" +:+ "." +:+ segment_doctor +:+ "." +:+ "forged") req_anonymous)
  = middleware (H := UtcHost.host) req_doctor.
Proof.
  rewrite (proj2 (decision_ignores_signature (H := UtcHost.host) req_anonymous
                    header_doctor "e30" segment_doctor "c2ln" "forged"
                    ltac:(vm_compute; reflexivity) ltac:(vm_compute; reflexivity)
                    ltac:(vm_compute; reflexivity))).
  vm_compute. reflexivity.
Defined.

Lemma token_without_dot_is_rejected_witness :
  middleware (H := UtcHost.host)
    (request_for "/patients" {["access_token" := "undefined"]})
  = Redirect (site "/login").
Proof.
  apply (proj2 (token_without_dot_is_rejected (H := UtcHost.host)
                  (request_for "/patients" {["access_token" := "undefined"]})
                  "undefined" ltac:(vm_compute; reflexivity)));
    vm_compute; reflexivity.
Defined.

End TokenDecoding.

(** ** The auth gate: which requests pass, and with which headers *)

Module GatePaths.
Import Js Middleware JsFacts.

Lemma prefix_append (p r : string) : String.prefix p (p +:+ r) = true.
Proof.
  induction p as [|c p IH]; [destruct r; reflexivity|].
  rewrite append_cons. cbn [String.prefix].
  destruct (ascii_dec c c); [exact IH|contradiction].
Qed.

Lemma prefix_inv (p s : string) :
  String.prefix p s = true -> exists r, s = p +:+ r.
Proof.
  revert s. induction p as [|c p IH]; intros s.
  - intros _. exists s. reflexivity.
  - destruct s as [|c' s]; [discriminate|]. cbn [String.prefix].
    destruct (ascii_dec c c') as [<-|]; [|discriminate].
    intros Hp. destruct (IH s Hp) as [r ->]. exists r. reflexivity.
Qed.

(** A path is public when it begins with one of the public paths. *)
Lemma public_paths_are_prefixes (path : string) :
  is_public path = true
  <-> exists prefix rest, prefix ∈ PUBLIC_PATHS /\ path = prefix +:+ rest.
Proof.
  unfold is_public, startsWith. rewrite existsb_exists. split.
  - intros (prefix & Hin & Hp). destruct (prefix_inv _ _ Hp) as [rest ->].
    exists prefix, rest. split; [|reflexivity]. apply list_elem_of_In, Hin.
  - intros (prefix & rest & Hin & ->). exists prefix.
    split; [apply list_elem_of_In, Hin|apply prefix_append].
Qed.

Lemma digits_are_digits (d : uint) :
  all_chars is_digit (NilEmpty.string_of_uint d) = true.
Proof.
  induction d; cbn [NilEmpty.string_of_uint all_chars]; try rewrite IHd; reflexivity.
Qed.

Lemma digit_visible (c : ascii) : is_digit c = true -> visible c = true.
Proof. apply ascii_implies. vm_compute. reflexivity. Qed.

Section Gate.

Context `{Host}.

(** What the [try] block returns when it does not throw: the request
    headers with the three user headers set, whose values do not depend on
    the request headers. *)
Lemma forward_headers (request : NextRequest) (token : string) (r : NextResponse) :
  forward request token = Normal r ->
  exists id email role,
    forall h,
      forward (with_headers h request) token
      = Normal (Next (Some (<["x-user-role" := role]>
                              (<["x-user-email" := email]>
                                 (<["x-user-id" := id]> h))))).
Proof.
  unfold forward, Headers_set. cbn [with_headers headers].
  destruct (decodeJwt token) as [payload|]; cbn [mbind Completion_bind];
    [|discriminate].
  destruct (claim_text payload "sub") as [id|]; cbn [mbind Completion_bind];
    [|discriminate].
  destruct (all_chars header_char (strip is_http_ws id));
    cbn [mbind Completion_bind]; [|discriminate].
  destruct (claim_text payload "email") as [email|]; cbn [mbind Completion_bind];
    [|discriminate].
  destruct (all_chars header_char (strip is_http_ws email));
    cbn [mbind Completion_bind]; [|discriminate].
  destruct (claim_text payload "role") as [role|]; cbn [mbind Completion_bind];
    [|discriminate].
  destruct (all_chars header_char (strip is_http_ws role));
    cbn [mbind Completion_bind]; [|discriminate].
  intros _. exists (strip is_http_ws id), (strip is_http_ws email),
    (strip is_http_ws role). reflexivity.
Qed.

(** The same for the request itself. *)
Lemma forward_own_headers (request : NextRequest) (token : string)
    (r : NextResponse) :
  forward request token = Normal r ->
  exists id email role,
    r = Next (Some (<["x-user-role" := role]>
                      (<["x-user-email" := email]>
                         (<["x-user-id" := id]> (headers request)))))
    /\ forall h,
         forward (with_headers h request) token
         = Normal (Next (Some (<["x-user-role" := role]>
                                 (<["x-user-email" := email]>
                                    (<["x-user-id" := id]> h))))).
Proof.
  intros E. destruct (forward_headers _ _ _ E) as (id & email & role & Hf).
  exists id, email, role. split; [|exact Hf].
  specialize (Hf (headers request)).
  change (forward (with_headers (headers request) request) token)
    with (forward request token) in Hf.
  rewrite E in Hf. injection Hf as Hr. exact Hr.
Qed.

(** X5.  The gate lets a request pass untouched, without reading any
    cookie, exactly when its path begins with one of the six public paths;
    a path such as [/loginx] or [/healthcheck], which only begins like a
    public path, passes as well. *)
Theorem gate_passes_public_prefixes_only (request : NextRequest) :
  middleware request = Next None
  <-> exists prefix rest,
        prefix ∈ PUBLIC_PATHS /\ pathname (nextUrl request) = prefix +:+ rest.
Proof.
  rewrite <- public_paths_are_prefixes. unfold middleware.
  destruct (is_public (pathname (nextUrl request))); [split; reflexivity|].
  split; [|discriminate].
  destruct (cookies request !! "access_token") as [token|]; [|discriminate].
  destruct (forward request token) as [r|] eqn:E; [|discriminate].
  destruct (forward_own_headers _ _ _ E) as (id & email & role & -> & _).
  discriminate.
Qed.

(** X6.  Whenever the gate redirects, it redirects to [/login] on the
    origin of the request, and that page is public: a request for the
    target passes the gate, so there is no second redirect. *)
Theorem redirects_lead_to_a_public_page (request : NextRequest) (u : URL) :
  middleware request = Redirect u ->
  u = new_URL "/login" (nextUrl request)
  /\ forall request', nextUrl request' = u -> middleware request' = Next None.
Proof.
  intros Hm.
  assert (Hu : u = new_URL "/login" (nextUrl request)).
  { revert Hm. unfold middleware.
    destruct (is_public _); [discriminate|].
    destruct (cookies request !! "access_token") as [token|];
      [|intros [= <-]; reflexivity].
    destruct (forward request token) as [response|] eqn:E;
      [|intros [= <-]; reflexivity].
    destruct (forward_own_headers _ _ _ E) as (id & email & role & -> & _).
    discriminate. }
  split; [exact Hu|]. intros request' Hr. unfold middleware. rewrite Hr, Hu.
  reflexivity.
Qed.

(** X7.  When the gate forwards a request on a path that is not public, the
    three user headers of the forwarded request come from the token alone:
    whatever request headers the client sent, [x-user-id], [x-user-email]
    and [x-user-role] are overwritten with the same three values, and the
    other headers are kept. *)
Theorem user_headers_are_overwritten (request : NextRequest)
    (r : option (gmap string string)) :
  is_public (pathname (nextUrl request)) = false ->
  middleware request = Next r ->
  exists id email role,
    r = Some (<["x-user-role" := role]>
                (<["x-user-email" := email]>
                   (<["x-user-id" := id]> (headers request))))
    /\ forall h,
         middleware (with_headers h request)
         = Next (Some (<["x-user-role" := role]>
                         (<["x-user-email" := email]>
                            (<["x-user-id" := id]> h)))).
Proof.
  intros Hpub. unfold middleware. cbn [with_headers nextUrl cookies].
  rewrite Hpub.
  destruct (cookies request !! "access_token") as [token|]; [|discriminate].
  destruct (forward request token) as [response|] eqn:E; [|discriminate].
  destruct (forward_own_headers _ _ _ E) as (id & email & role & -> & Hf).
  intros [= <-]. exists id, email, role. split; [reflexivity|].
  intros h. rewrite Hf. reflexivity.
Qed.

(** X8.  A [sub] claim that is a number (a non-negative integer that a
    JavaScript number holds exactly) reaches the downstream handlers as its
    decimal text in [x-user-id]. *)
Theorem numeric_subject_is_written_in_decimal (request : NextRequest)
    (token : string) (p : list (string * JsValue)) (n : Z) :
  is_public (pathname (nextUrl request)) = false ->
  cookies request !! "access_token" = Some token ->
  decodeJwt token = Normal (JObj p) ->
  own "sub" p = Some (JInt n) ->
  (0 <= n <= 9007199254740992)%Z ->
  claim_typed p "email" = true ->
  claim_typed p "role" = true ->
  middleware request
  = Next (Some (<["x-user-role" := claim_value p "role"]>
                  (<["x-user-email" := claim_value p "email"]>
                     (<["x-user-id" := digits_of n]> (headers request))))).
Proof.
  intros Hpub Hc Hd Hsub Hn Hemail Hrole.
  destruct (AuthGate.claim_text_typed p "email" eq_refl Hemail) as [Eemail Vemail].
  destruct (AuthGate.claim_text_typed p "role" eq_refl Hrole) as [Erole Vrole].
  assert (Esub : claim_text (JObj p) "sub" = Normal (digits_of n)).
  { unfold claim_text, Get. rewrite Hsub.
    change (default (inherited (JObj p) "sub") (Some (JInt n)))
      with (JNum (Dec n 0)).
    cbn [mbind Completion_bind opt_toString ToString].
    rewrite (Number_toString_id n) by lia. unfold or_else.
    pose proof (digits_of_nonempty n) as Hne.
    destruct (digits_of n); [discriminate|reflexivity]. }
  assert (Vsub : all_chars visible (digits_of n) = true).
  { unfold digits_of. apply (all_chars_impl is_digit); [apply digit_visible|].
    apply digits_are_digits. }
  unfold middleware, forward. rewrite Hpub, Hc, Hd. cbn [mbind Completion_bind].
  rewrite Esub. cbn [mbind Completion_bind].
  rewrite (AuthGate.Headers_set_visible _ _ _ Vsub). cbn [mbind Completion_bind].
  rewrite Eemail. cbn [mbind Completion_bind].
  rewrite (AuthGate.Headers_set_visible _ _ _ Vemail). cbn [mbind Completion_bind].
  rewrite Erole. cbn [mbind Completion_bind].
  rewrite (AuthGate.Headers_set_visible _ _ _ Vrole). reflexivity.
Qed.

End Gate.

Import Scenario.

Lemma gate_passes_public_prefixes_only_witness :
  middleware (H := UtcHost.host) (request_for "/loginx/secret" ∅) = Next None
  /\ middleware (H := UtcHost.host) (request_for "/healthcheck" ∅) = Next None.
Proof.
  split.
  - apply (proj2 (gate_passes_public_prefixes_only (H := UtcHost.host)
                    (request_for "/loginx/secret" ∅))).
    exists "/login", "x/secret". split; [|reflexivity].
    unfold PUBLIC_PATHS. set_solver.
  - apply (proj2 (gate_passes_public_prefixes_only (H := UtcHost.host)
                    (request_for "/healthcheck" ∅))).
    exists "/health", "check". split; [|reflexivity].
    unfold PUBLIC_PATHS. set_solver.
Defined.

Lemma redirects_lead_to_a_public_page_witness :
  middleware (H := UtcHost.host) (request_for "/login" ∅) = Next None.
Proof.
  apply (proj2 (redirects_lead_to_a_public_page (H := UtcHost.host)
                  req_anonymous (site "/login") ltac:(vm_compute; reflexivity))).
  reflexivity.
Defined.

Lemma user_headers_are_overwritten_witness :
  exists id email role,
    middleware (H := UtcHost.host) req_doctor
    = Next (Some (<["x-user-role" := role]>
                    (<["x-user-email" := email]>
                       (<["x-user-id" := id]> (headers req_doctor)))))
    /\ middleware (H := UtcHost.host) req_spoofed
       = Next (Some (<["x-user-role" := role]>
                       (<["x-user-email" := email]>
                          (<["x-user-id" := id]> (headers req_spoofed))))).
Proof.
  destruct (user_headers_are_overwritten (H := UtcHost.host) req_doctor
              (Some (user_headers payload_doctor (headers req_doctor)))
              ltac:(vm_compute; reflexivity) ltac:(vm_compute; reflexivity))
    as (id & email & role & Hr & Hall).
  exists id, email, role. split.
  - rewrite <- Hr. vm_compute. reflexivity.
  - exact (Hall (headers req_spoofed)).
Defined.

Lemma numeric_subject_is_written_in_decimal_witness :
  middleware (H := UtcHost.host) req_numeric
  = Next (Some (<["x-user-role" := "doctor"]>
                  (<["x-user-email" := "doc@heart.org"]>
                     (<["x-user-id" := "42"]> (headers req_numeric))))).
Proof.
  apply (numeric_subject_is_written_in_decimal (H := UtcHost.host) req_numeric
           token_numeric payload_numeric 42);
    try (vm_compute; reflexivity).
  lia.
Defined.

End GatePaths.

(** ** The API client: its interceptors and [login] *)

Module ClientInterceptors.
Import Js Api JsFacts.

Section Client.

Context `{Host} {Server : Type}.
Variable serve : Server -> HttpRequest -> Server * HttpOutcome.

(** The request that [request] adds to the log. *)
Lemma request_log (m u : string) (extra : gmap string string) (payload : JsValue)
    (w : World Server) :
  sent (apiClient.request serve m u extra payload w).1
  = sent w ++ [{| method := m; url := u;
                  req_headers := apiClient.headers_of (browser w) extra payload;
                  body := payload |}].
Proof.
  unfold apiClient.request. destruct (serve _ _) as [srv [st d|]]; [|reflexivity].
  destruct ((200 <=? st) && (st <? 300))%Z; [reflexivity|].
  destruct (st =? 401)%Z; reflexivity.
Qed.

(** What [request] can do to the browser. *)
Lemma request_browser (m u : string) (extra : gmap string string)
    (payload : JsValue) (w : World Server) :
  browser (apiClient.request serve m u extra payload w).1 = browser w
  \/ ((exists d, (apiClient.request serve m u extra payload w).2
                 = Throw (AxiosError (Some (401%Z, d))))
      /\ browser (apiClient.request serve m u extra payload w).1
         = navigate "/login" (localStorage_removeItem "access_token" (browser w))).
Proof.
  unfold apiClient.request. destruct (serve _ _) as [srv [st d|]]; [|left; reflexivity].
  destruct ((200 <=? st) && (st <? 300))%Z; [left; reflexivity|].
  destruct (st =? 401)%Z eqn:E; [|left; reflexivity].
  right. apply Z.eqb_eq in E as ->. split; [exists d|]; reflexivity.
Qed.

(** A login that returns has stored the text of [access_token]. *)
Lemma login_returns (email password : string) (w w' : World Server)
    (answer : JsValue) :
  apiClient.login serve email password w = (w', Normal answer) ->
  exists w1 v text,
    w1 = (apiClient.request serve "POST" "/api/v1/auth/login"
            {["Content-Type" := "application/x-www-form-urlencoded"]}
            (JObj [("username", JStr email); ("password", JStr password)]) w).1
    /\ Get answer "access_token" = Normal v
    /\ ToString v = Normal text
    /\ w' = with_browser
              (localStorage_setItem "access_token" text
                 (set_document_cookie ("access_token=" +:+ text) (browser w1))) w1.
Proof.
  unfold apiClient.login.
  destruct (apiClient.request serve _ _ _ _ w) as [w1 [response|e]]; [|discriminate].
  destruct (Get (data response) "access_token") as [v|e] eqn:Hv; [|discriminate].
  destruct (ToString v) as [text|e] eqn:Ht; [|discriminate].
  intros [= <- <-]. exists w1, v, text. repeat split; assumption.
Qed.

(** A login that throws leaves the world as the request left it. *)
Lemma login_throws (email password : string) (w w' : World Server) (e : JsError) :
  apiClient.login serve email password w = (w', Throw e) ->
  w' = (apiClient.request serve "POST" "/api/v1/auth/login"
          {["Content-Type" := "application/x-www-form-urlencoded"]}
          (JObj [("username", JStr email); ("password", JStr password)]) w).1.
Proof.
  unfold apiClient.login.
  destruct (apiClient.request serve _ _ _ _ w) as [w1 [response|e1]];
    [|intros [= <- _]; reflexivity].
  destruct (Get (data response) "access_token") as [v|e1];
    [|intros [= <- _]; reflexivity].
  destruct (ToString v) as [text|e1]; [discriminate|intros [= <- _]; reflexivity].
Qed.

(** The headers of a request but for [Authorization]. *)
Lemma headers_of_other (b : Browser) (extra : gmap string string)
    (payload : JsValue) (k : string) :
  k <> "Authorization" ->
  apiClient.headers_of b extra payload !! k
  = match payload with
    | JUndefined =>
        if String.eqb k "Content-Type" then None
        else (extra ∪ apiClient.default_headers) !! k
    | _ => (extra ∪ apiClient.default_headers) !! k
    end.
Proof.
  intros Hk.
  assert (Ha : apiClient.with_auth b (extra ∪ apiClient.default_headers) !! k
               = (extra ∪ apiClient.default_headers) !! k).
  { unfold apiClient.with_auth.
    destruct (localStorage b !! "access_token") as [token|]; [|reflexivity].
    destruct (is_empty token); [reflexivity|].
    apply lookup_insert_ne. congruence. }
  unfold apiClient.headers_of. cbv zeta.
  destruct payload; try exact Ha.
  destruct (String.eqb_spec k "Content-Type") as [->|Hne].
  - apply lookup_delete_eq.
  - rewrite lookup_delete_ne by congruence. exact Ha.
Qed.

Lemma headers_of_authorization (b : Browser) (extra : gmap string string)
    (payload : JsValue) :
  apiClient.headers_of b extra payload !! "Authorization"
  = match localStorage b !! "access_token" with
    | Some token =>
        if is_empty token then extra !! "Authorization"
        else Some ("Bearer " +:+ token)
    | None => extra !! "Authorization"
    end.
Proof.
  assert (Hd : (extra ∪ apiClient.default_headers) !! "Authorization"
               = extra !! "Authorization").
  { apply lookup_union_l. reflexivity. }
  assert (Ha : apiClient.with_auth b (extra ∪ apiClient.default_headers)
               !! "Authorization"
               = match localStorage b !! "access_token" with
                 | Some token =>
                     if is_empty token then extra !! "Authorization"
                     else Some ("Bearer " +:+ token)
                 | None => extra !! "Authorization"
                 end).
  { unfold apiClient.with_auth.
    destruct (localStorage b !! "access_token") as [token|]; [|exact Hd].
    destruct (is_empty token); [exact Hd|apply lookup_insert_eq]. }
  unfold apiClient.headers_of. cbv zeta.
  destruct payload; try exact Ha.
  rewrite lookup_delete_ne by discriminate. exact Ha.
Qed.

(** X9.  The request interceptor: every request of the client carries
    [Authorization: Bearer <token>] when local storage holds a non-empty
    [access_token] at that moment, and otherwise no such header of the
    client's making.  It carries the [Accept] header of the call or else
    the default of axios, and the [Content-Type] of the call or else
    [application/json], but no [Content-Type] at all when it has no data. *)
Theorem request_carries_the_stored_token (m u : string)
    (extra : gmap string string) (payload : JsValue) (w : World Server) :
  exists req,
    sent (apiClient.request serve m u extra payload w).1 = sent w ++ [req]
    /\ method req = m /\ url req = u /\ body req = payload
    /\ req_headers req !! "Authorization"
       = match localStorage (browser w) !! "access_token" with
         | Some token =>
             if is_empty token then extra !! "Authorization"
             else Some ("Bearer " +:+ token)
         | None => extra !! "Authorization"
         end
    /\ req_headers req !! "Content-Type"
       = match payload with
         | JUndefined => None
         | _ => Some (default "application/json" (extra !! "Content-Type"))
         end
    /\ req_headers req !! "Accept"
       = Some (default "application/json, text/plain, */*" (extra !! "Accept")).
Proof.
  eexists. split; [apply request_log|]. cbn [method url body req_headers].
  do 3 (split; [reflexivity|]).
  split; [apply headers_of_authorization|].
  assert (Hct : (extra ∪ apiClient.default_headers) !! "Content-Type"
                = Some (default "application/json" (extra !! "Content-Type"))).
  { rewrite lookup_union. unfold apiClient.default_headers.
    rewrite lookup_insert_ne by discriminate. rewrite lookup_singleton_eq.
    destruct (extra !! "Content-Type"); reflexivity. }
  assert (Hacc : (extra ∪ apiClient.default_headers) !! "Accept"
                 = Some (default "application/json, text/plain, */*"
                           (extra !! "Accept"))).
  { rewrite lookup_union. unfold apiClient.default_headers.
    rewrite lookup_insert_eq. destruct (extra !! "Accept"); reflexivity. }
  split.
  - rewrite headers_of_other by discriminate.
    destruct payload; try exact Hct. reflexivity.
  - rewrite headers_of_other by discriminate. destruct payload; exact Hacc.
Qed.

(** X10.  The response interceptor: a request never changes the cookie
    jar.  On an answer with status 401 it removes [access_token] from local
    storage and sends the browser to [/login], and the [access_token] cookie
    stays; on every other outcome the browser is left as it was. *)
Theorem unauthorized_answer_clears_local_storage_only (m u : string)
    (extra : gmap string string) (payload : JsValue) (w : World Server) :
  let result := apiClient.request serve m u extra payload w in
  cookie_jar (browser result.1) = cookie_jar (browser w)
  /\ submitted result.1 = submitted w
  /\ (forall d, result.2 = Throw (AxiosError (Some (401%Z, d))) ->
        localStorage (browser result.1)
        = delete "access_token" (localStorage (browser w))
        /\ location (browser result.1) = Some "/login")
  /\ ((forall d, result.2 <> Throw (AxiosError (Some (401%Z, d)))) ->
      browser result.1 = browser w).
Proof.
  cbv zeta. unfold apiClient.request. destruct (serve _ _) as [srv [st d|]].
  - destruct ((200 <=? st) && (st <? 300))%Z.
    + cbn. do 2 (split; [reflexivity|]). split; [discriminate|reflexivity].
    + destruct (st =? 401)%Z eqn:E; cbn; do 2 (split; [reflexivity|]); split.
      * intros _ _. split; reflexivity.
      * intros Hne. apply Z.eqb_eq in E as ->. destruct (Hne d). reflexivity.
      * intros d' [= -> _]. rewrite Z.eqb_refl in E. discriminate.
      * reflexivity.
  - cbn. do 2 (split; [reflexivity|]). split; [discriminate|reflexivity].
Qed.


(** X12.  When the answer to a login has no [access_token], the text
    [undefined] is stored as the token, in the cookie and in local storage;
    the gate then redirects every request for a page that is not public to
    [/login]. *)
Theorem login_without_token_stores_undefined (email password : string)
    (w w' : World Server) (answer : JsValue) :
  apiClient.login serve email password w = (w', Normal answer) ->
  Get answer "access_token" = Normal JUndefined ->
  cookie_jar (browser w') !! "access_token" = Some "undefined"
  /\ localStorage (browser w') !! "access_token" = Some "undefined"
  /\ (forall u : Middleware.URL,
        Middleware.is_public (Middleware.pathname u) = false ->
        Middleware.middleware (page_request (browser w') u)
        = Middleware.Redirect (Middleware.new_URL "/login" u)).
Proof.
  intros Hlogin Hget.
  destruct (login_returns _ _ _ _ _ Hlogin) as (w1 & v & text & _ & Hv & Ht & ->).
  rewrite Hget in Hv. injection Hv as <-. cbn in Ht. injection Ht as <-.
  assert (Hjar : cookie_jar (browser (with_browser
            (localStorage_setItem "access_token" "undefined"
               (set_document_cookie ("access_token=" +:+ "undefined") (browser w1))) w1))
          !! "access_token" = Some "undefined").
  { cbn [with_browser browser localStorage_setItem cookie_jar].
    rewrite (TokenStorage.set_access_token_cookie "undefined" _ ltac:(reflexivity)).
    apply lookup_insert_eq. }
  split; [exact Hjar|]. split.
  - cbn. apply lookup_insert_eq.
  - intros u Hpub. unfold Middleware.middleware.
    cbn [page_request Middleware.nextUrl Middleware.cookies].
    rewrite Hpub, Hjar. reflexivity.
Qed.

(** X13.  A login that throws stores no token: the cookie jar is as it
    was, and local storage is as it was or, after a 401, without its
    [access_token]. *)
Theorem rejected_login_stores_no_token (email password : string)
    (w w' : World Server) (e : JsError) :
  apiClient.login serve email password w = (w', Throw e) ->
  cookie_jar (browser w') = cookie_jar (browser w)
  /\ (localStorage (browser w') = localStorage (browser w)
      \/ localStorage (browser w') = delete "access_token" (localStorage (browser w))).
Proof.
  intros Hlogin. rewrite (login_throws _ _ _ _ _ Hlogin).
  destruct (request_browser "POST" "/api/v1/auth/login"
              {["Content-Type" := "application/x-www-form-urlencoded"]}
              (JObj [("username", JStr email); ("password", JStr password)]) w)
    as [->|[_ ->]].
  - split; [reflexivity|left; reflexivity].
  - split; [reflexivity|right; reflexivity].
Qed.

End Client.

Import Scenario.

Lemma request_carries_the_stored_token_witness :
  exists req,
    sent (apiClient.request scripted "GET" "/api/v1/patients" ∅ JUndefined
            (world_scripted browser_doctor [])).1 = [req]
    /\ req_headers req !! "Authorization" = Some ("Bearer " +:+ token_doctor)
    /\ req_headers req !! "Content-Type" = None
    /\ req_headers req !! "Accept" = Some "application/json, text/plain, */*".
Proof.
  destruct (request_carries_the_stored_token scripted "GET" "/api/v1/patients"
              ∅ JUndefined (world_scripted browser_doctor []))
    as (req & Hs & _ & _ & _ & Ha & Hct & Hacc).
  exists req. split; [exact Hs|]. split; [exact Ha|]. split; [exact Hct|].
  exact Hacc.
Defined.

Lemma unauthorized_answer_clears_local_storage_only_witness :
  let w' := (apiClient.request scripted "GET" "/api/v1/patients" ∅ JUndefined
               (world_scripted browser_doctor [unauthorized])).1 in
  localStorage (browser w') !! "access_token" = None
  /\ cookie_jar (browser w') !! "access_token" = Some token_doctor
  /\ location (browser w') = Some "/login".
Proof.
  pose proof (unauthorized_answer_clears_local_storage_only scripted
                "GET" "/api/v1/patients" ∅ JUndefined
                (world_scripted browser_doctor [unauthorized]))
    as (Hjar & _ & H401 & _).
  destruct (H401 (JObj [("detail", JStr "Could not validate credentials")])
              ltac:(reflexivity)) as [Hl Hloc].
  cbv zeta. rewrite Hl, Hjar, Hloc. repeat split.
Defined.


Lemma login_without_token_stores_undefined_witness :
  let w' := (apiClient.login (H := UtcHost.host) scripted "doc@heart.org" "s3cret"
               (world_scripted browser0
                  [Answer 200 (JObj [("token_type", JStr "bearer")])])).1 in
  localStorage (browser w') !! "access_token" = Some "undefined"
  /\ Middleware.middleware (H := UtcHost.host)
       (page_request (browser w') (site "/patients"))
     = Middleware.Redirect (site "/login").
Proof.
  pose proof (login_without_token_stores_undefined (H := UtcHost.host) scripted
                "doc@heart.org" "s3cret"
                (world_scripted browser0
                   [Answer 200 (JObj [("token_type", JStr "bearer")])])
                (apiClient.login (H := UtcHost.host) scripted "doc@heart.org" "s3cret"
                   (world_scripted browser0
                      [Answer 200 (JObj [("token_type", JStr "bearer")])])).1
                (JObj [("token_type", JStr "bearer")])
                ltac:(vm_compute; reflexivity) ltac:(vm_compute; reflexivity))
    as (_ & Hl & Hg).
  cbv zeta. split; [exact Hl|].
  apply (Hg (site "/patients")). vm_compute. reflexivity.
Defined.

Lemma rejected_login_stores_no_token_witness :
  cookie_jar (browser (apiClient.login (H := UtcHost.host) EntityStore.serve
                         "doc@heart.org" "wrong" world0).1) = ∅.
Proof.
  apply (rejected_login_stores_no_token (H := UtcHost.host) EntityStore.serve
           "doc@heart.org" "wrong" world0 _
           (AxiosError (Some (401%Z, JObj [("kind", JStr "Unauthenticated")])))).
  vm_compute. reflexivity.
Defined.

End ClientInterceptors.

(** ** The authentication provider *)

Module AuthProvider.
Import Js Api JsFacts UseAuthProvider.

Section Provider.

Context `{Host} {Server : Type}.
Variable serve : Server -> HttpRequest -> Server * HttpOutcome.

(** A [login] that throws has set the one error message and kept the
    user. *)
Lemma login_throw_state (email password : string) (st : State) (w : World Server)
    (e : JsError) :
  (login serve email password st w).2 = Throw e ->
  error (login serve email password st w).1.1 = Some "Invalid email or password"
  /\ user (login serve email password st w).1.1 = user st.
Proof.
  unfold login.
  destruct (apiClient.login serve email password w) as [w1 [answer|e1]];
    [|intros _; split; reflexivity].
  destruct (apiClient.getCurrentUser serve w1) as [w2 [response|e2]];
    [discriminate|intros _; split; reflexivity].
Qed.

(** X14.  [logout] forgets the user, removes [access_token] from local
    storage and goes to [/login]; it sends nothing to the backend and
    leaves the cookie jar alone, so the gate decides on the next page
    request exactly as it did before the logout. *)
Theorem logout_keeps_the_cookie (st : State) (w : World Server) :
  user (logout st w).1 = JNull
  /\ localStorage (browser (logout st w).2) !! "access_token" = None
  /\ location (browser (logout st w).2) = Some "/login"
  /\ cookie_jar (browser (logout st w).2) = cookie_jar (browser w)
  /\ sent (logout st w).2 = sent w
  /\ server (logout st w).2 = server w
  /\ (forall u : Middleware.URL,
        Middleware.middleware (page_request (browser (logout st w).2) u)
        = Middleware.middleware (page_request (browser w) u)).
Proof.
  unfold logout. cbn. repeat split. apply lookup_delete_eq.
Qed.

(** X15.  When the provider is mounted: without a token in local storage
    (none, or the empty text) nothing is sent and only [loading] is cleared.
    With a token, one [GET /api/v1/auth/me] carrying it is sent and the
    cookie jar is untouched; the answer becomes the user, and a rejection
    removes the token from local storage and leaves the user as it was. *)
Theorem initAuth_checks_the_stored_token (st : State) (w : World Server) :
  (or_else (localStorage (browser w) !! "access_token") "" = "" ->
   initAuth serve st w = (setLoading false st, w))
  /\ (forall token,
        localStorage (browser w) !! "access_token" = Some token ->
        is_empty token = false ->
        (exists req,
           sent (initAuth serve st w).2 = sent w ++ [req]
           /\ method req = "GET" /\ url req = "/api/v1/auth/me"
           /\ req_headers req !! "Authorization" = Some ("Bearer " +:+ token))
        /\ cookie_jar (browser (initAuth serve st w).2) = cookie_jar (browser w)
        /\ (forall w1 response,
              apiClient.getCurrentUser serve w = (w1, Normal response) ->
              initAuth serve st w = (setLoading false (setUser (data response) st), w1))
        /\ (forall w1 e,
              apiClient.getCurrentUser serve w = (w1, Throw e) ->
              (initAuth serve st w).1 = setLoading false st
              /\ localStorage (browser (initAuth serve st w).2) !! "access_token"
                 = None)).
Proof.
  split.
  - unfold initAuth, or_else.
    destruct (localStorage (browser w) !! "access_token") as [token|]; [|reflexivity].
    destruct (is_empty token) eqn:E; [reflexivity|].
    intros ->. discriminate.
  - intros token Htoken Hne. unfold initAuth. rewrite Htoken, Hne.
    pose proof (ClientInterceptors.request_log serve "GET" "/api/v1/auth/me" ∅
                  JUndefined w) as Hlog.
    pose proof (ClientInterceptors.request_browser serve "GET" "/api/v1/auth/me" ∅
                  JUndefined w) as Hb.
    unfold apiClient.getCurrentUser, apiClient.get.
    destruct (apiClient.request serve "GET" "/api/v1/auth/me" ∅ JUndefined w)
      as [w1 [response|e]]; cbn [fst snd] in *.
    + split; [|split; [|split]].
      * eexists. split; [exact Hlog|]. cbn [method url req_headers].
        repeat split. rewrite ClientInterceptors.headers_of_authorization.
        rewrite Htoken, Hne. reflexivity.
      * destruct Hb as [->|[_ ->]]; reflexivity.
      * intros w2 r [= <- <-]. reflexivity.
      * intros w2 e [=].
    + split; [|split; [|split]].
      * eexists. split; [exact Hlog|]. cbn [method url req_headers].
        repeat split. rewrite ClientInterceptors.headers_of_authorization.
        rewrite Htoken, Hne. reflexivity.
      * cbn. destruct Hb as [->|[_ ->]]; reflexivity.
      * intros w2 r [=].
      * intros w2 e' _. split; [reflexivity|]. cbn. apply lookup_delete_eq.
Qed.

(** X16.  When the token request of [login] succeeds and the request for
    the current user is rejected, the hook reports a failed login (the
    message, the rethrown error, the user unchanged) although the token is
    already in the cookie that the gate reads, where it stays. *)
Theorem login_failure_keeps_the_cookie (email password token : string)
    (st : State) (w w1 w2 : World Server) (answer : JsValue) (e : JsError) :
  apiClient.login serve email password w = (w1, Normal answer) ->
  Get answer "access_token" = Normal (JStr token) ->
  token_text token = true ->
  apiClient.getCurrentUser serve w1 = (w2, Throw e) ->
  login serve email password st w
  = (setError (Some "Invalid email or password") (setError None st), w2, Throw e)
  /\ user (login serve email password st w).1.1 = user st
  /\ cookie_jar (browser w2) !! "access_token" = Some token.
Proof.
  intros Hlogin Hget Htoken Hme. unfold login. rewrite Hlogin, Hme.
  split; [reflexivity|]. split; [reflexivity|].
  destruct (ClientInterceptors.login_returns serve _ _ _ _ _ Hlogin)
    as (w0 & v & text & _ & Hv & Ht & ->).
  rewrite Hget in Hv. injection Hv as <-. cbn in Ht. injection Ht as <-.
  unfold apiClient.getCurrentUser, apiClient.get in Hme.
  pose proof (ClientInterceptors.request_browser serve "GET" "/api/v1/auth/me" ∅
                JUndefined
                (with_browser
                   (localStorage_setItem "access_token" token
                      (set_document_cookie ("access_token=" +:+ token) (browser w0)))
                   w0)) as Hb.
  rewrite Hme in Hb. cbn [fst snd] in Hb.
  assert (Hjar : cookie_jar (browser w2)
                 = cookie_jar (set_document_cookie ("access_token=" +:+ token)
                                 (browser w0))).
  { destruct Hb as [->|[_ ->]]; reflexivity. }
  rewrite Hjar, (TokenStorage.set_access_token_cookie token _ Htoken).
  apply lookup_insert_eq.
Qed.

(** X17.  [login] of the provider tells no failure from another: whatever
    is thrown (wrong credentials, no network, a rejected request for the
    current user) the error message is [Invalid email or password] and the
    user is kept.  When it returns, the error is cleared and exactly two
    requests were sent, the token request and then the request for the
    current user. *)
Theorem login_has_one_error_message (email password : string) (st : State)
    (w : World Server) :
  (forall e, (login serve email password st w).2 = Throw e ->
     error (login serve email password st w).1.1 = Some "Invalid email or password"
     /\ user (login serve email password st w).1.1 = user st)
  /\ ((login serve email password st w).2 = Normal tt ->
      error (login serve email password st w).1.1 = None
      /\ exists r1 r2,
           sent (login serve email password st w).1.2 = sent w ++ [r1; r2]
           /\ method r1 = "POST" /\ url r1 = "/api/v1/auth/login"
           /\ method r2 = "GET" /\ url r2 = "/api/v1/auth/me").
Proof.
  split; [intros e; apply login_throw_state|].
  unfold login.
  destruct (apiClient.login serve email password w) as [w1 [answer|e1]] eqn:Hlogin;
    [|discriminate].
  pose proof (ClientInterceptors.request_log serve "GET" "/api/v1/auth/me" ∅
                JUndefined w1) as Hlog2.
  unfold apiClient.getCurrentUser, apiClient.get.
  destruct (apiClient.request serve "GET" "/api/v1/auth/me" ∅ JUndefined w1)
    as [w2 [response|e2]]; [|discriminate].
  intros _. split; [reflexivity|]. cbn [fst snd] in *.
  destruct (ClientInterceptors.login_returns serve _ _ _ _ _ Hlogin)
    as (w0 & v & text & Hw0 & _ & _ & ->).
  cbn [with_browser sent] in Hlog2.
  pose proof (ClientInterceptors.request_log serve "POST" "/api/v1/auth/login"
                {["Content-Type" := "application/x-www-form-urlencoded"]}
                (JObj [("username", JStr email); ("password", JStr password)]) w)
    as Hlog1.
  rewrite <- Hw0 in Hlog1. rewrite Hlog1, <- app_assoc in Hlog2.
  eexists _, _. split; [exact Hlog2|]. repeat split.
Qed.

(** X18.  [register] reports every failure as [Registration failed], also
    a failure of the login that follows a successful registration, and
    keeps the user.  When the registration request itself is rejected,
    nothing else is sent: no login is attempted. *)
Theorem register_has_one_error_message (userData : JsValue) (st : State)
    (w : World Server) :
  (forall e, (register serve userData st w).2 = Throw e ->
     error (register serve userData st w).1.1 = Some "Registration failed"
     /\ user (register serve userData st w).1.1 = user st)
  /\ (forall w1 e,
        apiClient.register serve userData w = (w1, Throw e) ->
        register serve userData st w
        = (setError (Some "Registration failed") (setError None st), w1, Throw e)
        /\ exists req,
             sent w1 = sent w ++ [req]
             /\ method req = "POST" /\ url req = "/api/v1/auth/register"
             /\ body req = userData).
Proof.
  split.
  - intros e. unfold register.
    destruct (apiClient.register serve userData w) as [w1 [response|e1]];
      [|intros _; split; reflexivity].
    destruct (Get userData "email") as [email|]; cbn [mbind Completion_bind];
      [|intros _; split; reflexivity].
    destruct (Get userData "password") as [password|]; cbn [mbind Completion_bind];
      [|intros _; split; reflexivity].
    destruct (ToString email) as [username|]; cbn [mbind Completion_bind];
      [|intros _; split; reflexivity].
    destruct (ToString password) as [secret|]; cbn [mbind Completion_bind];
      [|intros _; split; reflexivity].
    pose proof (login_throw_state username secret (setError None st) w1) as Hl.
    destruct (login serve username secret (setError None st) w1)
      as [[st2 w2] [[]|e2]]; [discriminate|].
    intros _. split; [reflexivity|].
    destruct (Hl e2 eq_refl) as [_ Hu]. exact Hu.
  - intros w1 e Hr. unfold register. rewrite Hr. split; [reflexivity|].
    pose proof (ClientInterceptors.request_log serve "POST" "/api/v1/auth/register"
                  ∅ userData w) as Hlog.
    unfold apiClient.register, apiClient.post in Hr. rewrite Hr in Hlog.
    eexists. split; [exact Hlog|]. repeat split.
Qed.

End Provider.

Import Scenario.

Lemma initAuth_checks_the_stored_token_witness :
  initAuth scripted initial (world_scripted browser0 [login_answer])
  = (setLoading false initial, world_scripted browser0 [login_answer])
  /\ localStorage
       (browser (initAuth scripted initial
                   (world_scripted browser_doctor [unauthorized])).2)
     !! "access_token" = None
  /\ cookie_jar
       (browser (initAuth scripted initial
                   (world_scripted browser_doctor [unauthorized])).2)
     = cookie_jar browser_doctor.
Proof.
  pose proof (initAuth_checks_the_stored_token scripted initial
                (world_scripted browser0 [login_answer])) as [Hnone _].
  pose proof (initAuth_checks_the_stored_token scripted initial
                (world_scripted browser_doctor [unauthorized])) as [_ Hsome].
  destruct (Hsome token_doctor ltac:(vm_compute; reflexivity) ltac:(reflexivity))
    as (_ & Hjar & _ & Hfail).
  split; [apply Hnone; reflexivity|]. split; [|exact Hjar].
  eapply Hfail. vm_compute. reflexivity.
Defined.

Lemma login_failure_keeps_the_cookie_witness :
  let result := login (H := UtcHost.host) scripted "doc@heart.org" "s3cret" initial
                  (world_scripted browser0 [login_answer; unauthorized]) in
  error result.1.1 = Some "Invalid email or password"
  /\ cookie_jar (browser result.1.2) !! "access_token" = Some token_doctor
  /\ localStorage (browser result.1.2) !! "access_token" = None.
Proof.
  pose proof (login_failure_keeps_the_cookie (H := UtcHost.host) scripted
                "doc@heart.org" "s3cret" token_doctor initial
                (world_scripted browser0 [login_answer; unauthorized])
                (apiClient.login (H := UtcHost.host) scripted "doc@heart.org" "s3cret"
                   (world_scripted browser0 [login_answer; unauthorized])).1
                (apiClient.getCurrentUser scripted
                   (apiClient.login (H := UtcHost.host) scripted "doc@heart.org"
                      "s3cret"
                      (world_scripted browser0 [login_answer; unauthorized])).1).1
                (JObj [("access_token", JStr token_doctor);
                       ("token_type", JStr "bearer")])
                (AxiosError
                   (Some (401%Z,
                          JObj [("detail", JStr "Could not validate credentials")])))
                ltac:(vm_compute; reflexivity) ltac:(vm_compute; reflexivity)
                ltac:(vm_compute; reflexivity) ltac:(vm_compute; reflexivity))
    as (Hl & _ & Hjar).
  cbv zeta. rewrite Hl. cbn [fst snd]. split; [reflexivity|].
  split; [exact Hjar|]. vm_compute. reflexivity.
Defined.

Lemma login_has_one_error_message_witness :
  error (login (H := UtcHost.host) scripted "doc@heart.org" "s3cret" initial
           (world_scripted browser0 [login_answer; Answer 200 user_doctor])).1.1
  = None
  /\ error (login (H := UtcHost.host) scripted "doc@heart.org" "s3cret" initial
              (world_scripted browser0 [])).1.1
     = Some "Invalid email or password".
Proof.
  pose proof (login_has_one_error_message (H := UtcHost.host) scripted
                "doc@heart.org" "s3cret" initial
                (world_scripted browser0 [login_answer; Answer 200 user_doctor]))
    as [_ Hok].
  pose proof (login_has_one_error_message (H := UtcHost.host) scripted
                "doc@heart.org" "s3cret" initial (world_scripted browser0 []))
    as [Hfail _].
  split.
  - apply Hok. vm_compute. reflexivity.
  - apply (Hfail (AxiosError None)). vm_compute. reflexivity.
Defined.

Lemma register_has_one_error_message_witness :
  error (register (H := UtcHost.host) scripted
           (JObj [("email", JStr "doc@heart.org"); ("password", JStr "s3cret");
                  ("full_name", JStr "Dana Cole")])
           initial
           (world_scripted browser0 [Answer 201 user_doctor; unauthorized])).1.1
  = Some "Registration failed".
Proof.
  apply (proj1 (register_has_one_error_message (H := UtcHost.host) scripted
                  (JObj [("email", JStr "doc@heart.org"); ("password", JStr "s3cret");
                         ("full_name", JStr "Dana Cole")])
                  initial
                  (world_scripted browser0 [Answer 201 user_doctor; unauthorized]))
           (AxiosError
              (Some (401%Z,
                     JObj [("detail", JStr "Could not validate credentials")])))).
  vm_compute. reflexivity.
Defined.

End AuthProvider.

(** ** [usePatients]: the list of patients and the reports *)

Module PatientList.
Import Js Api JsFacts UsePatients.

Section WithBackend.

Context `{Host} {Server : Type}.
Variable serve : Server -> HttpRequest -> Server * HttpOutcome.

(** The requests of a [for] loop that ran to its end. *)
Lemma post_reports_log (patientId : JsValue) (id : string) (reports : list JsValue)
    (w w' : World Server) :
  ToString patientId = Normal id ->
  post_reports serve patientId reports w = (w', Normal tt) ->
  exists reqs,
    sent w' = sent w ++ reqs
    /\ body <$> reqs = reports
    /\ Forall (fun req => method req = "POST"
                          /\ url req = "/api/v1/patients/" +:+ id +:+ "/reports")
         reqs.
Proof.
  intros Hid. revert w. induction reports as [|report rest IH]; intros w; cbn.
  - intros [= <-]. exists []. rewrite app_nil_r. repeat split. constructor.
  - rewrite Hid.
    destruct (PatientHook.request_sent serve "POST"
                ("/api/v1/patients/" +:+ id +:+ "/reports") ∅ report w)
      as (req & Hs & Hm & Hu & Hb).
    unfold apiClient.post.
    destruct (apiClient.request serve _ _ _ _ w) as [w1 [response|e]];
      [|discriminate].
    cbn [fst] in Hs. intros Hrest.
    destruct (IH w1 Hrest) as (reqs & Hs' & Hbodies & Hall).
    exists (req :: reqs). rewrite Hs', Hs, <- app_assoc. repeat split.
    + cbn. rewrite Hb, Hbodies. reflexivity.
    + constructor; [split; assumption|exact Hall].
Qed.

(** [replace_patient] keeps the length and the order of the list. *)
Lemma replace_patient_lookup (patientId : JsNumber) (d : JsValue)
    (prev l : list JsValue) :
  replace_patient patientId d prev = Normal l ->
  length l = length prev
  /\ forall i p, prev !! i = Some p ->
       l !! i = Some (if strict_equals_number (opt_Get p "id") patientId
                      then d else p).
Proof.
  revert l. induction prev as [|p rest IH]; intros l; cbn.
  - intros [= <-]. split; [reflexivity|]. intros i p Hi. discriminate.
  - destruct (Get p "id") as [id|] eqn:Hid; cbn [mbind Completion_bind];
      [|discriminate].
    destruct (replace_patient patientId d rest) as [rest'|];
      cbn [mbind Completion_bind]; [|discriminate].
    intros [= <-]. destruct (IH rest' eq_refl) as [Hlen Hlook].
    split; [cbn; rewrite Hlen; reflexivity|].
    intros [|i] q; cbn.
    + intros [= <-]. f_equal.
      assert (Hq : id = opt_Get p "id").
      { destruct p; cbn in Hid; try discriminate; injection Hid as <-; reflexivity. }
      rewrite Hq. reflexivity.
    + apply Hlook.
Qed.

(** X19.  When [createReports] returns, it returns its own argument, and
    it has sent exactly one [POST] per report, in the order of the list,
    each to the reports of that one patient and with the report as its
    body; for an empty list it sends nothing. *)
Theorem createReports_posts_each_report_once (patientId : JsValue) (id : string)
    (reports rs : list JsValue) (st st' : State) (w w' : World Server) :
  ToString patientId = Normal id ->
  createReports serve patientId reports st w = (st', w', Normal rs) ->
  rs = reports
  /\ error st' = None
  /\ exists reqs,
       sent w' = sent w ++ reqs
       /\ body <$> reqs = reports
       /\ Forall (fun req => method req = "POST"
                             /\ url req = "/api/v1/patients/" +:+ id +:+ "/reports")
            reqs.
Proof.
  intros Hid. unfold createReports.
  destruct (post_reports serve patientId reports w) as [w1 [[]|e]] eqn:Hp;
    [|discriminate].
  intros [= <- <- <-]. split; [reflexivity|]. split; [reflexivity|].
  exact (post_reports_log _ _ _ _ _ Hid Hp).
Qed.

(** X20.  [updatePatient] changes the list of patients in place: after an
    accepted update the list has the same length and the same order, the
    rows whose [id] is the updated identifier are replaced by the answer
    and every other row is kept, so a patient that is not in the list is
    not added; the loaded patient is replaced only when it has that
    identifier.  A rejected update changes neither. *)
Theorem updatePatient_replaces_in_place (patientId : JsNumber) (data : JsValue)
    (st : State) (w : World Server) :
  (forall w1 response st',
     apiClient.put serve ("/api/v1/patients/" +:+ Number_toString patientId) data w
     = (w1, Normal response) ->
     (updatePatient serve patientId data st w).1.1 = Normal st' ->
     (updatePatient serve patientId data st w).2 = Normal (Api.data response)
     /\ length (patients st') = length (patients st)
     /\ (forall i p, patients st !! i = Some p ->
           patients st' !! i
           = Some (if strict_equals_number (opt_Get p "id") patientId
                   then Api.data response else p))
     /\ patient st'
        = (if strict_equals_number (opt_Get (patient st) "id") patientId
           then Api.data response else patient st))
  /\ (forall w1 e,
        apiClient.put serve ("/api/v1/patients/" +:+ Number_toString patientId) data w
        = (w1, Throw e) ->
        exists st',
          updatePatient serve patientId data st w = (Normal st', w1, Throw e)
          /\ patients st' = patients st
          /\ patient st' = patient st
          /\ error st' = Some e).
Proof.
  split.
  - intros w1 response st' Hput. unfold updatePatient. rewrite Hput. cbn [fst snd].
    cbn [setError setLoading patients patient].
    destruct (replace_patient patientId (Api.data response) (patients st))
      as [prev|] eqn:Hprev; cbn [mbind Completion_bind]; [|discriminate].
    destruct (replace_patient_lookup _ _ _ _ Hprev) as [Hlen Hlook].
    intros [= <-]. split; [reflexivity|].
    destruct (strict_equals_number (opt_Get (patient st) "id") patientId);
      cbn; repeat split; assumption.
  - intros w1 e Hput. unfold updatePatient. rewrite Hput.
    eexists. split; [reflexivity|]. repeat split.
Qed.

(** X21.  Pressing "Delete" next to a report sends one
    [DELETE /api/v1/patients/<patient>/reports/<report>] and changes
    neither the loaded patient nor the list of patients of the hook: the
    report stays in the list on the page until the patient is fetched
    again. *)
Theorem deleted_report_stays_listed (patientId : JsNumber) (index : nat)
    (hook : State) (w : World Server) :
  patient (PatientDetailsPage.delete_report serve patientId index hook w).1
  = patient hook
  /\ patients (PatientDetailsPage.delete_report serve patientId index hook w).1
     = patients hook
  /\ (forall reports report id rid,
        Get (patient hook) "reports" = Normal reports ->
        rows_of reports !! index = Some report ->
        Get report "id" = Normal id ->
        ToString id = Normal rid ->
        exists req,
          sent (PatientDetailsPage.delete_report serve patientId index hook w).2
          = sent w ++ [req]
          /\ method req = "DELETE"
          /\ url req = "/api/v1/patients/" +:+ Number_toString patientId
                       +:+ "/reports/" +:+ rid).
Proof.
  assert (Hframe : forall id,
            patient (deleteReports serve id patientId hook w).1.1 = patient hook
            /\ patients (deleteReports serve id patientId hook w).1.1
               = patients hook).
  { intros id. unfold deleteReports.
    destruct (ToString id); [|split; reflexivity].
    destruct (apiClient.delete serve _ w) as [w1 [response|e]]; split; reflexivity. }
  unfold PatientDetailsPage.delete_report.
  destruct (Get (patient hook) "reports") as [reports|] eqn:Hreports.
  2:{ repeat split. intros; discriminate. }
  destruct (rows_of reports !! index) as [report|] eqn:Hreport.
  2:{ repeat split. intros ? ? ? ? [= <-] Hx. rewrite Hreport in Hx. discriminate Hx. }
  destruct (Get report "id") as [id|] eqn:Hid.
  2:{ repeat split. intros ? ? ? ? [= <-] Hx Hy.
      rewrite Hreport in Hx. injection Hx as <-. rewrite Hid in Hy. discriminate Hy. }
  destruct (Hframe id) as [Hp Hps].
  split; [exact Hp|]. split; [exact Hps|].
  intros ? ? ? rid [= <-] Hx Hy Hrid.
  rewrite Hreport in Hx. injection Hx as <-. rewrite Hid in Hy. injection Hy as <-.
  unfold deleteReports. rewrite Hrid.
  destruct (PatientHook.request_sent serve "DELETE"
              ("/api/v1/patients/" +:+ Number_toString patientId
               +:+ "/reports/" +:+ rid) ∅ JUndefined w)
    as (req & Hs & Hm & Hu & _).
  exists req. unfold apiClient.delete.
  destruct (apiClient.request serve _ _ _ _ w) as [w1 [response|e]];
    cbn [fst snd] in *; repeat split; assumption.
Qed.

End WithBackend.

Import Scenario.

Lemma createReports_posts_each_report_once_witness :
  exists reqs,
    sent (createReports (H := UtcHost.host) EntityStore.serve (JInt 7)
            [report_structured; report_structured] initial world0).1.2 = reqs
    /\ body <$> reqs = [report_structured; report_structured]
    /\ Forall (fun req => method req = "POST"
                          /\ url req = "/api/v1/patients/7/reports") reqs.
Proof.
  destruct (createReports_posts_each_report_once (H := UtcHost.host)
              EntityStore.serve (JInt 7) "7"
              [report_structured; report_structured]
              [report_structured; report_structured] initial
              (createReports (H := UtcHost.host) EntityStore.serve (JInt 7)
                 [report_structured; report_structured] initial world0).1.1
              world0
              (createReports (H := UtcHost.host) EntityStore.serve (JInt 7)
                 [report_structured; report_structured] initial world0).1.2
              ltac:(vm_compute; reflexivity) ltac:(vm_compute; reflexivity))
    as (_ & _ & reqs & Hs & Hb & Hall).
  exists reqs. split; [exact Hs|]. split; [exact Hb|exact Hall].
Defined.

Lemma updatePatient_replaces_in_place_witness :
  exists st',
    (updatePatient scripted (Dec 7 0) patient_seven_renamed hook_two_patients
       (world_scripted browser_doctor [Answer 200 patient_seven_renamed])).1.1
    = Normal st'
    /\ patients st' !! 0%nat = Some patient_seven_renamed
    /\ patients st' !! 1%nat = Some patient_eight
    /\ length (patients st') = 2%nat
    /\ patient st' = patient_seven_renamed.
Proof.
  pose proof (updatePatient_replaces_in_place scripted (Dec 7 0)
                patient_seven_renamed hook_two_patients
                (world_scripted browser_doctor [Answer 200 patient_seven_renamed]))
    as [Hok _].
  eexists. split; [vm_compute; reflexivity|].
  match goal with
  | |- patients ?s !! _ = _ /\ _ =>
      destruct (Hok (apiClient.put scripted "/api/v1/patients/7"
                       patient_seven_renamed
                       (world_scripted browser_doctor
                          [Answer 200 patient_seven_renamed])).1
                  {| status := 200; data := patient_seven_renamed |} s
                  ltac:(vm_compute; reflexivity) ltac:(vm_compute; reflexivity))
        as (_ & Hlen & Hrows & Hp)
  end.
  split; [|split; [|split]].
  - exact (Hrows 0%nat patient_seven eq_refl).
  - exact (Hrows 1%nat patient_eight eq_refl).
  - exact Hlen.
  - exact Hp.
Defined.

Lemma deleted_report_stays_listed_witness :
  exists req,
    sent (PatientDetailsPage.delete_report (H := UtcHost.host) scripted (Dec 7 0) 0
            hook_two_patients (world_scripted browser_doctor [Answer 200 (JArr [])])).2
    = [req]
    /\ method req = "DELETE" /\ url req = "/api/v1/patients/7/reports/31".
Proof.
  pose proof (deleted_report_stays_listed (H := UtcHost.host) scripted (Dec 7 0) 0
                hook_two_patients
                (world_scripted browser_doctor [Answer 200 (JArr [])]))
    as (_ & _ & Hreq).
  apply (Hreq (opt_Get patient_seven "reports")
           (default JNull (rows_of (opt_Get patient_seven "reports") !! 0%nat))
           (JInt 31) "31");
    vm_compute; reflexivity.
Defined.

End PatientList.

(** ** The new-patient page: its form and its reports *)

Module NewPatientForm.
Import Js Api JsFacts NewPatientPage.

Lemma filter_index_above {A : Type} (l : list A) (k j : nat) :
  (k < j)%nat -> filter_index (fun i => negb (i =? k)%nat) j l = l.
Proof.
  revert j. induction l as [|x r IH]; intros j Hj; cbn [filter_index]; [reflexivity|].
  replace (j =? k)%nat with false by (symmetry; apply Nat.eqb_neq; lia).
  cbn [negb]. f_equal. apply IH. lia.
Qed.

(** Filtering out one index removes the element at that index. *)
Lemma filter_index_drop {A : Type} (l : list A) (k n : nat) :
  filter_index (fun i => negb (i =? k + n)%nat) k l = take n l ++ drop (S n) l.
Proof.
  revert k n. induction l as [|x r IH]; intros k n; cbn [filter_index].
  - destruct n; reflexivity.
  - destruct n as [|n].
    + rewrite Nat.add_0_r, Nat.eqb_refl. cbn [negb take drop app].
      apply filter_index_above. lia.
    + replace (k =? k + S n)%nat with false by (symmetry; apply Nat.eqb_neq; lia).
      cbn [negb take drop app]. f_equal.
      replace (k + S n)%nat with (S k + n)%nat by lia. apply IH.
Qed.

(** Assigning to a property the value it has changes nothing. *)
Lemma obj_set_same (k : string) (v : JsValue) (p : list (string * JsValue)) :
  own k p = Some v -> obj_set k v p = p.
Proof.
  induction p as [|[k' v'] r IH]; cbn; [discriminate|].
  destruct (String.eqb_spec k' k) as [->|_].
  - intros [= ->]. reflexivity.
  - intros Hr. rewrite (IH Hr). reflexivity.
Qed.

Lemma split_parts (s : string) :
  Forall (fun p => all_chars (fun c => negb (Ascii.eqb c ",")) p = true)
    (split "," s).
Proof.
  induction s as [|c r IH]; cbn [split]; [repeat constructor|].
  destruct (Ascii.eqb c ",") eqn:E.
  - constructor; [reflexivity|exact IH].
  - destruct (split "," r) as [|h t]; [repeat constructor; cbn; rewrite E; reflexivity|].
    inversion IH as [|? ? Hh Ht]; subst.
    constructor; [cbn; rewrite E, Hh; reflexivity|exact Ht].
Qed.

(** X22.  [handleDeleteReport] removes the report at the given index and
    no other: the reports before it and after it stay, in their order; an
    index beyond the list changes nothing; deleting the report that was
    added last gives the earlier list back; the patient form is not
    touched. *)
Theorem handleDeleteReport_removes_one (index : nat) (st : State) :
  reports (handleDeleteReport index st)
  = take index (reports st) ++ drop (S index) (reports st)
  /\ ((length (reports st) <= index)%nat ->
      reports (handleDeleteReport index st) = reports st)
  /\ ((index < length (reports st))%nat ->
      S (length (reports (handleDeleteReport index st))) = length (reports st))
  /\ (forall report,
        reports (handleDeleteReport (length (reports st)) (handleAddReport report st))
        = reports st)
  /\ formData (handleDeleteReport index st) = formData st.
Proof.
  assert (Hd : forall i s, reports (handleDeleteReport i s)
                           = take i (reports s) ++ drop (S i) (reports s)).
  { intros i s. unfold handleDeleteReport. cbn [reports].
    apply (filter_index_drop (reports s) 0 i). }
  split; [apply Hd|]. split; [|split; [|split]].
  - intros Hle. rewrite Hd, take_ge, drop_ge by lia. apply app_nil_r.
  - intros Hlt. rewrite Hd, length_app, length_take, length_drop. lia.
  - intros report. rewrite Hd. cbn [handleAddReport reports].
    rewrite take_app_length, drop_ge by (rewrite length_app; cbn; lia).
    apply app_nil_r.
  - reflexivity.
Qed.

Section Page.

Context `{Host} {Server : Type}.
Variable serve : Server -> HttpRequest -> Server * HttpOutcome.

(** X23.  A report whose four collections are arrays already is sent as
    it is: the normalization returns the report itself, with its fields in
    their places. *)
Theorem structured_report_is_sent_unchanged (report : list (string * JsValue))
    (cpt icd pairs events : list JsValue) :
  own "cpt_codes" report = Some (JArr cpt) ->
  own "icd9_codes" report = Some (JArr icd) ->
  own "procedure_pairs" report = Some (JArr pairs) ->
  own "lab_events" report = Some (JArr events) ->
  normalize_report report = Normal report.
Proof.
  intros Hc Hi Hp He. unfold normalize_report, field.
  rewrite Hc, Hi, Hp, He. cbn.
  rewrite (obj_set_same _ _ _ Hc), (obj_set_same _ _ _ Hi),
    (obj_set_same _ _ _ Hp), (obj_set_same _ _ _ He).
  reflexivity.
Qed.

(** X24.  CPT and ICD-9 codes typed as text are cut at the commas and
    nowhere else: the codes, joined with commas again, are the text that
    was typed, character for character (nothing is trimmed and no empty
    code is dropped); no code contains a comma; and there is always at
    least one code, so an empty text gives one empty code. *)
Theorem codes_are_cut_at_commas_only (text : string) :
  exists parts,
    codes_of (JStr text) = Normal (JArr (JStr <$> parts))
    /\ join "," parts = text
    /\ parts <> []
    /\ Forall (fun p => all_chars (fun c => negb (Ascii.eqb c ",")) p = true) parts.
Proof.
  exists (split "," text). split; [reflexivity|].
  split; [apply ReportSubmission.join_split|].
  split; [apply ReportSubmission.split_nonempty|apply split_parts].
Qed.

(** X25.  The date field writes the property [DOB], never
    [date_of_birth].  A value that is no date (the cleared field) makes its
    handler throw a RangeError; a date is stored as its ISO text, and on a
    host that reads its own ISO texts back, [createPatient] then posts that
    very instant as [date_of_birth], next to the text in [DOB]. *)
Theorem date_field_round_trip (value : string) (page : State)
    (hook : UsePatients.State) (w : World Server) :
  (Date_parse value = None -> handleDateChange value page = Throw RangeError)
  /\ (forall t,
        Date_parse value = Some t ->
        handleDateChange value page
        = Normal (handleInputChange "DOB" (JStr (Date_toISOString t)) page)
        /\ (Date_parse (Date_toISOString t) = Some t ->
            exists req,
              sent (UsePatients.createPatient serve
                      (formData (handleInputChange "DOB"
                                   (JStr (Date_toISOString t)) page)) hook w).1.2
              = sent w ++ [req]
              /\ method req = "POST" /\ url req = "/api/v1/patients"
              /\ Get (body req) "date_of_birth" = Normal (JDate (Some t))
              /\ Get (body req) "DOB" = Normal (JStr (Date_toISOString t)))).
Proof.
  split.
  - intros Hp. unfold handleDateChange. cbn. rewrite Hp. reflexivity.
  - intros t Hp. split.
    + unfold handleDateChange. cbn. rewrite Hp. reflexivity.
    + intros Hiso. cbn [handleInputChange formData].
      unfold UsePatients.createPatient.
      rewrite own_obj_set_eq.
      change (new_Date (default JUndefined (Some (JStr (Date_toISOString t)))))
        with (Normal (A := JsValue) (JDate (Date_parse (Date_toISOString t)))).
      rewrite Hiso.
      destruct (PatientHook.request_sent serve "POST" "/api/v1/patients" ∅
                  (JObj (obj_set "date_of_birth" (JDate (Some t))
                           (obj_set "DOB" (JStr (Date_toISOString t)) (formData page)))) w)
        as (req & Hs & Hm & Hu & Hb).
      exists req. unfold apiClient.post.
      destruct (apiClient.request serve _ _ _ _ w) as [w1 [response|e]];
        cbn [fst snd] in *.
      all: repeat split; try assumption.
      all: rewrite Hb; cbn [Get]; try rewrite own_obj_set_eq; try reflexivity.
      all: rewrite own_obj_set_ne by discriminate; rewrite own_obj_set_eq; reflexivity.
Qed.

(** X26.  Submitting the new-patient page always ends with [loading]
    cleared, and the page goes on to [/patients] exactly when everything
    went through: the patient was created, its answer has a readable [id],
    every report could be normalized, and every report was accepted. *)
Theorem page_leaves_only_after_full_success (page : State)
    (hook : UsePatients.State) (w : World Server) :
  route page = None ->
  loading (handleSubmit serve page hook w).1.1 = false
  /\ (route (handleSubmit serve page hook w).1.1 = Some "/patients"
      <-> exists hook1 w1 patient id normalized,
            UsePatients.createPatient serve (formData page) hook w
            = (hook1, w1, Normal patient)
            /\ Get patient "id" = Normal id
            /\ normalize_all (reports page) = Normal normalized
            /\ (UsePatients.createReports serve id normalized hook1 w1).2
               = Normal normalized).
Proof.
  intros Hroute. unfold handleSubmit.
  change (formData (setLoading true page)) with (formData page).
  change (reports (setLoading true page)) with (reports page).
  destruct (UsePatients.createPatient serve (formData page) hook w)
    as [[hook1 w1] [patient|e]].
  2:{ cbn. split; [reflexivity|]. rewrite Hroute. split; [discriminate|].
      intros (? & ? & ? & ? & ? & Hx & _). discriminate Hx. }
  destruct (Get patient "id") as [id|e] eqn:Hid.
  2:{ cbn. split; [reflexivity|]. rewrite Hroute. split; [discriminate|].
      intros (? & ? & ? & ? & ? & Hx & Hy & _).
      injection Hx as <- <- <-. rewrite Hid in Hy. discriminate Hy. }
  destruct (normalize_all (reports page)) as [normalized|e] eqn:Hn.
  2:{ cbn. split; [reflexivity|]. rewrite Hroute. split; [discriminate|].
      intros (? & ? & ? & ? & ? & _ & _ & Hx & _). discriminate Hx. }
  destruct (UsePatients.createReports serve id normalized hook1 w1)
    as [[hook2 w2] [rs|e]] eqn:Hr.
  - cbn. split; [reflexivity|]. split; [|reflexivity].
    intros _. exists hook1, w1, patient, id, normalized.
    repeat split; try assumption. rewrite Hr. cbn.
    unfold UsePatients.createReports in Hr.
    destruct (UsePatients.post_reports serve id normalized w1) as [w3 [[]|e]];
      [|discriminate].
    injection Hr as _ _ <-. reflexivity.
  - cbn. split; [reflexivity|]. rewrite Hroute. split; [discriminate|].
    intros (? & ? & ? & ? & ? & Hx & Hid' & Hn' & Hr').
    injection Hx as <- <- <-.
    rewrite Hid in Hid'. injection Hid' as <-.
    injection Hn' as <-.
    rewrite Hr in Hr'. discriminate Hr'.
Qed.

(** X27.  With no report attached, the page with reports does what the
    first version of the page does: both send the one request of
    [createPatient] and nothing else, both go on to [/patients] when the
    patient was created (and its answer has a readable [id]), and both stay
    when it was not. *)
Theorem without_reports_the_two_pages_agree (page : State)
    (basic : BasicNewPatientPage.State) (hook : UsePatients.State)
    (w : World Server) :
  reports page = [] ->
  BasicNewPatientPage.formData basic = formData page ->
  (handleSubmit serve page hook w).2
  = (BasicNewPatientPage.handleSubmit serve basic hook w).2
  /\ (handleSubmit serve page hook w).2
     = (UsePatients.createPatient serve (formData page) hook w).1.2
  /\ (forall patient id,
        (UsePatients.createPatient serve (formData page) hook w).2
        = Normal patient ->
        Get patient "id" = Normal id ->
        route (handleSubmit serve page hook w).1.1 = Some "/patients"
        /\ BasicNewPatientPage.route
             (BasicNewPatientPage.handleSubmit serve basic hook w).1.1
           = Some "/patients")
  /\ (forall e,
        (UsePatients.createPatient serve (formData page) hook w).2 = Throw e ->
        route (handleSubmit serve page hook w).1.1 = route page
        /\ BasicNewPatientPage.route
             (BasicNewPatientPage.handleSubmit serve basic hook w).1.1
           = BasicNewPatientPage.route basic).
Proof.
  intros Hreports Hform.
  unfold handleSubmit, BasicNewPatientPage.handleSubmit.
  change (formData (setLoading true page)) with (formData page).
  change (reports (setLoading true page)) with (reports page).
  change (BasicNewPatientPage.formData (BasicNewPatientPage.setLoading true basic))
    with (BasicNewPatientPage.formData basic).
  rewrite Hreports, Hform.
  destruct (UsePatients.createPatient serve (formData page) hook w)
    as [[hook1 w1] [patient|e]]; cbn [fst snd].
  - destruct (Get patient "id") as [id|e] eqn:Hid; cbn.
    + repeat split; try reflexivity; intros; discriminate.
    + repeat split; try reflexivity; intros; try discriminate.
      all: match goal with Hx : Normal _ = Normal _ |- _ => injection Hx as <- end.
      all: rewrite Hid in *; discriminate.
  - repeat split; try reflexivity; intros; discriminate.
Qed.

End Page.

Import Scenario.

Lemma handleDeleteReport_removes_one_witness :
  reports (handleDeleteReport 0 page_with_two_reports) = [report_truncated]
  /\ reports (handleDeleteReport 2 page_with_two_reports)
     = [report_typed; report_truncated].
Proof.
  pose proof (handleDeleteReport_removes_one 0 page_with_two_reports)
    as (Hd & _ & _ & _ & _).
  pose proof (handleDeleteReport_removes_one 2 page_with_two_reports)
    as (_ & Hbeyond & _ & _ & _).
  split; [rewrite Hd; reflexivity|].
  rewrite Hbeyond; [reflexivity|]. cbn. lia.
Defined.

Lemma structured_report_is_sent_unchanged_witness :
  normalize_report (H := UtcHost.host) structured_fields = Normal structured_fields.
Proof.
  apply (structured_report_is_sent_unchanged (H := UtcHost.host) structured_fields
           [JStr "99291"; JStr "99233"] [JStr "4280"]
           [JArr [JInt 1; JInt 311]] []);
    reflexivity.
Defined.

Lemma date_field_round_trip_witness :
  handleDateChange (H := UtcHost.host) "" initial = Throw RangeError
  /\ handleDateChange (H := UtcHost.host) "1990-05-17" initial
     = Normal (handleInputChange "DOB" (JStr "1990-05-17T00:00:00.000Z") initial)
  /\ exists req,
       sent (UsePatients.createPatient (H := UtcHost.host) EntityStore.serve
               (formData (handleInputChange "DOB" (JStr "1990-05-17T00:00:00.000Z")
                            initial))
               UsePatients.initial world0).1.2 = [req]
       /\ Get (body req) "date_of_birth" = Normal (JDate (Some may_17_1990)).
Proof.
  pose proof (date_field_round_trip (H := UtcHost.host) EntityStore.serve ""
                initial UsePatients.initial world0) as [Hbad _].
  pose proof (date_field_round_trip (H := UtcHost.host) EntityStore.serve
                "1990-05-17" initial UsePatients.initial world0) as [_ Hgood].
  destruct (Hgood may_17_1990 ltac:(vm_compute; reflexivity)) as [Hset Hpost].
  destruct (Hpost ltac:(vm_compute; reflexivity))
    as (req & Hs & _ & _ & Hdob & _).
  split; [apply Hbad; vm_compute; reflexivity|]. split.
  - rewrite Hset. vm_compute. reflexivity.
  - exists req. split; [exact Hs|exact Hdob].
Defined.

Lemma page_leaves_only_after_full_success_witness :
  (exists hook1 w1 patient id normalized,
     UsePatients.createPatient (H := UtcHost.host) EntityStore.serve
       (formData page_with_typed_report) UsePatients.initial world0
     = (hook1, w1, Normal patient)
     /\ Get patient "id" = Normal id
     /\ normalize_all (H := UtcHost.host) (reports page_with_typed_report)
        = Normal normalized
     /\ (UsePatients.createReports (H := UtcHost.host) EntityStore.serve id
           normalized hook1 w1).2 = Normal normalized)
  /\ loading (handleSubmit (H := UtcHost.host) EntityStore.serve
                page_with_truncated_report UsePatients.initial world0).1.1 = false.
Proof.
  pose proof (page_leaves_only_after_full_success (H := UtcHost.host)
                EntityStore.serve page_with_typed_report UsePatients.initial world0
                ltac:(reflexivity)) as [_ Hgo].
  pose proof (page_leaves_only_after_full_success (H := UtcHost.host)
                EntityStore.serve page_with_truncated_report UsePatients.initial
                world0 ltac:(reflexivity)) as [Hl _].
  split; [|exact Hl].
  apply Hgo. vm_compute. reflexivity.
Defined.

Lemma without_reports_the_two_pages_agree_witness :
  (handleSubmit (H := UtcHost.host) EntityStore.serve page_without_reports
     UsePatients.initial world0).2
  = (BasicNewPatientPage.handleSubmit (H := UtcHost.host) EntityStore.serve
       basic_page UsePatients.initial world0).2.
Proof.
  apply (without_reports_the_two_pages_agree (H := UtcHost.host) EntityStore.serve
           page_without_reports basic_page UsePatients.initial world0);
    reflexivity.
Defined.

End NewPatientForm.

(** ** The record-vitals page *)

Module VitalsForm.
Import Js Api JsFacts.

Section Page.

Context {Server : Type}.
Variable serve : Server -> HttpRequest -> Server * HttpOutcome.
Variable patientId : JsNumber.

(** X28.  Submitting the record-vitals page posts the form as it is, in
    one request, to the vitals of the patient of the page; the page goes to
    [/patients/<id>] when the vitals were accepted, and stays as it is, with
    what was typed, when they were rejected. *)
Theorem vitals_form_is_posted_as_it_is (page : RecordVitalsPage.State)
    (hook : UseVitalSigns.State) (w : World Server) :
  (exists req,
     sent (RecordVitalsPage.handleSubmit serve patientId page hook w).2
     = sent w ++ [req]
     /\ method req = "POST"
     /\ url req = "/api/v1/patients/" +:+ Number_toString patientId +:+ "/vitals"
     /\ body req = JObj (RecordVitalsPage.formData page))
  /\ (forall row,
        (UseVitalSigns.createVitalSigns serve patientId
           (JObj (RecordVitalsPage.formData page)) hook w).2 = Normal row ->
        RecordVitalsPage.route
          (RecordVitalsPage.handleSubmit serve patientId page hook w).1.1
        = Some ("/patients/" +:+ Number_toString patientId)
        /\ RecordVitalsPage.formData
             (RecordVitalsPage.handleSubmit serve patientId page hook w).1.1
           = RecordVitalsPage.formData page)
  /\ (forall e,
        (UseVitalSigns.createVitalSigns serve patientId
           (JObj (RecordVitalsPage.formData page)) hook w).2 = Throw e ->
        (RecordVitalsPage.handleSubmit serve patientId page hook w).1.1 = page).
Proof.
  unfold RecordVitalsPage.handleSubmit, UseVitalSigns.createVitalSigns.
  destruct (PatientHook.request_sent serve "POST"
              (UseVitalSigns.vitals_url patientId) ∅
              (JObj (RecordVitalsPage.formData page)) w)
    as (req & Hs & Hm & Hu & Hb).
  unfold apiClient.post.
  destruct (apiClient.request serve _ _ _ _ w) as [w1 [response|e]];
    cbn [fst snd] in *.
  - split; [exists req; repeat split; assumption|].
    split; [intros; split; reflexivity|intros; discriminate].
  - split; [exists req; repeat split; assumption|].
    split; [intros; discriminate|intros; reflexivity].
Qed.

End Page.

Import Scenario.

Lemma vitals_form_is_posted_as_it_is_witness :
  RecordVitalsPage.route
    (RecordVitalsPage.handleSubmit EntityStore.serve (Dec 7 0)
       (RecordVitalsPage.initial (H := UtcHost.host) now_ms)
       UseVitalSigns.initial (world_of store_with_vitals)).1.1
  = Some "/patients/7".
Proof.
  pose proof (vitals_form_is_posted_as_it_is EntityStore.serve (Dec 7 0)
                (RecordVitalsPage.initial (H := UtcHost.host) now_ms)
                UseVitalSigns.initial (world_of store_with_vitals))
    as (_ & Hok & _).
  destruct (Hok (JObj [("measured_at", JStr "2025-03-03T09:30:00.000Z");
                       ("id", JInt 100); ("patient_id", JInt 7)])
              ltac:(vm_compute; reflexivity)) as [Hroute _].
  rewrite Hroute. vm_compute. reflexivity.
Defined.

End VitalsForm.

(** ** Procedure pairs: what the details page shows can be typed back *)

Module PairsRoundTrip.
Import Js Api JsFacts NewPatientPage.

Lemma append_assoc (a b c : string) : (a +:+ b) +:+ c = a +:+ (b +:+ c).
Proof. induction a as [|x a IH]; [reflexivity|]. rewrite !append_cons, IH. reflexivity. Qed.

Lemma append_empty (a : string) : a +:+ "" = a.
Proof. induction a as [|x a IH]; [reflexivity|]. rewrite append_cons, IH. reflexivity. Qed.

Lemma digits_value_acc (d : uint) (acc : positive) :
  digits_value (Z.pos acc) (NilEmpty.string_of_uint d)
  = Z.pos (Pos.of_uint_acc d acc).
Proof.
  revert acc.
  induction d; intros acc; cbn [NilEmpty.string_of_uint digits_value Pos.of_uint_acc];
    [reflexivity|..];
    rewrite <- IHd; f_equal;
    match goal with
    | |- context [Z.of_N (code ?c - 48)] =>
        let v := eval vm_compute in (Z.of_N (code c - 48)) in
        change (Z.of_N (code c - 48)) with v
    end; lia.
Qed.

Lemma digits_value_of_uint (d : uint) :
  digits_value 0 (NilEmpty.string_of_uint d) = Z.of_N (Pos.of_uint d).
Proof.
  induction d; cbn [NilEmpty.string_of_uint digits_value Pos.of_uint];
    [reflexivity|exact IHd|..];
    match goal with
    | |- context [Z.of_N (code ?c - 48)] =>
        let v := eval vm_compute in (0 * 10 + Z.of_N (code c - 48))%Z in
        change (0 * 10 + Z.of_N (code c - 48))%Z with v
    end; apply digits_value_acc.
Qed.

Lemma digits_value_digits (n : Z) :
  (0 <= n)%Z -> digits_value 0 (digits_of n) = n.
Proof.
  intros Hn. unfold digits_of. rewrite digits_value_of_uint.
  change (Pos.of_uint (N.to_uint (Z.to_N (Z.abs n))))
    with (N.of_uint (N.to_uint (Z.to_N (Z.abs n)))).
  rewrite DecimalN.Unsigned.of_to. lia.
Qed.

Lemma span_digits_app (ds rest : string) :
  all_chars is_digit ds = true ->
  match rest with
  | String c _ => is_digit c = false
  | EmptyString => True
  end ->
  span_digits (ds +:+ rest) = (ds, rest).
Proof.
  intros Hds Hrest. induction ds as [|c ds IH].
  - change ("" +:+ rest) with rest. destruct rest as [|c r]; [reflexivity|].
    cbn [span_digits]. rewrite Hrest. reflexivity.
  - cbn [all_chars] in Hds. apply andb_prop in Hds as [Hc Hds].
    rewrite append_cons. cbn [span_digits]. rewrite Hc, (IH Hds). reflexivity.
Qed.

(** The decimal digits of a number do not begin with a zero, the number 0
    apart. *)
Lemma digits_no_leading_zero (n : Z) :
  (1 <? String.length (digits_of n))%nat && startsWith (digits_of n) "0" = false.
Proof.
  unfold digits_of. generalize (Z.to_N (Z.abs n)). intros m.
  pose proof (DecimalN.Unsigned.to_of (N.to_uint m)) as Hnorm.
  rewrite DecimalN.Unsigned.of_to in Hnorm. revert Hnorm.
  destruct (N.to_uint m) as [|l|l|l|l|l|l|l|l|l|l]; intros Hnorm;
    cbn [NilEmpty.string_of_uint]; try reflexivity.
  2-10: apply andb_false_iff; right; unfold startsWith;
        cbn [String.prefix]; reflexivity.
  rewrite DecimalFacts.unorm_D0 in Hnorm. unfold unorm in Hnorm.
  destruct (nzhead l) as [|l'|l'|l'|l'|l'|l'|l'|l'|l'|l'] eqn:El;
    try discriminate Hnorm.
  - injection Hnorm as ->. reflexivity.
  - exfalso. exact (DecimalFacts.nzhead_nonzero l l' El).
Qed.

Lemma digits_all_digits (n : Z) : all_chars is_digit (digits_of n) = true.
Proof. unfold digits_of. apply GatePaths.digits_are_digits. Qed.

(** A number in front of a comma or a closing bracket. *)
Lemma parse_number_digits (n : Z) (c : ascii) (rest : string) :
  (0 <= n)%Z ->
  c = ","%char \/ c = "]"%char ->
  parse_number (digits_of n +:+ String c rest) = Some (Dec n 0, String c rest).
Proof.
  intros Hn Hc.
  pose proof (digits_all_digits n) as Hall.
  pose proof (digits_of_nonempty n) as Hne.
  pose proof (digits_no_leading_zero n) as Hzero.
  pose proof (digits_value_digits n Hn) as Hval.
  assert (Hspan : span_digits (digits_of n +:+ String c rest)
                  = (digits_of n, String c rest)).
  { apply span_digits_app; [exact Hall|]. destruct Hc as [-> | ->]; reflexivity. }
  destruct (digits_of n) as [|c0 d0] eqn:Hd; [discriminate|].
  assert (Hminus : Ascii.eqb c0 "-" = false).
  { cbn [all_chars] in Hall. apply andb_prop in Hall as [Hc0 _]. revert Hc0.
    apply (ascii_excludes is_digit (fun c => Ascii.eqb c "-")).
    vm_compute. reflexivity. }
  unfold parse_number. rewrite append_cons, Hminus.
  rewrite append_cons in Hspan. rewrite Hspan.
  cbv iota beta. cbn [is_empty]. rewrite Hzero.
  assert (Hdot : Ascii.eqb c "." = false) by (destruct Hc as [-> | ->]; reflexivity).
  assert (He : Ascii.eqb c "e" || Ascii.eqb c "E" = false)
    by (destruct Hc as [-> | ->]; reflexivity).
  rewrite Hdot. cbn [mbind option_bind]. rewrite He. cbn [mbind option_bind].
  rewrite append_empty, Hval. reflexivity.
Qed.

Lemma digit_starts_a_number (c : ascii) :
  is_digit c = true ->
  is_json_ws c = false /\ Ascii.eqb c "[" = false /\ Ascii.eqb c "{" = false
  /\ Ascii.eqb c dquote = false /\ Ascii.eqb c "t" = false
  /\ Ascii.eqb c "f" = false /\ Ascii.eqb c "n" = false
  /\ Ascii.eqb c "]" = false.
Proof.
  intros Hc.
  split; [revert Hc; apply (ascii_excludes is_digit is_json_ws);
          vm_compute; reflexivity|].
  repeat split; revert Hc;
    match goal with
    | |- _ -> Ascii.eqb _ ?ch = false =>
        apply (ascii_excludes is_digit (fun c => Ascii.eqb c ch))
    end; vm_compute; reflexivity.
Qed.

Lemma parse_value_digits (f : nat) (n : Z) (c : ascii) (rest : string) :
  (0 <= n)%Z ->
  c = ","%char \/ c = "]"%char ->
  parse_value (S f) (digits_of n +:+ String c rest)
  = Some (JInt n, String c rest).
Proof.
  intros Hn Hc.
  pose proof (parse_number_digits n c rest Hn Hc) as Hnum.
  pose proof (digits_all_digits n) as Hall.
  pose proof (digits_of_nonempty n) as Hne.
  destruct (digits_of n) as [|c0 d0]; [discriminate|].
  cbn [all_chars] in Hall. apply andb_prop in Hall as [Hc0 _].
  destruct (digit_starts_a_number c0 Hc0) as (H1 & H2 & H3 & H4 & H5 & H6 & H7 & _).
  rewrite append_cons in *. cbn [parse_value skip_ws].
  rewrite H1, H2, H3, H4, H5, H6, H7, Hnum. reflexivity.
Qed.

Lemma parse_value_bracket (f : nat) (r : string) :
  parse_value (S f) (String "[" r)
  = match skip_ws r with
    | String c' r' =>
        if Ascii.eqb c' "]" then Some (JArr [], r')
        else '(xs, t) ← parse_elements f r; Some (JArr xs, t)
    | EmptyString => None
    end.
Proof. reflexivity. Qed.

Lemma parse_elements_eq (f : nat) (s : string) :
  parse_elements (S f) s
  = '(v, r) ← parse_value f s;
    match skip_ws r with
    | String c r' =>
        if Ascii.eqb c "," then '(vs, t) ← parse_elements f r'; Some (v :: vs, t)
        else if Ascii.eqb c "]" then Some ([v], r')
        else None
    | EmptyString => None
    end.
Proof. reflexivity. Qed.

(** The digits of a number begin with a character that is neither white
    space nor a closing bracket. *)
Lemma digits_head (n : Z) (r : string) :
  exists c0 d0,
    digits_of n +:+ r = String c0 d0
    /\ is_json_ws c0 = false /\ Ascii.eqb c0 "]" = false.
Proof.
  pose proof (digits_all_digits n) as Hall.
  pose proof (digits_of_nonempty n) as Hne.
  destruct (digits_of n) as [|c0 d0]; [discriminate|].
  cbn [all_chars] in Hall. apply andb_prop in Hall as [Hc0 _].
  destruct (digit_starts_a_number c0 Hc0) as (H1 & _ & _ & _ & _ & _ & _ & H8).
  exists c0, (d0 +:+ r). rewrite append_cons. repeat split; assumption.
Qed.

(** The text of a pair, followed by anything. *)
Lemma parse_pair (fuel : nat) (a b : Z) (rest : string) :
  (0 <= a)%Z -> (0 <= b)%Z -> (4 <= fuel)%nat ->
  parse_value fuel
    (String "[" (digits_of a +:+ String "," (digits_of b +:+ String "]" rest)))
  = Some (pair_array (a, b), rest).
Proof.
  intros Ha Hb Hfuel. destruct fuel as [|[|[|[|f]]]]; try lia. clear Hfuel.
  rewrite parse_value_bracket.
  pose proof (parse_value_digits (S f) a "," (digits_of b +:+ String "]" rest)
                Ha ltac:(left; reflexivity)) as Pa.
  pose proof (parse_value_digits f b "]" rest Hb ltac:(right; reflexivity)) as Pb.
  destruct (digits_head a (String "," (digits_of b +:+ String "]" rest)))
    as (c0 & d0 & Hd & Hws & Hbr).
  rewrite Hd in *. cbn [skip_ws]. rewrite Hws, Hbr.
  rewrite parse_elements_eq, Pa. cbn [mbind option_bind].
  change (skip_ws (String "," (digits_of b +:+ String "]" rest)))
    with (String "," (digits_of b +:+ String "]" rest)).
  cbv iota. change (Ascii.eqb "," ",") with true. cbv iota.
  rewrite parse_elements_eq, Pb. cbn [mbind option_bind].
  reflexivity.
Qed.

Lemma length_append (a b : string) :
  String.length (a +:+ b) = (String.length a + String.length b)%nat.
Proof. induction a as [|x a IH]; [reflexivity|]. rewrite append_cons. cbn. rewrite IH. reflexivity. Qed.

Lemma pair_text_app (a b : Z) (rest : string) :
  String "[" (digits_of a +:+ String "," (digits_of b +:+ "]")) +:+ rest
  = String "[" (digits_of a +:+ String "," (digits_of b +:+ String "]" rest)).
Proof.
  rewrite append_cons, append_assoc, append_cons, append_assoc. reflexivity.
Qed.

(** The elements of an array of pairs, each followed by a comma or, the
    last one, by the closing bracket. *)
Lemma parse_elements_pairs (texts : list string) (pairs : list (Z * Z))
    (fuel : nat) (rest : string) :
  pairs <> [] ->
  Forall2 (fun text ab =>
             (0 <= ab.1)%Z /\ (0 <= ab.2)%Z
             /\ text = String "[" (digits_of ab.1 +:+ String ","
                                     (digits_of ab.2 +:+ "]")))
    texts pairs ->
  (4 + length pairs <= fuel)%nat ->
  parse_elements fuel (join "," texts +:+ String "]" rest)
  = Some (pair_array <$> pairs, rest).
Proof.
  intros Hne Hall. revert fuel.
  induction Hall as [|text [a b] texts pairs (Ha & Hb & ->) Hrest IH];
    [contradiction|].
  intros fuel Hfuel. cbn [length] in Hfuel.
  destruct fuel as [|fuel]; [lia|]. rewrite parse_elements_eq.
  cbn [fst snd] in *.
  destruct Hrest as [|text' ab' texts' pairs' Hhead Htail].
  - change (join "," [String "[" (digits_of a +:+ String "," (digits_of b +:+ "]"))])
      with (String "[" (digits_of a +:+ String "," (digits_of b +:+ "]"))).
    rewrite pair_text_app.
    rewrite (parse_pair fuel a b (String "]" rest) Ha Hb) by (cbn in Hfuel; lia).
    reflexivity.
  - change (join "," (String "[" (digits_of a +:+ String "," (digits_of b +:+ "]"))
                      :: text' :: texts'))
      with (String "[" (digits_of a +:+ String "," (digits_of b +:+ "]"))
            +:+ String "," (join "," (text' :: texts'))).
    rewrite append_assoc,
      (append_cons "," (join "," (text' :: texts')) (String "]" rest)),
      pair_text_app.
    rewrite (parse_pair fuel a b _ Ha Hb) by (cbn in Hfuel; lia).
    cbn [mbind option_bind].
    change (skip_ws (String "," ?x)) with (String "," x).
    cbv iota. change (Ascii.eqb "," ",") with true. cbv iota.
    rewrite IH by (try discriminate; cbn [length] in *; lia).
    reflexivity.
Qed.

Lemma join_length (texts : list string) :
  Forall (fun text => (1 <= String.length text)%nat) texts ->
  (length texts <= String.length (join "," texts))%nat.
Proof.
  induction 1 as [|x r Hx Hr IH]; [cbn; lia|].
  destruct r as [|y r]; [cbn; lia|].
  change (join "," (x :: y :: r)) with (x +:+ String "," (join "," (y :: r))).
  rewrite length_append. cbn [String.length length] in *. lia.
Qed.

Section Pairs.

Context `{Host}.

(** The text that [JSON.stringify] writes for a pair of integers. *)
Lemma stringify_pair (a b : Z) :
  (0 <= a < 10 ^ 21)%Z -> (0 <= b < 10 ^ 21)%Z ->
  default "null" (stringify (pair_array (a, b)))
  = String "[" (digits_of a +:+ String "," (digits_of b +:+ "]")).
Proof.
  intros Ha Hb.
  change (default "null" (stringify (pair_array (a, b))))
    with (String "[" ((Number_toString (Dec a 0)
                       +:+ String "," (Number_toString (Dec b 0))) +:+ "]")).
  rewrite (Number_toString_id a Ha), (Number_toString_id b Hb).
  rewrite append_assoc, append_cons. reflexivity.
Qed.

(** X29. The text that the details page shows for a report's procedure
    pairs ([JSON.stringify(report.procedure_pairs)]) is accepted by the new
    patient page when it is typed into the procedure pairs field: for an
    array of pairs of integers between 0 and 2^53, [JSON.parse] of that text
    gives back the same array, which is what [handleSubmit] sends. *)
Theorem shown_pairs_can_be_typed_back (pairs : list (Z * Z)) :
  Forall (fun ab => (0 <= ab.1 <= 9007199254740992)%Z
                    /\ (0 <= ab.2 <= 9007199254740992)%Z) pairs ->
  exists text,
    JSON_stringify (pairs_array pairs) = JStr text
    /\ pairs_of (JStr text) = Normal (pairs_array pairs).
Proof.
  intros Hpairs.
  set (texts := (fun x => default "null" (stringify x)) <$> (pair_array <$> pairs)).
  exists ("[" +:+ join "," texts +:+ "]"). split; [reflexivity|].
  change (pairs_of (JStr ("[" +:+ join "," texts +:+ "]")))
    with (JSON_parse ("[" +:+ join "," texts +:+ "]")).
  assert (Hall : Forall2 (fun text ab =>
             (0 <= ab.1)%Z /\ (0 <= ab.2)%Z
             /\ text = String "[" (digits_of ab.1 +:+ String ","
                                     (digits_of ab.2 +:+ "]")))
            texts pairs).
  { unfold texts. clear texts. induction Hpairs as [|[a b] r [Ha Hb] Hr IH];
      [constructor|].
    cbn [fmap list_fmap]. constructor; [|exact IH]. cbn [fst snd] in *.
    split; [lia|]. split; [lia|]. apply stringify_pair; lia. }
  destruct pairs as [|ab pairs]; [reflexivity|].
  assert (Hlen : (length (ab :: pairs) <= String.length (join "," texts))%nat).
  { rewrite <- (Forall2_length _ _ _ Hall). apply join_length.
    clear -Hall. induction Hall as [|? ? ? ? (_ & _ & ->) _ IH]; constructor;
      [cbn; lia|exact IH]. }
  unfold JSON_parse.
  change ("[" +:+ join "," texts +:+ "]")
    with (String "[" (join "," texts +:+ String "]" "")).
  cbn [String.length]. rewrite length_append. cbn [String.length].
  replace (2 * S (String.length (join "," texts) + 1) + 2)%nat
    with (S (2 * String.length (join "," texts) + 5))%nat by lia.
  rewrite parse_value_bracket.
  rewrite (parse_elements_pairs texts (ab :: pairs)
             (2 * String.length (join "," texts) + 5) "" ltac:(discriminate) Hall)
    by lia.
  destruct (Forall2_cons_inv_r _ _ _ _ Hall)
    as (text & texts' & (_ & _ & Htext) & _ & Etexts).
  rewrite Etexts, Htext.
  destruct texts' as [|t2 r2]; reflexivity.
Qed.

End Pairs.

Lemma shown_pairs_can_be_typed_back_witness :
  exists text,
    JSON_stringify (H := UtcHost.host) (pairs_array [(1, 311); (2, 3323)]%Z)
    = JStr text
    /\ pairs_of (H := UtcHost.host) (JStr text)
       = Normal (pairs_array [(1, 311); (2, 3323)]%Z).
Proof.
  apply (shown_pairs_can_be_typed_back (H := UtcHost.host)
           [(1, 311); (2, 3323)]%Z).
  repeat constructor; cbn; lia.
Defined.

End PairsRoundTrip.
